(** * PHIVOLCS earthquake scraper: a shallow embedding of [scrape_phivolcs.py]

    The development follows the Python module top to bottom:

    - text primitives ([str.lower], [str.strip]) and the small regular
      expression dialect the module passes to [Series.str.contains] and
      [Series.str.match];
    - a model of the pandas objects the module manipulates (cells, labelled
      rows, [DataFrame], boolean [Series] with index alignment);
    - the table normaliser shared by [scrape_current_month_from_main_page]
      and [scrape_phivolcs_data_from_html];
    - the HTTP layer with its exceptions and the per-year loop of
      [scrape_year_data];
    - the cleaning and standardisation block of [scrape_year_data], outside
      any [try], with the exceptions that leave it;
    - the loop over the years of [scrape_multiple_years].

    The module's own code is modelled by definitions.  The library functions
    it calls are parameters of the model: the formatting of floats,
    [pd.read_html], [session.get], the clock, [pd.to_numeric] and the cast of
    [pd.concat] to common dtypes.  What the statements need of
    [pd.to_numeric] and of the cast is stated as a hypothesis where it is
    used, and met by the sample functions the statements are exercised on.

    Text is modelled over the code points U+0000..U+00FF (one [ascii] per code
    point).  This range contains both degree glyphs used by the module
    (U+00BA and U+00B0); inside it [str.lower], [str.strip], [\d] and
    case-insensitive matching are modelled exactly. *)

From Stdlib Require Import Bool List Arith ZArith Lia Permutation.
From Stdlib Require Import Ascii String DecimalString Floats.
Import ListNotations.

Local Open Scope bool_scope.
Local Open Scope list_scope.

(* ================================================================= *)
(** ** Text primitives *)

Module Text.

Definition code (c : ascii) : nat := nat_of_ascii c.

Definition between (lo hi : nat) (c : ascii) : bool :=
  (lo <=? code c) && (code c <=? hi).

(** [str.isspace] for one code point below U+0100: TAB..CR, FS..US, SPACE,
    NEL (U+0085) and NO-BREAK SPACE (U+00A0). *)
Definition isspace (c : ascii) : bool :=
  between 9 13 c || between 28 32 c || (code c =? 133) || (code c =? 160).

(** The characters that have a lower-case partner below U+0100: [A-Z] and
    U+00C0..U+00DE without the multiplication sign U+00D7. *)
Definition has_lower (c : ascii) : bool :=
  between 65 90 c || (between 192 222 c && negb (code c =? 215)).

Definition lower_char (c : ascii) : ascii :=
  if has_lower c then ascii_of_nat (code c + 32) else c.

(** [str.lower()] *)
Fixpoint lower (s : string) : string :=
  match s with
  | EmptyString => EmptyString
  | String c s' => String (lower_char c) (lower s')
  end.

Fixpoint lstrip (s : string) : string :=
  match s with
  | EmptyString => EmptyString
  | String c s' => if isspace c then lstrip s' else s
  end.

Fixpoint rstrip (s : string) : string :=
  match s with
  | EmptyString => EmptyString
  | String c s' =>
      match rstrip s' with
      | EmptyString => if isspace c then EmptyString else String c EmptyString
      | r => String c r
      end
  end.

(** [str.strip()] without argument. *)
Definition strip (s : string) : string := rstrip (lstrip s).

(** Plain substring test, [needle in hay]. *)
Fixpoint contains (needle hay : string) : bool :=
  prefix needle hay ||
  match hay with
  | EmptyString => false
  | String _ hay' => contains needle hay'
  end.

(** Substring test that ignores case. *)
Definition contains_ci (needle hay : string) : bool :=
  contains (lower needle) (lower hay).

(** [str(n)] for a Python integer. *)
Definition str_of_int (z : Z) : string :=
  NilEmpty.string_of_int (Z.to_int z).

(** Does the text end with white space? *)
Fixpoint ends_with_space (s : string) : bool :=
  match s with
  | EmptyString => false
  | String c EmptyString => isspace c
  | String _ s' => ends_with_space s'
  end.

End Text.

(* ================================================================= *)
(** ** Regular expressions

    The module only uses alternations of sequences of one-character atoms,
    with the anchors [^] and [$], one character class [[x-y]], [\d], the
    wildcard [.] and the counted repetition [{n}].  [compile] reads a
    pattern of that dialect; [search] and [rmatch] are [re.search] and
    [re.match]. *)

Module Re.

Import Text.

Inductive atom : Type :=
| Lit (c : ascii)            (* the character itself *)
| LitI (c : ascii)           (* the character, under re.IGNORECASE *)
| Dot                        (* any character but a newline *)
| Range (lo hi : ascii)      (* [lo-hi] *)
| Digit                      (* \d *)
| Bol                        (* ^ *)
| Eol.                       (* $ *)

Definition regex : Type := list (list atom).

Definition newline : ascii := "010"%char.

(** One character against one consuming atom.  Under IGNORECASE a literal
    matches every character with the same lower-case form. *)
Definition atom_match (a : atom) (c : ascii) : bool :=
  match a with
  | Lit p => Ascii.eqb c p
  | LitI p => Ascii.eqb (lower_char c) (lower_char p)
  | Dot => negb (Ascii.eqb c newline)
  | Range lo hi => between (code lo) (code hi) c
  | Digit => between 48 57 c
  | Bol | Eol => false
  end.

(** [$] holds at the end of the text and just before a final newline. *)
Definition at_eol (s : string) : bool :=
  match s with
  | EmptyString => true
  | String c EmptyString => Ascii.eqb c newline
  | _ => false
  end.

(** Does the sequence [p] match at the head of [s]?  [start] tells whether
    the head of [s] is the start of the whole text. *)
Fixpoint match_here (p : list atom) (start : bool) (s : string) : bool :=
  match p with
  | [] => true
  | Bol :: p' => start && match_here p' start s
  | Eol :: p' => at_eol s && match_here p' start s
  | a :: p' =>
      match s with
      | EmptyString => false
      | String c s' => atom_match a c && match_here p' false s'
      end
  end.

Definition match_alts (r : regex) (start : bool) (s : string) : bool :=
  existsb (fun p => match_here p start s) r.

Fixpoint search_from (r : regex) (start : bool) (s : string) : bool :=
  match_alts r start s ||
  match s with
  | EmptyString => false
  | String _ s' => search_from r false s'
  end.

(** [re.search(r, s) is not None] *)
Definition search (r : regex) (s : string) : bool := search_from r true s.

(** [re.match(r, s) is not None] *)
Definition rmatch (r : regex) (s : string) : bool := match_alts r true s.

(** *** Reading a pattern *)

Definition digit_value (c : ascii) : nat := code c - 48.

(** [cur] is the alternative being read, last atom first; [done] holds the
    finished alternatives, last one first. *)
Fixpoint compile_aux (icase : bool) (s : string)
         (cur : list atom) (done : list (list atom)) : regex :=
  match s with
  | EmptyString => rev (rev cur :: done)
  | String c s' =>
      if Ascii.eqb c "|" then compile_aux icase s' [] (rev cur :: done)
      else if Ascii.eqb c "." then compile_aux icase s' (Dot :: cur) done
      else if Ascii.eqb c "^" then compile_aux icase s' (Bol :: cur) done
      else if Ascii.eqb c "$" then compile_aux icase s' (Eol :: cur) done
      else if Ascii.eqb c "\" then
        match s' with
        | String "d" s'' => compile_aux icase s'' (Digit :: cur) done
        | String e s'' => compile_aux icase s'' (Lit e :: cur) done
        | EmptyString => rev (rev cur :: done)
        end
      else if Ascii.eqb c "[" then
        match s' with
        | String lo (String "-" (String hi (String "]" s''))) =>
            compile_aux icase s'' (Range lo hi :: cur) done
        | _ => compile_aux icase s' (Lit c :: cur) done
        end
      else if Ascii.eqb c "{" then
        match s', cur with
        | String n (String "}" s''), a :: cur' =>
            compile_aux icase s'' (repeat a (digit_value n) ++ cur') done
        | _, _ => compile_aux icase s' (Lit c :: cur) done
        end
      else compile_aux icase s' ((if icase then LitI c else Lit c) :: cur) done
  end.

(** [re.compile(pattern)], or with [re.IGNORECASE] when [icase]. *)
Definition compile (icase : bool) (pattern : string) : regex :=
  compile_aux icase pattern [] [].

(** The atoms of a literal pattern, case-sensitive and not. *)
Definition literal (s : string) : list atom := map Lit (list_ascii_of_string s).
Definition literal_nocase (s : string) : list atom := map LitI (list_ascii_of_string s).

End Re.

(* ================================================================= *)
(** ** Exceptions *)

Inductive exn : Type :=
| HTTPError (status : Z)   (* requests.exceptions.HTTPError, with response.status_code *)
| RequestException         (* ConnectionError, Timeout, TooManyRedirects, ... *)
| ValueError               (* e.g. pandas: no tables found; embedded null byte *)
| KeyError (key : string)
| IndexError
| IndexingError            (* pandas: unalignable boolean Series *)
| OverflowError            (* int too large to convert to float *)
| FileNotFoundError.       (* os.makedirs('') *)

Inductive result (A : Type) : Type :=
| Ok (a : A)
| Raise (e : exn).

Arguments Ok {A} a.
Arguments Raise {A} e.

Definition bind {A B : Type} (m : result A) (k : A -> result B) : result B :=
  match m with
  | Ok a => k a
  | Raise e => Raise e
  end.

Notation "x <- m ;; k" := (bind m (fun x => k))
  (at level 61, m at next level, right associativity).

(* ================================================================= *)
(** ** The pandas objects the module works with *)

Module Pandas.

Import Text Re.

(** A cell of a frame: text, an integer, or a float.  The missing value is
    the float NaN, as in pandas. *)
Inductive cell : Type :=
| Str (s : string)
| Int (z : Z)
| Flt (f : float).

Definition NaN : cell := Flt nan.

(** [pd.isnull] on one cell. *)
Definition isnull (c : cell) : bool :=
  match c with
  | Flt f => is_nan f
  | _ => false
  end.

(** [cell == 0] *)
Definition eq_zero (c : cell) : bool :=
  match c with
  | Int z => (z =? 0)%Z
  | Flt f => (f =? 0)%float
  | Str _ => false
  end.

Definition is_text (c : cell) : bool :=
  match c with
  | Str _ => true
  | _ => false
  end.

Definition is_int (c : cell) : bool :=
  match c with
  | Int _ => true
  | _ => false
  end.

Definition is_float (c : cell) : bool :=
  match c with
  | Flt _ => true
  | _ => false
  end.

(** An integer, or a float other than NaN. *)
Definition is_number (c : cell) : bool :=
  match c with
  | Str _ => false
  | Int _ => true
  | Flt f => negb (is_nan f)
  end.

(** A Series: values with their index labels. *)
Definition Series (A : Type) : Type := list (nat * A).

(** A DataFrame: column labels, and the rows with their index labels. *)
Record DataFrame : Type := mkDF {
  columns : list string;
  rows : list (nat * list cell)
}.

Definition index (df : DataFrame) : list nat := map fst (rows df).
Definition labels {A : Type} (s : Series A) : list nat := map fst s.
Definition values {A : Type} (s : Series A) : list A := map snd s.

(** [df.shape[0]], [df.shape[1]] and [df.empty]. *)
Definition shape0 (df : DataFrame) : nat := List.length (rows df).
Definition shape1 (df : DataFrame) : nat := List.length (columns df).
Definition empty (df : DataFrame) : bool := (shape0 df =? 0) || (shape1 df =? 0).

(** Every row is as wide as the header. *)
Definition well_formed (df : DataFrame) : Prop :=
  forall r, In r (rows df) -> List.length (snd r) = shape1 df.

Fixpoint index_eqb (a b : list nat) : bool :=
  match a, b with
  | [], [] => true
  | x :: a', y :: b' => (x =? y) && index_eqb a' b'
  | _, _ => false
  end.

Fixpoint position (name : string) (cols : list string) : option nat :=
  match cols with
  | [] => None
  | c :: cs => if String.eqb c name then Some 0 else option_map S (position name cs)
  end.

Definition smap {A B : Type} (f : A -> B) (s : Series A) : Series B :=
  map (fun iv => (fst iv, f (snd iv))) s.

Definition column_at (j : nat) (df : DataFrame) : Series cell :=
  map (fun ir => (fst ir, nth j (snd ir) NaN)) (rows df).

(** The position of a label, or the KeyError pandas raises for it. *)
Definition locate (name : string) (cols : list string) : result nat :=
  match position name cols with
  | Some j => Ok j
  | None => Raise (KeyError name)
  end.

(** [df[name]] *)
Definition getitem (df : DataFrame) (name : string) : result (Series cell) :=
  j <- locate name (columns df) ;; Ok (column_at j df).

(** [df.iloc[:, j]] *)
Definition iloc_col (df : DataFrame) (j : nat) : result (Series cell) :=
  if j <? shape1 df then Ok (column_at j df) else Raise IndexError.

(** [df.iloc[:, :n]] *)
Definition iloc_cols (df : DataFrame) (n : nat) : DataFrame :=
  mkDF (firstn n (columns df))
       (map (fun ir => (fst ir, firstn n (snd ir))) (rows df)).

(** [df.columns = names] *)
Definition set_columns (df : DataFrame) (names : list string) : DataFrame :=
  mkDF names (rows df).

(** Label lookup in a Series. *)
Fixpoint lookup {A : Type} (i : nat) (s : Series A) : option A :=
  match s with
  | [] => None
  | (k, v) :: s' => if k =? i then Some v else lookup i s'
  end.

Definition lookup_or_false (i : nat) (s : Series bool) : bool :=
  match lookup i s with
  | Some b => b
  | None => false
  end.

(** [a | b] and [a & b] on boolean Series.  With equal indexes the operation
    is element by element.  Otherwise pandas aligns both operands on the
    union of their indexes and reads a label missing on one side as False.
    (pandas returns the union sorted; the result is only ever read by
    label.) *)
Definition logical (op : bool -> bool -> bool) (a b : Series bool) : Series bool :=
  if index_eqb (labels a) (labels b)
  then map (fun p => (fst (fst p), op (snd (fst p)) (snd (snd p)))) (combine a b)
  else map (fun i => (i, op (lookup_or_false i a) (lookup_or_false i b)))
           (labels a ++ filter (fun i => negb (existsb (Nat.eqb i) (labels a))) (labels b)).

Definition series_or : Series bool -> Series bool -> Series bool := logical orb.
Definition series_and : Series bool -> Series bool -> Series bool := logical andb.

(** [~a] *)
Definition series_not (a : Series bool) : Series bool := smap negb a.

Fixpoint select_rows {A : Type} (rs : list A) (flags : list bool) : list A :=
  match rs, flags with
  | r :: rs', b :: flags' =>
      if b then r :: select_rows rs' flags' else select_rows rs' flags'
  | _, _ => []
  end.

Fixpoint reindex_select (rs : list (nat * list cell)) (key : Series bool)
  : result (list (nat * list cell)) :=
  match rs with
  | [] => Ok []
  | r :: rs' =>
      match lookup (fst r) key with
      | None => Raise IndexingError
      | Some b =>
          rest <- reindex_select rs' key ;;
          Ok (if b then r :: rest else rest)
      end
  end.

(** [df[key]] for a boolean Series [key]: by position when the key has the
    frame's index, else the key is first reindexed to the frame's index,
    which fails on a label the key lacks. *)
Definition getitem_mask (df : DataFrame) (key : Series bool) : result DataFrame :=
  if index_eqb (labels key) (index df)
  then Ok (mkDF (columns df) (select_rows (rows df) (values key)))
  else rs <- reindex_select (rows df) key ;; Ok (mkDF (columns df) rs).

(** Fresh labels 0, 1, 2, ... *)
Definition renumber {A : Type} (l : list A) : list (nat * A) :=
  combine (seq 0 (List.length l)) l.

(** [df.reset_index(drop=True)] *)
Definition reset_index (df : DataFrame) : DataFrame :=
  mkDF (columns df) (renumber (map snd (rows df))).

(** [df.dropna(how='all')] *)
Definition dropna_all (df : DataFrame) : DataFrame :=
  mkDF (columns df) (filter (fun ir => negb (forallb isnull (snd ir))) (rows df)).

(** The positions of the labels [names], or the KeyError of the first one
    that is missing. *)
Fixpoint positions (names : list string) (cols : list string) : result (list nat) :=
  match names with
  | [] => Ok []
  | n :: names' =>
      j <- locate n cols ;;
      js <- positions names' cols ;;
      Ok (j :: js)
  end.

Definition any_null_at (js : list nat) (r : list cell) : bool :=
  existsb (fun j => isnull (nth j r NaN)) js.

(** [df[names].isnull().any(axis=1)] *)
Definition isnull_any (df : DataFrame) (names : list string) : result (Series bool) :=
  js <- positions names (columns df) ;;
  Ok (map (fun ir => (fst ir, any_null_at js (snd ir))) (rows df)).

(** [df.dropna(subset=names)] *)
Definition dropna_subset (df : DataFrame) (names : list string) : result DataFrame :=
  js <- positions names (columns df) ;;
  Ok (mkDF (columns df) (filter (fun ir => negb (any_null_at js (snd ir))) (rows df))).

Fixpoint replace_nth {A : Type} (j : nat) (v : A) (l : list A) : list A :=
  match l, j with
  | [], _ => []
  | _ :: l', O => v :: l'
  | x :: l', S j' => x :: replace_nth j' v l'
  end.

(** Writing one cell of a row: in place when the column exists, else as a
    new last column. *)
Definition put (pos : option nat) (v : cell) (r : list cell) : list cell :=
  match pos with
  | Some j => replace_nth j v r
  | None => r ++ [v]
  end.

Definition put_columns (name : string) (cols : list string) : list string :=
  match position name cols with
  | Some _ => cols
  | None => cols ++ [name]
  end.

(** [df[name] = v] for a scalar [v] *)
Definition setitem_scalar (df : DataFrame) (name : string) (v : cell) : DataFrame :=
  let pos := position name (columns df) in
  mkDF (put_columns name (columns df))
       (map (fun ir => (fst ir, put pos v (snd ir))) (rows df)).

(** [df[name] = s] for a Series [s] computed from [df] itself, so that it
    carries the frame's index and is written row by row. *)
Definition setitem_series (df : DataFrame) (name : string) (s : Series cell) : DataFrame :=
  let pos := position name (columns df) in
  mkDF (put_columns name (columns df))
       (map (fun p => (fst (fst p), put pos (snd (snd p)) (snd (fst p))))
            (combine (rows df) s)).

(** [df.rename(columns=mapping)] *)
Definition rename (df : DataFrame) (mapping : list (string * string)) : DataFrame :=
  mkDF (map (fun c =>
               match find (fun kv => String.eqb (fst kv) c) mapping with
               | Some kv => snd kv
               | None => c
               end) (columns df))
       (rows df).

(** [df[names]] for a list of labels that all exist in [df]. *)
Definition select_columns (df : DataFrame) (names : list string) : result DataFrame :=
  js <- positions names (columns df) ;;
  Ok (mkDF names (map (fun ir => (fst ir, map (fun j => nth j (snd ir) NaN) js)) (rows df))).

(** The union of the column labels, in order of first appearance. *)
Fixpoint union_columns (frames : list DataFrame) (acc : list string) : list string :=
  match frames with
  | [] => acc
  | df :: frames' =>
      union_columns frames'
        (acc ++ filter (fun c => negb (existsb (String.eqb c) acc)) (nodup string_dec (columns df)))
  end.

(** A row of [df] laid out on the columns [cols]; a column [df] lacks is
    filled with NaN. *)
Definition conform (cols : list string) (df : DataFrame) (r : list cell) : list cell :=
  map (fun c =>
         match position c (columns df) with
         | Some j => nth j r NaN
         | None => NaN
         end) cols.

(** What the cast of a column to the common dtype of its pieces does to one
    cell: nothing, or it turns an integer into a float, which is not NaN and
    is zero exactly when the integer is. *)
Definition cast_of (c c' : cell) : Prop :=
  c' = c \/
  (is_int c = true /\ is_float c' = true /\ isnull c' = false /\ eq_zero c' = eq_zero c).

Definition casts (rs rs' : list (list cell)) : Prop := Forall2 (Forall2 cast_of) rs rs'.

(** [pd.concat(frames, ignore_index=True)].  The rows are stacked on the
    union of the columns; [common_type] is the cast that gives each column
    the common dtype of its pieces (an int64 piece that meets a float64
    piece becomes float64). *)
Definition concat (common_type : list (list cell) -> list (list cell))
           (frames : list DataFrame) : DataFrame :=
  let cols := union_columns frames [] in
  mkDF cols
       (renumber
          (common_type
             (flat_map (fun df => map (fun ir => conform cols df (snd ir)) (rows df)) frames))).

(** [pd.concat(frames)], which keeps the index labels, for frames selected
    from one frame: their columns have the same dtypes and no cell is cast. *)
Definition concat_keep (frames : list DataFrame) : DataFrame :=
  let cols := union_columns frames [] in
  mkDF cols
       (flat_map (fun df => map (fun ir => (fst ir, conform cols df (snd ir))) (rows df)) frames).

(** The Series that holds [f row] for every row. *)
Definition row_series {A : Type} (f : list cell -> A) (rs : list (nat * list cell))
  : Series A :=
  map (fun ir => (fst ir, f (snd ir))) rs.

End Pandas.

(* ================================================================= *)
(** ** The scraper *)

Import Text Re Pandas.
Local Open Scope string_scope.
Local Open Scope list_scope.

Definition MONTH_NAMES : list string :=
  ["January"; "February"; "March"; "April"; "May"; "June";
   "July"; "August"; "September"; "October"; "November"; "December"].

Definition expected_columns : list string :=
  ["Date-Time"; "Latitude"; "Longitude"; "Depth"; "Magnitude"; "Location"].

(** U+00BA (masculine ordinal indicator) and U+00B0 (degree sign), the two
    glyphs of the header patterns. *)
Definition ordinal_glyph : string := String "186"%char EmptyString.
Definition degree_glyph : string := String "176"%char EmptyString.

Definition date_pattern : string := "Date|Time|Philippine".
Definition latitude_pattern : string :=
  ("Latitude|" ++ ordinal_glyph ++ "N|" ++ degree_glyph ++ "N")%string.
Definition longitude_pattern : string :=
  ("Longitude|" ++ ordinal_glyph ++ "E|" ++ degree_glyph ++ "E")%string.
Definition summary_pattern : string := "total|no. of events".
Definition month_abbrev_pattern : string := "^[A-Z][a-z]{2}-\d{2}$".

Definition main_url : string := "https://earthquake.phivolcs.dost.gov.ph/".

Definition month_url (year : Z) (month_name : string) : string :=
  ("https://earthquake.phivolcs.dost.gov.ph/EQLatest-Monthly/"
     ++ str_of_int year ++ "/" ++ str_of_int year ++ "_" ++ month_name ++ ".html")%string.

(** What [session.get(url, timeout=15)] does: it returns a response, or it
    raises (connection error, timeout, too many redirects). *)
Inductive http_result : Type :=
| Response (status_code : Z) (text : string)
| Failure.

(** [response.raise_for_status()]: requests raises HTTPError for the 4xx and
    5xx status codes and returns for every other one. *)
Definition raise_for_status (status_code : Z) : result unit :=
  if ((400 <=? status_code) && (status_code <? 600))%Z
  then Raise (HTTPError status_code)
  else Ok tt.

(** [datetime.now()], as far as the module reads it. *)
Record datetime : Type := mkDatetime {
  dt_year : Z;
  dt_month : nat   (* 1 .. 12 *)
}.

(** [strftime("%B")], in the C locale. *)
Definition strftime_B (d : datetime) : string :=
  match dt_month d with
  | O => ""
  | S k => nth k MONTH_NAMES ""
  end.

Fixpoint has_nul (s : string) : bool :=
  match s with
  | EmptyString => false
  | String c s' => Ascii.eqb c "000"%char || has_nul s'
  end.

(** [os.makedirs(path, exist_ok=True)]: the empty path is refused with
    FileNotFoundError and a path with a null character with ValueError; the
    file system is taken to accept every other path. *)
Definition makedirs (path : string) : result unit :=
  if String.eqb path "" then Raise FileNotFoundError
  else if has_nul path then Raise ValueError
  else Ok tt.

(** [os.path.join(output_dir, name)] for a relative [name], POSIX rules. *)
Definition path_join (dir name : string) : string :=
  if String.eqb dir "" then name
  else if String.eqb (substring (String.length dir - 1) 1 dir) "/" then (dir ++ name)%string
  else (dir ++ "/" ++ name)%string.

(** The state of the loop of [scrape_year_data], with the requests issued
    so far, oldest first. *)
Record loop_state : Type := mkLoop {
  all_data : list DataFrame;
  successful_months : list string;
  failed_months : list string;
  current_month_found : bool;
  requests : list string
}.

(** The outcome of the cleaning block up to the null-island filter. *)
Record cleaned : Type := mkCleaned {
  removed_nan_rows : DataFrame;
  removed_null_island_rows : DataFrame;
  valid : DataFrame
}.

(** What a call of [scrape_year_data] leaves behind. *)
Record year_outcome : Type := mkOutcome {
  returned : option DataFrame;
  files : list (string * DataFrame);      (* files written by [to_csv] *)
  all_removed_rows : option DataFrame;    (* the rows reported as removed *)
  final_state : loop_state
}.

(** The columns of a frame returned by the two scraping functions. *)
Definition raw_columns : list string := expected_columns ++ ["Month"; "Year"].

Definition numeric_cols : list string := ["latitude"; "longitude"; "depth"; "magnitude"].

Definition final_columns : list string :=
  ["id"; "datetime"; "latitude"; "longitude"; "depth_km"; "magnitude";
   "location"; "month"; "year"].

(** The columns of the combined frame once their names are lower-cased. *)
Definition clean_columns : list string :=
  ["date-time"; "latitude"; "longitude"; "depth"; "magnitude"; "location"; "month"; "year"].

(** [row[name]] for a row of [df]. *)
Definition field (df : DataFrame) (name : string) (r : list cell) : cell :=
  match position name (columns df) with
  | Some j => nth j r NaN
  | None => NaN
  end.

(** On a row laid out on [clean_columns]: one of latitude, longitude, depth
    and magnitude is missing; latitude and longitude are both zero. *)
Definition missing_numeric (r : list cell) : bool := any_null_at [1; 2; 3; 4] r.

Definition null_island (r : list cell) : bool :=
  eq_zero (nth 1 r NaN) && eq_zero (nth 2 r NaN).

(** What the specification asks of a record of the frame [df]: each of the
    four numeric fields holds a number (no text, no NaN), and latitude and
    longitude are not both zero. *)
Definition record_ok (df : DataFrame) (r : list cell) : Prop :=
  is_number (field df "latitude" r) = true /\
  is_number (field df "longitude" r) = true /\
  is_number (field df "depth_km" r) = true /\
  is_number (field df "magnitude" r) = true /\
  eq_zero (field df "latitude" r) && eq_zero (field df "longitude" r) = false.

(** *** Notions used in the statements *)

(** A frame that carries [month] and [year] in two last columns. *)
Definition labelled_with (month : string) (year : Z) (df : DataFrame) : Prop :=
  exists df0, columns df0 = expected_columns /\
              df = mkDF raw_columns
                        (map (fun ir => (fst ir, snd ir ++ [Str month; Int year])) (rows df0)).

(** What the loop keeps true of its state. *)
Definition loop_invariant (st : loop_state) : Prop :=
  Forall (fun d => columns d = raw_columns /\ empty d = false) (all_data st) /\
  List.length (all_data st) = List.length (successful_months st).

(** The three frames of lines 247-259, by the rows they hold. *)
Definition partitioned (rs : list (nat * list cell)) : cleaned :=
  let kept := filter (fun ir => negb (missing_numeric (snd ir))) rs in
  mkCleaned
    (mkDF clean_columns (filter (fun ir => missing_numeric (snd ir)) rs))
    (mkDF clean_columns
          (filter (fun ir => negb (missing_numeric (snd ir)) && null_island (snd ir)) kept))
    (mkDF clean_columns (filter (fun ir => negb (null_island (snd ir))) kept)).

Definition column (j : nat) (rs : list (nat * list cell)) : list cell :=
  map (fun ir => nth j (snd ir) NaN) rs.

(** The rows with the cells [v] written in column [j], row by row. *)
Definition put_column (j : nat) (v : list cell) (rs : list (nat * list cell))
  : list (nat * list cell) :=
  map (fun p => (fst (fst p), replace_nth j (snd p) (snd (fst p)))) (combine rs v).

(** Reading column [j] of [rs] gives the cells [v], row by row, wherever it
    gives a value at all: a row too short to have a column [j] reads NaN. *)
Definition agrees (j : nat) (rs : list (nat * list cell)) (v : list cell) : Prop :=
  Forall2 (fun ir c => isnull (nth j (snd ir) NaN) = false -> nth j (snd ir) NaN = c) rs v.

(** The columns after the renaming of line 280. *)
Definition renamed_columns : list string :=
  ["datetime"; "latitude"; "longitude"; "depth_km"; "magnitude"; "location"; "month"; "year"].

(** *** The run over several years *)

(** [range(start, stop)] *)
Definition py_range (start stop : Z) : list Z :=
  map (fun k => (start + Z.of_nat k)%Z) (seq 0 (Z.to_nat (stop - start))).

(** [d[k] = v] on a dict, kept in insertion order: a key already present
    keeps its place. *)
Fixpoint dict_set (k : Z) (v : nat) (d : list (Z * nat)) : list (Z * nat) :=
  match d with
  | [] => [(k, v)]
  | (k', v') :: d' => if (k' =? k)%Z then (k, v) :: d' else (k', v') :: dict_set k v d'
  end.

(** [d.get(k, 0)] *)
Fixpoint dict_get (k : Z) (d : list (Z * nat)) : nat :=
  match d with
  | [] => 0
  | (k', v) :: d' => if (k' =? k)%Z then v else dict_get k d'
  end.

(** Lines 371-373: the year files listed under "Files Created", those of
    the years whose count in the summary is positive. *)
Definition files_created (output_dir : string) (years : list Z)
           (scrape_summary : list (Z * nat)) : list string :=
  map (fun year => (output_dir ++ "/phivolcs_earthquake_" ++ str_of_int year ++ ".csv")%string)
      (filter (fun year => (0 <? dict_get year scrape_summary)%nat) years).

(** The state of the loop of [scrape_multiple_years], with the files written
    and the requests issued so far. *)
Record years_state : Type := mkYears {
  all_years_data : list DataFrame;
  scrape_summary : list (Z * nat);
  written : list (string * DataFrame);
  issued : list string
}.

(** What a call of [scrape_multiple_years] returns and leaves behind. *)
Record run_outcome : Type := mkRun {
  combined_all : option DataFrame;        (* first component of the returned pair *)
  summary : list (Z * nat);               (* second component *)
  run_files : list (string * DataFrame);  (* every file written, in order *)
  run_requests : list string
}.

(** The requests of [l] that are not for the front page. *)
Definition monthly_requests (l : list string) : list string :=
  filter (fun u => negb (String.eqb u main_url)) l.

(** A frame as a year returns it: the final columns, nine cells per record,
    each record complete and off null island. *)
Definition year_frame (df : DataFrame) : Prop :=
  columns df = final_columns /\
  Forall (fun ir => List.length (snd ir) = 9 /\ record_ok df (snd ir)) (rows df).

(** What the loop over the years keeps true, [processed] being the years
    done so far. *)
Definition years_invariant (st : years_state) (processed : list Z) : Prop :=
  Forall year_frame (all_years_data st) /\
  map fst (scrape_summary st) = processed /\
  list_sum (map snd (scrape_summary st)) = list_sum (map shape0 (all_years_data st)) /\
  map snd (written st) = all_years_data st.

Section Program.

(** The functions of the Python runtime and of the libraries that the module
    calls and that are left open here.  [to_numeric] returns the converted
    values or the exception [pd.to_numeric] raises (with [errors='coerce']
    it still raises OverflowError for an integer too large for a float). *)
Variable str_of_float : float -> string.        (* str(x) for a float *)
Variable format_4f : cell -> string.            (* format(x, '.4f') *)
Variable to_numeric : list cell -> result (list cell).
                                                (* pd.to_numeric(s, errors='coerce') on the
                                                   values of s; the result keeps the index *)
Variable common_type : list (list cell) -> list (list cell).
                                                (* the cast of pd.concat to common dtypes *)
Variable read_html : string -> result (list DataFrame).
                                                (* pd.read_html(StringIO(text), skiprows=1) *)
Variable http_get : list string -> string -> http_result.
                                                (* the server's answer to a GET, given the
                                                   requests issued before *)
Variable now : datetime.                        (* the clock during the run *)

(** [str(x)] of a cell, which is also what [astype(str)] stores. *)
Definition astype_str (c : cell) : string :=
  match c with
  | Str s => s
  | Int z => str_of_int z
  | Flt f => str_of_float f
  end.

(** [s.astype(str).str.contains(pattern, case=False, na=False)] *)
Definition contains_nocase (pattern : string) (s : Series cell) : Series bool :=
  smap (search (compile true pattern)) (smap astype_str s).

(** *** Lines 35-39 and 122-126: the first table with at least 5 columns *)
Fixpoint select_table (tables : list DataFrame) : option DataFrame :=
  match tables with
  | [] => None
  | table :: rest => if (5 <=? shape1 table)%nat then Some table else select_table rest
  end.

(** *** Lines 55-62 and 142-149: the column names *)
Definition assign_schema (df : DataFrame) : option DataFrame :=
  if (shape1 df =? 6)%nat then Some (set_columns df expected_columns)
  else if (6 <? shape1 df)%nat then Some (set_columns (iloc_cols df 6) expected_columns)
  else None.

(** *** Lines 64-70 and 151-157: header rows *)
Definition header_mask (df : DataFrame) : result (Series bool) :=
  dt <- getitem df "Date-Time" ;;
  la <- getitem df "Latitude" ;;
  lo <- getitem df "Longitude" ;;
  Ok (series_or (series_or (contains_nocase date_pattern dt)
                           (contains_nocase latitude_pattern la))
                (contains_nocase longitude_pattern lo)).

Definition remove_header_rows (df : DataFrame) : result DataFrame :=
  mask <- header_mask df ;;
  kept <- getitem_mask df (series_not mask) ;;
  Ok (reset_index kept).

(** *** Lines 72-77 and 159-164: summary and month abbreviation rows *)
Definition remove_summary_rows (df : DataFrame) : result DataFrame :=
  if negb (empty df) then
    c0 <- iloc_col df 0 ;;
    let first_col := smap strip (smap astype_str c0) in
    let summary_mask := smap (search (compile false summary_pattern)) (smap lower first_col) in
    let month_abbrev_mask := smap (rmatch (compile false month_abbrev_pattern)) first_col in
    getitem_mask df (series_not (series_or summary_mask month_abbrev_mask))
  else Ok df.

(** *** Lines 64-80 and 151-167: the row filters *)
Definition filter_rows (df : DataFrame) : result DataFrame :=
  df1 <- remove_header_rows df ;;
  df2 <- remove_summary_rows df1 ;;
  Ok (reset_index (dropna_all df2)).

(** *** The drop predicates

    [dropped] is the test the three filters above apply to one row of a
    frame that carries the expected columns.  [spec_drop] is the test in the
    words of the specification, with a plain substring test for the summary
    rows. *)
Definition cell_text (j : nat) (r : list cell) : string := astype_str (nth j r NaN).

Definition is_header_row (r : list cell) : bool :=
  (contains_ci "Date" (cell_text 0 r) || contains_ci "Time" (cell_text 0 r)
   || contains_ci "Philippine" (cell_text 0 r))
  || (contains_ci "Latitude" (cell_text 1 r)
      || contains_ci (ordinal_glyph ++ "N") (cell_text 1 r)
      || contains_ci (degree_glyph ++ "N") (cell_text 1 r))
  || (contains_ci "Longitude" (cell_text 2 r)
      || contains_ci (ordinal_glyph ++ "E") (cell_text 2 r)
      || contains_ci (degree_glyph ++ "E") (cell_text 2 r)).

Definition is_summary_row (r : list cell) : bool :=
  let t := strip (cell_text 0 r) in
  contains_ci "total" t || contains_ci "no. of events" t.

(** One capital letter, two lower-case letters, a hyphen, two digits. *)
Definition month_abbrev_text (t : string) : bool :=
  match t with
  | String a (String b (String c (String d (String e (String f EmptyString))))) =>
      between 65 90 a && between 97 122 b && between 97 122 c
      && Ascii.eqb d "-" && between 48 57 e && between 48 57 f
  | _ => false
  end.

Definition is_month_abbrev_row (r : list cell) : bool :=
  month_abbrev_text (strip (cell_text 0 r)).

Definition is_empty_row (r : list cell) : bool := forallb isnull r.

Definition spec_drop (r : list cell) : bool :=
  is_header_row r || is_summary_row r || is_month_abbrev_row r || is_empty_row r.

Definition matches_summary_pattern (r : list cell) : bool :=
  search (compile false summary_pattern) (lower (strip (cell_text 0 r))).

Definition dropped (r : list cell) : bool :=
  is_header_row r || matches_summary_pattern r || is_month_abbrev_row r || is_empty_row r.

(** The rows [keep] accepts, in their order, under fresh labels. *)
Definition keep_rows (keep : list cell -> bool) (df : DataFrame) : DataFrame :=
  mkDF (columns df) (renumber (filter keep (map snd (rows df)))).

(** *** Lines 34-80 and 121-167, the text both scraping functions share:
    [None] stands for the early [return None]. *)
Definition normalize (tables : list DataFrame) : result (option DataFrame) :=
  match select_table tables with
  | None => Ok None
  | Some df =>
      if empty df then Ok None
      else match assign_schema df with
           | None => Ok None
           | Some df' => out <- filter_rows df' ;; Ok (Some out)
           end
  end.

(** [df['Month'] = month; df['Year'] = year] *)
Definition add_metadata (df : DataFrame) (month : string) (year : Z) : DataFrame :=
  setitem_scalar (setitem_scalar df "Month" (Str month)) "Year" (Int year).

(** [session.get], [raise_for_status] and [pd.read_html]. *)
Definition fetch_tables (log : list string) (url : string) : result (list DataFrame) :=
  match http_get log url with
  | Failure => Raise RequestException
  | Response status_code text =>
      _ <- raise_for_status status_code ;;
      read_html text
  end.

(** The [try] block of [scrape_current_month_from_main_page]. *)
Definition main_page_body (log : list string) : result (option DataFrame) :=
  tables <- fetch_tables log main_url ;;
  df <- normalize tables ;;
  match df with
  | None => Ok None
  | Some df =>
      let current_month := strftime_B now in
      let current_year := dt_year now in
      Ok (Some (add_metadata df current_month current_year))
  end.

(** [scrape_current_month_from_main_page()]: the value returned or the
    exception raised, and the request log afterwards. *)
Definition scrape_current_month_from_main_page (log : list string)
  : result (option DataFrame) * list string :=
  (match main_page_body log with
   | Ok v => Ok v
   | Raise _ => Ok None                      (* except Exception *)
   end,
   log ++ [main_url]).

(** The [try] block of [scrape_phivolcs_data_from_html]. *)
Definition month_page_body (year : Z) (month_name : string) (log : list string)
  : result (option DataFrame) :=
  tables <- fetch_tables log (month_url year month_name) ;;
  df <- normalize tables ;;
  match df with
  | None => Ok None
  | Some df => Ok (Some (add_metadata df month_name year))
  end.

(** [scrape_phivolcs_data_from_html(year, month_name)] *)
Definition scrape_phivolcs_data_from_html (year : Z) (month_name : string) (log : list string)
  : result (option DataFrame) * list string :=
  let log' := log ++ [month_url year month_name] in
  match month_page_body year month_name log with
  | Ok v => (Ok v, log')
  | Raise (HTTPError status_code) =>         (* except requests.exceptions.HTTPError *)
      if (status_code =? 404)%Z
      then scrape_current_month_from_main_page log'
      else (Ok None, log')
  | Raise _ => (Ok None, log')               (* except Exception *)
  end.

(** *** Lines 204-228: one turn of the loop over the months *)
Definition record_failure (year : Z) (st : loop_state) (month_name : string)
           (log : list string) : loop_state :=
  mkLoop (all_data st) (successful_months st) (failed_months st ++ [month_name])
         (if (year =? dt_year now)%Z && negb (current_month_found st)
          then true else current_month_found st)
         log.

Definition month_step (year : Z) (st : loop_state) (month_name : string)
  : result loop_state :=
  if current_month_found st then
    Ok (mkLoop (all_data st) (successful_months st) (failed_months st ++ [month_name])
               (current_month_found st) (requests st))
  else
    let (r, log) := scrape_phivolcs_data_from_html year month_name (requests st) in
    df <- r ;;
    match df with
    | Some d =>
        if negb (empty d) then
          Ok (mkLoop (all_data st ++ [d]) (successful_months st ++ [month_name])
                     (failed_months st)
                     (if (year =? dt_year now)%Z && String.eqb month_name (strftime_B now)
                      then true else current_month_found st)
                     log)
        else Ok (record_failure year st month_name log)
    | None => Ok (record_failure year st month_name log)
    end.

Fixpoint run_months (year : Z) (months : list string) (st : loop_state)
  : result loop_state :=
  match months with
  | [] => Ok st
  | month_name :: rest => st' <- month_step year st month_name ;; run_months year rest st'
  end.

Definition initial_state (log : list string) : loop_state :=
  mkLoop [] [] [] false log.

(** *** Lines 237-259: numeric columns, missing data, null island *)

(** [for col in cols: df[col] = pd.to_numeric(df[col], errors='coerce')].
    An exception of [pd.to_numeric] is not caught. *)
Fixpoint convert_numeric (cols : list string) (df : DataFrame) : result DataFrame :=
  match cols with
  | [] => Ok df
  | col :: rest =>
      s <- getitem df col ;;
      v <- to_numeric (values s) ;;
      convert_numeric rest (setitem_series df col (combine (labels s) v))
  end.

(** Lines 244-245 for the column at position [j], by rows. *)
Definition convert_column (j : nat) (rs : list (nat * list cell))
  : result (list (nat * list cell)) :=
  v <- to_numeric (column j rs) ;;
  Ok (put_column j v rs).

Definition convert_rows (rs : list (nat * list cell)) : result (list (nat * list cell)) :=
  rs1 <- convert_column 1 rs ;;
  rs2 <- convert_column 2 rs1 ;;
  rs3 <- convert_column 3 rs2 ;;
  convert_column 4 rs3.

Definition clean_rows (combined_df : DataFrame) : result cleaned :=
  let df := set_columns combined_df (map lower (columns combined_df)) in
  df <- convert_numeric numeric_cols df ;;
  nan_mask <- isnull_any df numeric_cols ;;
  removed_nan <- getitem_mask df nan_mask ;;
  df1 <- dropna_subset df numeric_cols ;;
  lat <- getitem df1 "latitude" ;;
  lon <- getitem df1 "longitude" ;;
  let null_island_mask := series_and (smap eq_zero lat) (smap eq_zero lon) in
  removed_null_island <-
    getitem_mask df1 (series_and (series_not nan_mask) null_island_mask) ;;
  df2 <- getitem_mask df1 (series_not null_island_mask) ;;
  Ok (mkCleaned removed_nan removed_null_island df2).

(** *** Lines 279-297: renaming, the id column, the column order *)

Definition make_id (jd jla jlo jm : nat) (r : list cell) : cell :=
  Str (astype_str (nth jd r NaN) ++ "-" ++ format_4f (nth jla r NaN) ++ "-"
         ++ format_4f (nth jlo r NaN) ++ "-" ++ astype_str (nth jm r NaN))%string.

(** The row of line 297, from a row laid out on [clean_columns]. *)
Definition final_row (r : list cell) : list cell :=
  map (fun j => nth j (r ++ [make_id 0 1 2 4 r]) NaN)
      [8; 0; 1; 2; 3; 4; 5; 6; 7].

(** [df.apply(lambda row: ..., axis=1)].  On a frame without rows pandas
    calls the lambda on no row of the frame and returns an empty Series. *)
Definition id_column (df : DataFrame) : result (Series cell) :=
  match rows df with
  | [] => Ok []
  | _ :: _ =>
      jd <- locate "datetime" (columns df) ;;
      jla <- locate "latitude" (columns df) ;;
      jlo <- locate "longitude" (columns df) ;;
      jm <- locate "magnitude" (columns df) ;;
      Ok (map (fun ir => (fst ir, make_id jd jla jlo jm (snd ir))) (rows df))
  end.

Definition standardise (df : DataFrame) : result DataFrame :=
  let df := rename df [("date-time", "datetime"); ("depth", "depth_km")] in
  ids <- id_column df ;;
  let df := setitem_series df "id" ids in
  let existing_final_columns :=
    filter (fun c => existsb (String.eqb c) (columns df)) final_columns in
  select_columns df existing_final_columns.

(** *** [scrape_year_data(year, output_dir)]

    Nothing after the loop over the months sits in a [try]: an exception of
    [pd.to_numeric] (line 245) or of [os.makedirs] (line 303) leaves the
    function.  [to_csv] is taken to succeed once the directory exists;
    console output and the politeness delay are left out. *)
Definition scrape_year_data (year : Z) (output_dir : string) (log : list string)
  : result year_outcome :=
  st <- run_months year MONTH_NAMES (initial_state log) ;;
  match all_data st with
  | [] => Ok (mkOutcome None [] None st)
  | _ :: _ =>
      let combined_df := concat common_type (all_data st) in
      c <- clean_rows combined_df ;;
      let removed := concat_keep [removed_nan_rows c; removed_null_island_rows c] in
      combined_df <- standardise (valid c) ;;
      _ <- makedirs output_dir ;;
      let output_filename :=
        path_join output_dir ("phivolcs_earthquake_" ++ str_of_int year ++ ".csv")%string in
      Ok (mkOutcome (Some combined_df) [(output_filename, combined_df)] (Some removed) st)
  end.

(** What [scrape_year_data] returns and leaves behind once the conversion
    of lines 244-245 has left the rows [rs]. *)
Definition year_result (year : Z) (output_dir : string) (st : loop_state)
           (rs : list (nat * list cell)) : year_outcome :=
  let c := partitioned rs in
  let final :=
    mkDF final_columns (map (fun ir => (fst ir, final_row (snd ir))) (rows (valid c))) in
  mkOutcome (Some final)
            [(path_join output_dir ("phivolcs_earthquake_" ++ str_of_int year ++ ".csv")%string,
              final)]
            (Some (concat_keep [removed_nan_rows c; removed_null_island_rows c]))
            st.

(** *** [scrape_multiple_years(years_back, output_dir)]

    [to_json] and [to_csv] are recorded by file name; both receive the
    combined frame.  An exception that leaves [scrape_year_data] leaves the
    run: the loop over the years has no [try]. *)
Definition year_step (output_dir : string) (st : years_state) (year : Z)
  : result years_state :=
  out <- scrape_year_data year output_dir (issued st) ;;
  match returned out with
  | Some df =>
      Ok (mkYears (all_years_data st ++ [df])
                  (dict_set year (shape0 df) (scrape_summary st))
                  (written st ++ files out)
                  (requests (final_state out)))
  | None =>
      Ok (mkYears (all_years_data st)
                  (dict_set year 0 (scrape_summary st))
                  (written st ++ files out)
                  (requests (final_state out)))
  end.

Fixpoint run_years (output_dir : string) (years : list Z) (st : years_state)
  : result years_state :=
  match years with
  | [] => Ok st
  | year :: rest => st' <- year_step output_dir st year ;; run_years output_dir rest st'
  end.

Definition scrape_multiple_years (years_back : Z) (output_dir : string) (log : list string)
  : result run_outcome :=
  let current_year := dt_year now in
  let start_year := (current_year - years_back + 1)%Z in
  st <- run_years output_dir (py_range start_year (current_year + 1))
                  (mkYears [] [] [] log) ;;
  match all_years_data st with
  | [] => Ok (mkRun None [] (written st) (issued st))
  | _ :: _ =>
      let combined := concat common_type (all_years_data st) in
      let json_filename := path_join output_dir "earthquakes.json" in
      let combined_csv_filename :=
        path_join output_dir "phivolcs_earthquake_all_years.csv" in
      Ok (mkRun (Some combined) (scrape_summary st)
                (written st ++ [(json_filename, combined); (combined_csv_filename, combined)])
                (issued st))
  end.

End Program.

(* ================================================================= *)
(** ** Sample inputs

    Small tables and worlds on which the statements below are exercised.
    The sample inputs hold text, integers and NaN only; [sample_str_of_float],
    [sample_parse_number] and [sample_to_numeric] agree with Python and
    pandas on them.  [sample_format_4f] stands in for Python's fixed-point
    formatting: no statement below reads an id. *)

Definition sample_str_of_float (f : float) : string :=
  if is_nan f then "nan" else "0.0".

Definition sample_format_4f (c : cell) : string := astype_str sample_str_of_float c.

Inductive number : Type :=
| IntVal (z : Z)
| FloatVal (f : float).

Definition cell_of_number (n : number) : cell :=
  match n with
  | IntVal z => Int z
  | FloatVal f => Flt f
  end.

(** Integers in decimal notation are read as integers; any other text is
    no number. *)
Definition sample_parse_number (s : string) : number :=
  match s with
  | EmptyString => FloatVal nan
  | _ => match NilEmpty.int_of_string s with
         | Some d => IntVal (Z.of_int d)
         | None => FloatVal nan
         end
  end.

(** [int] to [float], to nearest even. *)
Definition float_of_int (z : Z) : float :=
  SF2Prim (binary_normalize prec emax z 0 false).

Definition upcast (c : cell) : cell :=
  match c with
  | Int z => Flt (float_of_int z)
  | _ => c
  end.

Definition coerce (c : cell) : cell :=
  match c with
  | Str s => cell_of_number (sample_parse_number s)
  | _ => c
  end.

Definition INT64_MIN : Z := (- 2 ^ 63)%Z.
Definition INT64_MAX : Z := (2 ^ 63 - 1)%Z.
Definition UINT64_MAX : Z := (2 ^ 64 - 1)%Z.

(** The least integer that rounds to 2**1024, beyond the largest float. *)
Definition FLOAT_LIMIT : Z := (2 ^ 1024 - 2 ^ 970)%Z.

(** A Python int that does not convert to a float. *)
Definition too_large (c : cell) : bool :=
  match c with
  | Int z => (FLOAT_LIMIT <=? Z.abs z)%Z
  | _ => false
  end.

Definition beyond_64_bits (c : cell) : bool :=
  match c with
  | Int z => (z <? INT64_MIN)%Z || (UINT64_MAX <? z)%Z
  | _ => false
  end.

Definition negative (c : cell) : bool :=
  match c with
  | Int z => (z <? 0)%Z
  | _ => false
  end.

Definition above_int64 (c : cell) : bool :=
  match c with
  | Int z => (INT64_MAX <? z)%Z
  | _ => false
  end.

(** Does the column become a float column?  It does when it holds a float
    (NaN included, so also text that is no number), an integer that fits
    neither int64 nor uint64, or integers that fit no single one of them. *)
Definition seen_float (l : list cell) : bool :=
  existsb is_float l || existsb beyond_64_bits l
  || (existsb negative l && existsb above_int64 l).

(** A [pd.to_numeric(s, errors='coerce')] for the sample inputs: an integer
    too large for a float raises OverflowError; text is parsed; the column
    is returned as integers, or as floats when [seen_float]. *)
Definition sample_to_numeric (l : list cell) : result (list cell) :=
  if existsb too_large l then Raise OverflowError
  else
    let parsed := map coerce l in
    Ok (if seen_float parsed then map upcast parsed else parsed).

(** The sample frames of one run have the same dtypes column by column:
    nothing is cast when they are concatenated. *)
Definition sample_common_type (rs : list (list cell)) : list (list cell) := rs.

Definition integer_labels : list string := ["0"; "1"; "2"; "3"; "4"; "5"].

Definition event_row : list cell :=
  [Str "01 January 2024 - 03:00 AM"; Int 14; Int 121; Str "010"; Int 4; Str "Quezon City"].

Definition header_row : list cell :=
  [Str "Date - Time"; Str "Latitude"; Str "Longitude"; Str "Depth"; Str "Mag"; Str "Location"].

Definition separator_row : list cell := [Str "Jan-24"; NaN; NaN; NaN; NaN; NaN].

Definition null_island_row : list cell :=
  [Str "02 January 2024 - 04:10 AM"; Int 0; Int 0; Str "005"; Int 3; Str "Somewhere"].

Definition dashes_row : list cell :=
  [Str "03 January 2024 - 05:20 AM"; Str "---"; Int 121; Str "012"; Int 2; Str "Elsewhere"].

(** A row whose first cell matches the summary pattern through its
    wildcard, and contains neither "total" nor "no. of events". *)
Definition lookalike_row : list cell :=
  [Str "No: of Events"; Int 14; Int 121; Str "010"; Int 4; Str "Quezon City"].

Definition sample_table : DataFrame :=
  mkDF integer_labels
       [(0, header_row); (1, event_row); (2, separator_row);
        (3, null_island_row); (4, dashes_row)].

Definition narrow_table : DataFrame :=
  mkDF ["0"; "1"] [(0, [Str "PHIVOLCS"; Str "Latest Earthquake Information"])].

Definition five_column_table : DataFrame :=
  mkDF ["0"; "1"; "2"; "3"; "4"]
       [(0, [Str "01 January 2024 - 03:00 AM"; Int 14; Int 121; Str "010"; Int 4])].

Definition seven_column_table : DataFrame :=
  mkDF (integer_labels ++ ["6"])
       [(0, event_row ++ [Str "extra"]); (1, null_island_row ++ [NaN])].

Definition dashes_table : DataFrame := mkDF integer_labels [(0, dashes_row)].

(** A month's frame as the scraping functions return it. *)
Definition sample_month_frame : DataFrame :=
  mkDF raw_columns
       [(0, event_row ++ [Str "January"; Int 2024]);
        (1, null_island_row ++ [Str "January"; Int 2024]);
        (2, dashes_row ++ [Str "January"; Int 2024])].

Definition sample_now : datetime := mkDatetime 2026 11.

(** Every page parses to [sample_table]. *)
Definition sample_read_html (text : string) : result (list DataFrame) :=
  Ok [narrow_table; sample_table].

(** Every page parses to a table whose only row has dashes for a latitude. *)
Definition dashes_read_html (text : string) : result (list DataFrame) :=
  Ok [dashes_table].

(** A server that answers every request with status 300 and a body. *)
Definition multiple_choices_server (log : list string) (url : string) : http_result :=
  Response 300 "<table>...</table>".

(** A server that has the front page and no monthly archive. *)
Definition front_page_only_server (log : list string) (url : string) : http_result :=
  if String.eqb url main_url then Response 200 "<table>...</table>"
  else Response 404 "Not Found".

(** A server that has the January 2024 archive only; every other page,
    the front page included, answers 500. *)
Definition january_only_server (log : list string) (url : string) : http_result :=
  if String.eqb url (month_url 2024 "January") then Response 200 "<table>...</table>"
  else Response 500 "Internal Server Error".

(* ================================================================= *)
(** * Facts about the text primitives and the regular expressions *)

Section TextFacts.

Lemma existsb_orb {A : Type} (f g : A -> bool) (l : list A) :
  existsb (fun x => f x || g x) l = existsb f l || existsb g l.
Proof.
  induction l as [|x l IH]; simpl; [reflexivity|].
  rewrite IH. destruct (f x), (g x), (existsb f l); reflexivity.
Qed.

Lemma existsb_map_eq {X Y : Type} (test : Y -> bool) (conv : X -> Y) (xs : list X) :
  existsb test (map conv xs) = existsb (fun x => test (conv x)) xs.
Proof. induction xs as [|x xs IH]; simpl; [reflexivity | now rewrite IH]. Qed.

Lemma existsb_pointwise {A : Type} (f g : A -> bool) (l : list A) :
  (forall x, f x = g x) -> existsb f l = existsb g l.
Proof. intros E; induction l as [|x l IH]; simpl; [reflexivity | now rewrite E, IH]. Qed.

Lemma match_here_literal_nocase (p : string) :
  forall start s, match_here (literal_nocase p) start s = prefix (lower p) (lower s).
Proof.
  unfold literal_nocase.
  induction p as [|a p IH]; intros start s; simpl.
  - destruct (lower s); reflexivity.
  - destruct s as [|c s]; simpl; [reflexivity|].
    rewrite IH.
    destruct (ascii_dec (lower_char a) (lower_char c)) as [e|ne].
    + rewrite e, Ascii.eqb_refl. reflexivity.
    + destruct (Ascii.eqb_spec (lower_char c) (lower_char a)) as [e|_];
        [congruence | reflexivity].
Qed.

(** Searching an alternation of case-insensitive literals is a
    case-insensitive substring test for one of them. *)
Lemma search_literals_nocase (needles : list string) :
  forall start s,
    search_from (map literal_nocase needles) start s
    = existsb (fun n => contains_ci n s) needles.
Proof.
  intros start s; revert start.
  induction s as [|c s IH]; intros start.
  - simpl. unfold match_alts. rewrite existsb_map_eq, orb_false_r.
    apply existsb_pointwise; intros n.
    rewrite match_here_literal_nocase. unfold contains_ci. simpl.
    rewrite orb_false_r. reflexivity.
  - simpl. rewrite IH. unfold match_alts. rewrite existsb_map_eq.
    unfold contains_ci. simpl.
    rewrite (existsb_orb (fun n => prefix (lower n) (String (lower_char c) (lower s)))
                         (fun n => contains (lower n) (lower s))).
    f_equal. apply existsb_pointwise; intros n.
    rewrite match_here_literal_nocase. reflexivity.
Qed.

(** A sequence of consuming atoms that accepts the characters of [lit] one
    by one matches wherever [lit] is a prefix. *)
Lemma match_here_accepts (atoms : list atom) (lit : list ascii) :
  Forall2 (fun a c => atom_match a c = true) atoms lit ->
  forall start s, prefix (string_of_list_ascii lit) s = true ->
                  match_here atoms start s = true.
Proof.
  induction 1 as [|a c atoms lit Hac _ IH]; intros start s Hp; [reflexivity|].
  destruct s as [|d s]; simpl in Hp; [discriminate|].
  destruct (ascii_dec c d) as [<-|]; [|discriminate].
  assert (Hstep : match_here (a :: atoms) start (String c s)
                  = atom_match a c && match_here atoms false s)
    by (destruct a; simpl in *; try discriminate; reflexivity).
  rewrite Hstep, Hac, (IH false s Hp). reflexivity.
Qed.

Lemma search_from_contains (r : regex) (atoms : list atom) (lit : list ascii) :
  In atoms r ->
  Forall2 (fun a c => atom_match a c = true) atoms lit ->
  forall s start, contains (string_of_list_ascii lit) s = true ->
                  search_from r start s = true.
Proof.
  intros Hin Hacc s; induction s as [|c s IH]; intros start Hc; simpl in *.
  - rewrite orb_false_r in *. unfold match_alts.
    apply existsb_exists. exists atoms; split; [assumption|].
    now apply (match_here_accepts atoms lit Hacc).
  - apply orb_true_iff in Hc as [Hp|Hc].
    + apply orb_true_iff; left. unfold match_alts.
      apply existsb_exists. exists atoms; split; [assumption|].
      now apply (match_here_accepts atoms lit Hacc).
    + apply orb_true_iff; right. now apply IH.
Qed.

Lemma rstrip_no_trailing_space (s : string) : ends_with_space (rstrip s) = false.
Proof.
  induction s as [|c s IH]; simpl; [reflexivity|].
  destruct (rstrip s) as [|x y] eqn:E.
  - destruct (isspace c) eqn:Ec; simpl; [reflexivity | exact Ec].
  - exact IH.
Qed.

Lemma strip_no_trailing_space (s : string) : ends_with_space (strip s) = false.
Proof. apply rstrip_no_trailing_space. Qed.

End TextFacts.

(* ================================================================= *)
(** * Facts about Series and frames *)

Section PandasFacts.

Lemma index_eqb_refl (l : list nat) : index_eqb l l = true.
Proof. induction l as [|x l IH]; simpl; [reflexivity | now rewrite Nat.eqb_refl]. Qed.

Lemma index_eqb_eq (a : list nat) : forall b, index_eqb a b = true -> a = b.
Proof.
  induction a as [|x a IH]; intros [|y b] H; simpl in H; try discriminate; [reflexivity|].
  apply andb_true_iff in H as [Hxy Hab].
  apply Nat.eqb_eq in Hxy. subst. f_equal. now apply IH.
Qed.

Lemma labels_row_series {A : Type} (f : list cell -> A) rs :
  labels (row_series f rs) = map fst rs.
Proof. unfold labels, row_series. rewrite map_map. reflexivity. Qed.

Lemma values_row_series {A : Type} (f : list cell -> A) rs :
  values (row_series f rs) = map (fun ir => f (snd ir)) rs.
Proof. unfold values, row_series. rewrite map_map. reflexivity. Qed.

Lemma smap_row_series {A B : Type} (g : A -> B) (f : list cell -> A) rs :
  smap g (row_series f rs) = row_series (fun r => g (f r)) rs.
Proof. unfold smap, row_series. rewrite map_map. reflexivity. Qed.

Lemma column_at_row_series j df :
  column_at j df = row_series (fun r => nth j r NaN) (rows df).
Proof. reflexivity. Qed.

Lemma logical_row_series op (f g : list cell -> bool) rs :
  logical op (row_series f rs) (row_series g rs)
  = row_series (fun r => op (f r) (g r)) rs.
Proof.
  unfold logical. rewrite !labels_row_series, index_eqb_refl.
  unfold row_series. induction rs as [|r rs IH]; simpl; [reflexivity | now rewrite IH].
Qed.

Lemma series_not_row_series (f : list cell -> bool) rs :
  series_not (row_series f rs) = row_series (fun r => negb (f r)) rs.
Proof. apply smap_row_series. Qed.

Lemma select_rows_map {A : Type} (f : A -> bool) (rs : list A) :
  select_rows rs (map f rs) = filter f rs.
Proof.
  induction rs as [|r rs IH]; simpl; [reflexivity|].
  rewrite IH. reflexivity.
Qed.

(** Selecting with a mask computed from the frame itself is a filter. *)
Lemma getitem_mask_row_series df (f : list cell -> bool) :
  getitem_mask df (row_series f (rows df))
  = Ok (mkDF (columns df) (filter (fun ir => f (snd ir)) (rows df))).
Proof.
  unfold getitem_mask, index. rewrite labels_row_series, index_eqb_refl.
  rewrite values_row_series, select_rows_map. reflexivity.
Qed.

Lemma getitem_mask_rows cols rs (f : list cell -> bool) :
  getitem_mask (mkDF cols rs) (row_series f rs)
  = Ok (mkDF cols (filter (fun ir => f (snd ir)) rs)).
Proof. exact (getitem_mask_row_series (mkDF cols rs) f). Qed.

Lemma lookup_row_series {A : Type} (f : list cell -> A) rs :
  NoDup (map fst rs) ->
  forall ir, In ir rs -> lookup (fst ir) (row_series f rs) = Some (f (snd ir)).
Proof.
  induction rs as [|[k r] rs IH]; intros Hnd ir Hin; [contradiction|].
  inversion Hnd as [|? ? Hk Hnd']; subst. simpl in *.
  destruct Hin as [<-|Hin]; simpl.
  - now rewrite Nat.eqb_refl.
  - destruct (Nat.eqb_spec k (fst ir)) as [e|_].
    + exfalso. apply Hk. rewrite e. now apply in_map.
    + now apply IH.
Qed.

Lemma lookup_tabulate {A : Type} (F : nat -> A) (l : list nat) (i : nat) :
  In i l -> lookup i (map (fun k => (k, F k)) l) = Some (F i).
Proof.
  induction l as [|k l IH]; intros Hin; [contradiction|]. simpl.
  destruct (Nat.eqb_spec k i) as [->|ne]; [reflexivity|].
  destruct Hin as [e|Hin]; [congruence | now apply IH].
Qed.

Lemma reindex_select_filter rs (key : Series bool) (h : list cell -> bool) :
  (forall ir, In ir rs -> lookup (fst ir) key = Some (h (snd ir))) ->
  reindex_select rs key = Ok (filter (fun ir => h (snd ir)) rs).
Proof.
  induction rs as [|r rs IH]; intros H; simpl; [reflexivity|].
  rewrite (H r (or_introl eq_refl)).
  rewrite IH by (intros ir Hin; apply H; now right). reflexivity.
Qed.

Lemma NoDup_labels_filter (p : nat * list cell -> bool) rs :
  NoDup (map fst rs) -> NoDup (map fst (filter p rs)).
Proof.
  induction rs as [|r rs IH]; intros Hnd; simpl; [constructor|].
  inversion Hnd as [|? ? Hk Hnd']; subst.
  destruct (p r); simpl; [|now apply IH].
  constructor; [|now apply IH].
  intros Hin. apply Hk. apply in_map_iff in Hin as [x [Hx Hin]].
  apply filter_In in Hin as [Hin _]. rewrite <- Hx. now apply in_map.
Qed.

Lemma filter_same_length {A : Type} (p : A -> bool) (l : list A) :
  List.length (filter p l) = List.length l -> filter p l = l.
Proof.
  intros H. apply forallb_filter_id. now apply filter_length_forallb.
Qed.

Lemma values_of_lookup rs (key : Series bool) (h : list cell -> bool) :
  NoDup (map fst rs) ->
  labels key = map fst rs ->
  (forall ir, In ir rs -> lookup (fst ir) key = Some (h (snd ir))) ->
  values key = map (fun ir => h (snd ir)) rs.
Proof.
  revert key.
  induction rs as [|r rs IH]; intros [|[k v] key] Hnd E Hkey;
    simpl in *; try discriminate; [reflexivity|].
  injection E as Hk E. subst k.
  inversion Hnd as [|? ? Hr Hnd']; subst.
  pose proof (Hkey r (or_introl eq_refl)) as H0.
  rewrite Nat.eqb_refl in H0. injection H0 as ->. f_equal.
  apply IH; [assumption | assumption |].
  intros ir Hin. specialize (Hkey ir (or_intror Hin)).
  destruct (Nat.eqb_spec (fst r) (fst ir)) as [e|_]; [|assumption].
  exfalso. apply Hr. rewrite e. now apply in_map.
Qed.

(** Line 256: a mask over the whole frame combined with a mask over the
    rows that were kept, used to select among the rows that were kept. *)
Lemma getitem_mask_aligned cols rs (p f g : list cell -> bool) :
  NoDup (map fst rs) ->
  let rs1 := filter (fun ir => p (snd ir)) rs in
  getitem_mask (mkDF cols rs1) (series_and (row_series f rs) (row_series g rs1))
  = Ok (mkDF cols (filter (fun ir => f (snd ir) && g (snd ir)) rs1)).
Proof.
  intros Hnd rs1.
  assert (Hnd1 : NoDup (map fst rs1)) by now apply NoDup_labels_filter.
  unfold series_and, logical. rewrite !labels_row_series.
  destruct (index_eqb (map fst rs) (map fst rs1)) eqn:E.
  - apply index_eqb_eq in E.
    assert (Hsame : rs1 = rs).
    { apply filter_same_length.
      rewrite <- (length_map fst rs), E, length_map. reflexivity. }
    rewrite Hsame.
    replace (map (fun q => (fst (fst q), snd (fst q) && snd (snd q)))
                 (combine (row_series f rs) (row_series g rs)))
      with (row_series (fun r => f r && g r) rs).
    + exact (getitem_mask_row_series (mkDF cols rs) (fun r => f r && g r)).
    + clear. unfold row_series.
      induction rs as [|r rs IH]; simpl; [reflexivity | now rewrite IH].
  - unfold getitem_mask, index. simpl rows. simpl columns.
    set (key := map _ _).
    assert (Hkey : forall ir, In ir rs1 ->
                     lookup (fst ir) key = Some (f (snd ir) && g (snd ir))).
    { intros ir Hin. unfold key.
      rewrite (lookup_tabulate
                 (fun i => lookup_or_false i (row_series f rs)
                           && lookup_or_false i (row_series g rs1))).
      - unfold lookup_or_false.
        rewrite (lookup_row_series f rs Hnd ir)
          by (apply filter_In in Hin; tauto).
        rewrite (lookup_row_series g rs1 Hnd1 ir Hin). reflexivity.
      - apply in_or_app; left. apply in_map. apply filter_In in Hin; tauto. }
    destruct (index_eqb (labels key) (map fst rs1)) eqn:E2.
    + (* the key happens to carry the index of the kept rows *)
      assert (Hv : values key = map (fun ir => f (snd ir) && g (snd ir)) rs1)
        by (apply (values_of_lookup rs1 key (fun r => f r && g r) Hnd1);
            [now apply index_eqb_eq | exact Hkey]).
      rewrite Hv, select_rows_map. reflexivity.
    + rewrite (reindex_select_filter rs1 key (fun r => f r && g r) Hkey). reflexivity.
Qed.

End PandasFacts.

(* ================================================================= *)
(** * The table normaliser *)

Section NormaliserFacts.

Variable str_of_float : float -> string.

Lemma map_snd_filter {A B : Type} (f : B -> bool) (l : list (A * B)) :
  map snd (filter (fun ir => f (snd ir)) l) = filter f (map snd l).
Proof.
  induction l as [|x l IH]; simpl; [reflexivity|].
  destruct (f (snd x)); simpl; now rewrite IH.
Qed.

Lemma map_snd_renumber {A : Type} (l : list A) : map snd (renumber l) = l.
Proof.
  unfold renumber. generalize 0.
  induction l as [|x l IH]; intros n; simpl; [reflexivity | now rewrite IH].
Qed.

Lemma map_fst_renumber {A : Type} (l : list A) :
  map fst (renumber l) = seq 0 (List.length l).
Proof.
  unfold renumber. generalize 0.
  induction l as [|x l IH]; intros n; simpl; [reflexivity | now rewrite IH].
Qed.

Lemma filter_filter {A : Type} (f g : A -> bool) (l : list A) :
  filter g (filter f l) = filter (fun x => f x && g x) l.
Proof.
  induction l as [|x l IH]; simpl; [reflexivity|].
  destruct (f x); simpl; [destruct (g x)|]; now rewrite IH.
Qed.

Lemma compile_date_pattern :
  compile true date_pattern = map literal_nocase ["Date"; "Time"; "Philippine"].
Proof. reflexivity. Qed.

Lemma compile_latitude_pattern :
  compile true latitude_pattern
  = map literal_nocase ["Latitude"; (ordinal_glyph ++ "N")%string; (degree_glyph ++ "N")%string].
Proof. reflexivity. Qed.

Lemma compile_longitude_pattern :
  compile true longitude_pattern
  = map literal_nocase ["Longitude"; (ordinal_glyph ++ "E")%string; (degree_glyph ++ "E")%string].
Proof. reflexivity. Qed.

Lemma compile_summary_pattern :
  compile false summary_pattern
  = [literal "total"; literal "no" ++ [Dot] ++ literal " of events"].
Proof. reflexivity. Qed.

Lemma compile_month_abbrev_pattern :
  compile false month_abbrev_pattern
  = [[Bol; Range "A" "Z"; Range "a" "z"; Range "a" "z"; Lit "-"; Digit; Digit; Eol]].
Proof. reflexivity. Qed.

(** The month abbreviation pattern on trimmed text: [$] cannot sit before a
    final newline there, so the pattern matches the six characters only. *)
Lemma rmatch_month_abbrev (s : string) :
  rmatch (compile false month_abbrev_pattern) (strip s) = month_abbrev_text (strip s).
Proof.
  rewrite compile_month_abbrev_pattern.
  pose proof (strip_no_trailing_space s) as Hsp.
  destruct (strip s) as [|a [|b [|c [|d [|e [|f [|g [|h t]]]]]]]];
    unfold rmatch, match_alts, month_abbrev_text; simpl;
    rewrite ?andb_false_r, ?orb_false_r; try reflexivity.
  - rewrite !andb_true_r.
    change (code "A") with 65; change (code "Z") with 90; change (code "a") with 97;
      change (code "z") with 122.
    rewrite !andb_assoc. reflexivity.
  - simpl in Hsp.
    destruct (Ascii.eqb_spec g newline) as [->|_];
      [discriminate Hsp | now rewrite ?andb_false_r].
Qed.

Lemma search_date (s : string) :
  search (compile true date_pattern) s
  = contains_ci "Date" s || contains_ci "Time" s || contains_ci "Philippine" s.
Proof.
  unfold search. rewrite compile_date_pattern, search_literals_nocase. simpl.
  now rewrite orb_false_r, orb_assoc.
Qed.

Lemma search_latitude (s : string) :
  search (compile true latitude_pattern) s
  = contains_ci "Latitude" s || contains_ci (ordinal_glyph ++ "N") s
    || contains_ci (degree_glyph ++ "N") s.
Proof.
  unfold search. rewrite compile_latitude_pattern, search_literals_nocase.
  cbn [existsb]. now rewrite orb_false_r, orb_assoc.
Qed.

Lemma search_longitude (s : string) :
  search (compile true longitude_pattern) s
  = contains_ci "Longitude" s || contains_ci (ordinal_glyph ++ "E") s
    || contains_ci (degree_glyph ++ "E") s.
Proof.
  unfold search. rewrite compile_longitude_pattern, search_literals_nocase.
  cbn [existsb]. now rewrite orb_false_r, orb_assoc.
Qed.

Lemma contains_nocase_column (pattern : string) (j : nat) (df : DataFrame) :
  contains_nocase str_of_float pattern (column_at j df)
  = row_series (fun r => search (compile true pattern) (cell_text str_of_float j r)) (rows df).
Proof.
  unfold contains_nocase. rewrite column_at_row_series, !smap_row_series. reflexivity.
Qed.

Lemma getitem_expected (df : DataFrame) (name : string) (j : nat) :
  columns df = expected_columns ->
  locate name expected_columns = Ok j ->
  getitem df name = Ok (column_at j df).
Proof. intros Hc Hj. unfold getitem. rewrite Hc, Hj. reflexivity. Qed.

Lemma header_mask_exact (df : DataFrame) :
  columns df = expected_columns ->
  header_mask str_of_float df = Ok (row_series (is_header_row str_of_float) (rows df)).
Proof.
  intros Hc. unfold header_mask.
  rewrite (getitem_expected df "Date-Time" 0 Hc eq_refl).
  rewrite (getitem_expected df "Latitude" 1 Hc eq_refl).
  rewrite (getitem_expected df "Longitude" 2 Hc eq_refl).
  cbn [bind]. rewrite !contains_nocase_column.
  unfold series_or. rewrite !logical_row_series.
  f_equal. unfold row_series. apply map_ext; intros [i r]. cbn [fst snd].
  rewrite search_date, search_latitude, search_longitude. reflexivity.
Qed.

Lemma remove_header_rows_exact (df : DataFrame) :
  columns df = expected_columns ->
  remove_header_rows str_of_float df
  = Ok (keep_rows (fun r => negb (is_header_row str_of_float r)) df).
Proof.
  intros Hc. unfold remove_header_rows.
  rewrite (header_mask_exact df Hc). cbn [bind].
  rewrite series_not_row_series, getitem_mask_row_series. cbn [bind].
  unfold reset_index, keep_rows. cbn [columns rows].
  now rewrite (map_snd_filter (fun r => negb (is_header_row str_of_float r))).
Qed.

Lemma remove_summary_rows_exact (df : DataFrame) :
  shape1 df = 6 ->
  remove_summary_rows str_of_float df
  = Ok (mkDF (columns df)
             (filter (fun ir => negb (matches_summary_pattern str_of_float (snd ir)
                                      || is_month_abbrev_row str_of_float (snd ir)))
                     (rows df))).
Proof.
  intros Hw. unfold remove_summary_rows.
  destruct (negb (empty df)) eqn:E.
  - unfold iloc_col. rewrite Hw. cbn [Nat.ltb Nat.leb bind].
    rewrite column_at_row_series, !smap_row_series.
    unfold series_or. rewrite logical_row_series, series_not_row_series.
    rewrite getitem_mask_row_series. do 2 f_equal.
    apply filter_ext; intros [i r]. cbn [snd].
    unfold matches_summary_pattern, is_month_abbrev_row, cell_text.
    now rewrite rmatch_month_abbrev.
  - apply negb_false_iff in E. unfold empty in E. rewrite Hw in E.
    rewrite orb_false_r in E. apply Nat.eqb_eq in E. unfold shape0 in E.
    destruct df as [cols rs]. cbn [rows columns] in *.
    destruct rs; [reflexivity | discriminate].
Qed.

(** The three filters of lines 151-167 drop exactly the rows [dropped]
    accepts, and keep the other rows in their order. *)
Lemma filter_rows_exact (df : DataFrame) :
  columns df = expected_columns ->
  filter_rows str_of_float df = Ok (keep_rows (fun r => negb (dropped str_of_float r)) df).
Proof.
  intros Hc. unfold filter_rows.
  rewrite (remove_header_rows_exact df Hc). cbn [bind].
  rewrite remove_summary_rows_exact
    by (unfold keep_rows, shape1; cbn [columns]; now rewrite Hc).
  cbn [bind]. unfold reset_index, dropna_all, keep_rows. cbn [columns rows].
  f_equal. f_equal. f_equal.
  rewrite filter_filter.
  rewrite (map_snd_filter
             (fun r => negb (matches_summary_pattern str_of_float r
                             || is_month_abbrev_row str_of_float r)
                       && negb (forallb isnull r))).
  rewrite map_snd_renumber, filter_filter.
  apply filter_ext; intros r. unfold dropped, is_empty_row.
  destruct (is_header_row str_of_float r), (matches_summary_pattern str_of_float r),
    (is_month_abbrev_row str_of_float r), (forallb isnull r); reflexivity.
Qed.

Lemma summary_literal_matches (r : list cell) :
  is_summary_row str_of_float r = true -> matches_summary_pattern str_of_float r = true.
Proof.
  unfold is_summary_row, matches_summary_pattern, contains_ci, search.
  rewrite compile_summary_pattern. intros H.
  apply orb_true_iff in H as [H|H].
  - apply (search_from_contains _ (literal "total") (list_ascii_of_string "total"));
      [now left | repeat constructor | exact H].
  - apply (search_from_contains _ (literal "no" ++ [Dot] ++ literal " of events")
                                (list_ascii_of_string "no. of events"));
      [right; now left | repeat constructor | exact H].
Qed.

(** Every row the specification's wording drops is dropped by the code. *)
Lemma spec_drop_dropped (r : list cell) :
  spec_drop str_of_float r = true -> dropped str_of_float r = true.
Proof.
  unfold spec_drop, dropped. intros H.
  apply orb_true_iff in H as [H|H];
    [apply orb_true_iff in H as [H|H]; [apply orb_true_iff in H as [H|H]|]|].
  - now rewrite H.
  - rewrite (summary_literal_matches r H). now rewrite orb_true_r.
  - rewrite H. now rewrite orb_true_r.
  - rewrite H. now rewrite orb_true_r.
Qed.

(** Where the summary pattern and the plain substring test agree on every
    row, the code filters as the specification words it. *)
Lemma filter_rows_as_specified (df : DataFrame) :
  columns df = expected_columns ->
  (forall ir, In ir (rows df) ->
              matches_summary_pattern str_of_float (snd ir)
              = is_summary_row str_of_float (snd ir)) ->
  filter_rows str_of_float df = Ok (keep_rows (fun r => negb (spec_drop str_of_float r)) df).
Proof.
  intros Hc Hagree. rewrite (filter_rows_exact df Hc). unfold keep_rows.
  do 3 f_equal. apply filter_ext_in; intros r Hin.
  apply in_map_iff in Hin as [ir [<- Hin]].
  unfold dropped, spec_drop. now rewrite (Hagree ir Hin).
Qed.

Lemma select_table_first (before after : list DataFrame) (t : DataFrame) :
  Forall (fun u => shape1 u < 5) before -> 5 <= shape1 t ->
  select_table (before ++ t :: after) = Some t.
Proof.
  intros Hb Ht. induction Hb as [|u before Hu _ IH]; cbn [app select_table].
  - destruct (Nat.leb_spec 5 (shape1 t)); [reflexivity | lia].
  - destruct (Nat.leb_spec 5 (shape1 u)); [lia | exact IH].
Qed.

Lemma select_table_none (tables : list DataFrame) :
  Forall (fun u => shape1 u < 5) tables -> select_table tables = None.
Proof.
  induction 1 as [|u tables Hu _ IH]; cbn [select_table]; [reflexivity|].
  destruct (Nat.leb_spec 5 (shape1 u)); [lia | exact IH].
Qed.

Lemma assign_schema_columns (df df' : DataFrame) :
  assign_schema df = Some df' -> columns df' = expected_columns.
Proof.
  unfold assign_schema.
  destruct (shape1 df =? 6)%nat; [intros [= <-]; reflexivity|].
  destruct (6 <? shape1 df)%nat; [intros [= <-]; reflexivity | discriminate].
Qed.

(** C4.  [normalize] works on the first parsed table that has at least five
    columns: narrower tables before it are passed over and whatever follows
    it is not looked at.  The result is the one [normalize] gives for that
    table alone, and when a frame is returned its rows are rows of that
    table: the table under the expected names (lines 142-149), without the
    rows the filters drop.  With no table of five columns or more the result
    is the early [return None]. *)
Theorem normalize_selects_first_wide_table :
  forall (before after tables : list DataFrame) (t : DataFrame),
    (Forall (fun u => shape1 u < 5) before -> 5 <= shape1 t ->
     select_table (before ++ t :: after) = Some t /\
     normalize str_of_float (before ++ t :: after) = normalize str_of_float [t] /\
     (forall named, empty t = false -> assign_schema t = Some named ->
        normalize str_of_float (before ++ t :: after)
        = Ok (Some (keep_rows (fun r => negb (dropped str_of_float r)) named))) /\
     (empty t = false -> shape1 t = 6 ->
        normalize str_of_float (before ++ t :: after)
        = Ok (Some (mkDF expected_columns
                         (renumber (filter (fun r => negb (dropped str_of_float r))
                                           (map snd (rows t)))))))) /\
    (Forall (fun u => shape1 u < 5) tables ->
     select_table tables = None /\ normalize str_of_float tables = Ok None).
Proof.
  intros before after tables t. split.
  - intros Hb Ht.
    pose proof (select_table_first before after t Hb Ht) as Hsel.
    pose proof (select_table_first [] [] t (Forall_nil _) Ht) as Hone.
    simpl app in Hone. split; [exact Hsel|].
    assert (Hnamed : forall named, empty t = false -> assign_schema t = Some named ->
              normalize str_of_float (before ++ t :: after)
              = Ok (Some (keep_rows (fun r => negb (dropped str_of_float r)) named))).
    { intros named He Ha. unfold normalize. rewrite Hsel, He, Ha.
      now rewrite (filter_rows_exact named (assign_schema_columns t named Ha)). }
    split; [|split].
    + unfold normalize. rewrite Hsel, Hone. reflexivity.
    + exact Hnamed.
    + intros He H6. apply (Hnamed (set_columns t expected_columns) He).
      unfold assign_schema. now rewrite H6.
  - intros Hn. pose proof (select_table_none tables Hn) as Hsel.
    split; [exact Hsel|]. unfold normalize. now rewrite Hsel.
Qed.

Lemma column_at_iloc_cols (df : DataFrame) (n k : nat) :
  k < n -> column_at k (iloc_cols df n) = column_at k df.
Proof.
  intros Hk. unfold column_at, iloc_cols. cbn [rows]. rewrite map_map.
  apply map_ext; intros [i r]. cbn [fst snd].
  rewrite nth_firstn. destruct (Nat.ltb_spec k n); [reflexivity | lia].
Qed.

Lemma locate_expected (k : nat) (name : string) :
  nth_error expected_columns k = Some name -> locate name expected_columns = Ok k.
Proof.
  do 6 (destruct k as [|k]; [intros [= <-]; reflexivity|]).
  destruct k; discriminate.
Qed.

(** C3.  Lines 142-149 on a table [df].  With exactly six columns the six
    expected names replace the table's labels and the rows are untouched;
    with more than six the table is first cut to its first six columns; in
    both cases reading the column with the k-th expected name gives the k-th
    column of the table.  With fewer than six columns there is no frame: a
    selected table of five columns makes [normalize] return None, nothing is
    padded.  A selected table with rows and six columns or more goes on to
    the row filters under the expected names. *)
Theorem schema_assigned_by_position :
  forall (tables : list DataFrame) (df : DataFrame),
    (shape1 df = 6 -> assign_schema df = Some (mkDF expected_columns (rows df))) /\
    (6 < shape1 df ->
     assign_schema df
     = Some (mkDF expected_columns (map (fun ir => (fst ir, firstn 6 (snd ir))) (rows df)))) /\
    (shape1 df < 6 -> assign_schema df = None) /\
    (6 <= shape1 df ->
     forall df', assign_schema df = Some df' ->
     forall k name, nth_error expected_columns k = Some name ->
                    getitem df' name = Ok (column_at k df)) /\
    (select_table tables = Some df -> shape1 df < 6 ->
     normalize str_of_float tables = Ok None) /\
    (select_table tables = Some df -> empty df = false -> 6 <= shape1 df ->
     exists df', assign_schema df = Some df' /\
                 columns df' = expected_columns /\
                 normalize str_of_float tables
                 = (out <- filter_rows str_of_float df' ;; Ok (Some out))).
Proof.
  intros tables df.
  assert (H6 : shape1 df = 6 -> assign_schema df = Some (mkDF expected_columns (rows df))).
  { intros H. unfold assign_schema. rewrite H. reflexivity. }
  assert (H7 : 6 < shape1 df ->
               assign_schema df
               = Some (mkDF expected_columns
                            (map (fun ir => (fst ir, firstn 6 (snd ir))) (rows df)))).
  { intros H. unfold assign_schema.
    destruct (Nat.eqb_spec (shape1 df) 6); [lia|].
    destruct (Nat.ltb_spec 6 (shape1 df)); [reflexivity | lia]. }
  assert (H5 : shape1 df < 6 -> assign_schema df = None).
  { intros H. unfold assign_schema.
    destruct (Nat.eqb_spec (shape1 df) 6); [lia|].
    destruct (Nat.ltb_spec 6 (shape1 df)); [lia | reflexivity]. }
  repeat split; try assumption.
  - intros Hw df' Hdf' k name Hk.
    assert (Hlt : k < 6).
    { change 6 with (List.length expected_columns).
      apply nth_error_Some. rewrite Hk. discriminate. }
    pose proof (locate_expected k name Hk) as Hloc.
    destruct (Nat.eq_dec (shape1 df) 6) as [e|ne].
    + rewrite (H6 e) in Hdf'. injection Hdf' as <-.
      unfold getitem. cbn [columns]. rewrite Hloc. reflexivity.
    + rewrite H7 in Hdf' by lia. injection Hdf' as <-.
      unfold getitem. cbn [columns]. rewrite Hloc. cbn [bind].
      f_equal. exact (column_at_iloc_cols df 6 k Hlt).
  - intros Hsel Hw. unfold normalize. rewrite Hsel, (H5 Hw).
    destruct (empty df); reflexivity.
  - intros Hsel He Hw.
    destruct (assign_schema df) as [df'|] eqn:Ea.
    + exists df'. repeat split.
      * exact (assign_schema_columns df df' Ea).
      * unfold normalize. rewrite Hsel, He, Ea. reflexivity.
    + exfalso. destruct (Nat.eq_dec (shape1 df) 6) as [e|ne].
      * specialize (H6 e). discriminate.
      * assert (Hgt : 6 < shape1 df) by lia. specialize (H7 Hgt). discriminate.
Qed.

(** C2.  The specification's summary test is a substring test for "total"
    or "no. of events".  The code passes 'total|no. of events' as a regular
    expression, in which the dot stands for any character: a row whose first
    cell reads "No: of Events" answers to none of the four predicates of
    the specification, yet the row filters drop it. *)
Theorem summary_wildcard_drops_unlisted_row :
  spec_drop str_of_float lookalike_row = false /\
  dropped str_of_float lookalike_row = true /\
  filter_rows str_of_float (mkDF expected_columns [(0, lookalike_row)])
  = Ok (mkDF expected_columns []) /\
  keep_rows (fun r => negb (spec_drop str_of_float r))
            (mkDF expected_columns [(0, lookalike_row)])
  = mkDF expected_columns [(0, lookalike_row)].
Proof.
  assert (Hs : spec_drop str_of_float lookalike_row = false) by (vm_compute; reflexivity).
  assert (Hd : dropped str_of_float lookalike_row = true) by (vm_compute; reflexivity).
  split; [exact Hs|]. split; [exact Hd|]. split.
  - rewrite filter_rows_exact by reflexivity.
    unfold keep_rows. cbn [rows columns map snd filter]. now rewrite Hd.
  - unfold keep_rows. cbn [rows columns map snd filter]. now rewrite Hs.
Qed.

End NormaliserFacts.

Lemma normalize_selects_first_wide_table_witness :
  (select_table ([narrow_table] ++ sample_table :: [seven_column_table]) = Some sample_table /\
   normalize sample_str_of_float ([narrow_table] ++ sample_table :: [seven_column_table])
   = normalize sample_str_of_float [sample_table] /\
   normalize sample_str_of_float ([narrow_table] ++ sample_table :: [seven_column_table])
   = Ok (Some (mkDF expected_columns
                    (renumber (filter (fun r => negb (dropped sample_str_of_float r))
                                      (map snd (rows sample_table))))))) /\
  (select_table [narrow_table; narrow_table] = None /\
   normalize sample_str_of_float [narrow_table; narrow_table] = Ok None).
Proof.
  destruct (normalize_selects_first_wide_table sample_str_of_float
              [narrow_table] [seven_column_table] [narrow_table; narrow_table] sample_table)
    as [Hfirst Hnone].
  split.
  - destruct Hfirst as [Hsel [Hsame [_ Hsix]]];
      [apply Forall_cons; [cbv; lia | apply Forall_nil] | cbv; lia |].
    split; [exact Hsel|]. split; [exact Hsame|].
    apply Hsix; reflexivity.
  - apply Hnone. do 2 (apply Forall_cons; [cbv; lia|]). apply Forall_nil.
Defined.

Lemma schema_assigned_by_position_witness :
  assign_schema sample_table = Some (mkDF expected_columns (rows sample_table)) /\
  assign_schema seven_column_table
  = Some (mkDF expected_columns
               (map (fun ir => (fst ir, firstn 6 (snd ir))) (rows seven_column_table))) /\
  assign_schema five_column_table = None /\
  (forall df', assign_schema seven_column_table = Some df' ->
               getitem df' "Depth" = Ok (column_at 3 seven_column_table)) /\
  normalize sample_str_of_float [narrow_table; five_column_table] = Ok None /\
  (exists df', assign_schema seven_column_table = Some df' /\
               columns df' = expected_columns /\
               normalize sample_str_of_float [seven_column_table]
               = (out <- filter_rows sample_str_of_float df' ;; Ok (Some out))).
Proof.
  destruct (schema_assigned_by_position sample_str_of_float [sample_table] sample_table)
    as [Hsix _].
  destruct (schema_assigned_by_position sample_str_of_float
              [narrow_table; five_column_table] five_column_table)
    as [_ [_ [Hfive [_ [Hnone _]]]]].
  destruct (schema_assigned_by_position sample_str_of_float
              [seven_column_table] seven_column_table)
    as [_ [Hseven [_ [Hpos [_ Hgo]]]]].
  split; [apply Hsix; reflexivity|].
  split; [apply Hseven; cbv; lia|].
  split; [apply Hfive; cbv; lia|].
  split; [intros df' Hdf'; apply (Hpos ltac:(cbv; lia) df' Hdf' 3 "Depth" eq_refl)|].
  split; [apply Hnone; [reflexivity | cbv; lia]|].
  apply Hgo; [reflexivity | reflexivity | cbv; lia].
Defined.

(* ================================================================= *)
(** * Fetching a month and looping over a year *)

Section ScraperFacts.

Variable str_of_float : float -> string.
Variable read_html : string -> result (list DataFrame).
Variable http_get : list string -> string -> http_result.
Variable now : datetime.

Lemma normalize_shape (tables : list DataFrame) :
  normalize str_of_float tables = Ok None \/
  exists df', columns df' = expected_columns /\
              normalize str_of_float tables
              = Ok (Some (keep_rows (fun r => negb (dropped str_of_float r)) df')).
Proof.
  unfold normalize.
  destruct (select_table tables) as [t|]; [|now left].
  destruct (empty t); [now left|].
  destruct (assign_schema t) as [df'|] eqn:Ea; [|now left].
  right. exists df'. pose proof (assign_schema_columns t df' Ea) as Hc.
  split; [exact Hc|]. now rewrite (filter_rows_exact str_of_float df' Hc).
Qed.

Lemma add_metadata_shape (df : DataFrame) (month : string) (year : Z) :
  columns df = expected_columns -> labelled_with month year (add_metadata df month year).
Proof.
  intros Hc. exists df. split; [exact Hc|].
  destruct df as [cols rs]. cbn [columns] in Hc. subst cols.
  unfold add_metadata, setitem_scalar. cbn [columns rows].
  change (position "Month" expected_columns) with (@None nat).
  change (put_columns "Month" expected_columns) with (expected_columns ++ ["Month"]).
  change (position "Year" (expected_columns ++ ["Month"])) with (@None nat).
  change (put_columns "Year" (expected_columns ++ ["Month"])) with raw_columns.
  rewrite map_map. f_equal.
  apply map_ext; intros [i r]. cbn [fst snd put]. now rewrite <- app_assoc.
Qed.

Lemma labelled_with_columns (month : string) (year : Z) (df : DataFrame) :
  labelled_with month year df -> columns df = raw_columns.
Proof. intros [df0 [_ ->]]. reflexivity. Qed.

Lemma labelled_with_rows (month : string) (year : Z) (df : DataFrame) :
  labelled_with month year df ->
  Forall (fun ir => exists cells, snd ir = cells ++ [Str month; Int year]) (rows df).
Proof.
  intros [df0 [_ ->]]. cbn [rows]. apply Forall_forall. intros ir Hin.
  apply in_map_iff in Hin as [ir0 [<- _]]. now exists (snd ir0).
Qed.

(** The shared shape of the two [try] blocks. *)
Lemma page_body_shape (fetched : result (list DataFrame)) (month : string) (year : Z)
      (df : DataFrame) :
  (tables <- fetched ;;
   out <- normalize str_of_float tables ;;
   match out with
   | None => Ok None
   | Some d => Ok (Some (add_metadata d month year))
   end) = Ok (Some df) ->
  labelled_with month year df.
Proof.
  destruct fetched as [tables|e]; cbn [bind]; [|discriminate].
  destruct (normalize_shape tables) as [->|[df' [Hc ->]]]; cbn [bind]; [discriminate|].
  intros [= <-]. apply add_metadata_shape. exact Hc.
Qed.

Lemma scrape_current_month_returns (log : list string) :
  exists v,
    scrape_current_month_from_main_page str_of_float read_html http_get now log
    = (Ok v, log ++ [main_url]) /\
    forall df, v = Some df -> labelled_with (strftime_B now) (dt_year now) df.
Proof.
  unfold scrape_current_month_from_main_page.
  destruct (main_page_body str_of_float read_html http_get now log) as [v|e] eqn:E.
  - exists v. split; [reflexivity|]. intros df ->.
    exact (page_body_shape _ _ _ df E).
  - exists None. split; [reflexivity | discriminate].
Qed.

Lemma scrape_month_returns (year : Z) (month_name : string) (log : list string) :
  exists v log',
    scrape_phivolcs_data_from_html str_of_float read_html http_get now year month_name log
    = (Ok v, log') /\
    forall df, v = Some df -> columns df = raw_columns.
Proof.
  unfold scrape_phivolcs_data_from_html.
  destruct (month_page_body str_of_float read_html http_get year month_name log)
    as [v|e] eqn:E.
  - exists v, (log ++ [month_url year month_name]). split; [reflexivity|].
    intros df ->. apply (labelled_with_columns month_name year).
    exact (page_body_shape _ _ _ df E).
  - assert (Hnone : exists v log',
               (Ok None, log ++ [month_url year month_name])
               = (@Ok (option DataFrame) v, log') /\
               forall df, v = Some df -> columns df = raw_columns)
      by (exists None, (log ++ [month_url year month_name]);
          split; [reflexivity | discriminate]).
    destruct e; try exact Hnone.
    destruct (status =? 404)%Z; [|exact Hnone].
    destruct (scrape_current_month_returns (log ++ [month_url year month_name]))
      as [v [-> Hv]].
    exists v, ((log ++ [month_url year month_name]) ++ [main_url]).
    split; [reflexivity|]. intros df Hdf.
    exact (labelled_with_columns _ _ df (Hv df Hdf)).
Qed.

Lemma month_step_returns (year : Z) (st : loop_state) (month_name : string) :
  loop_invariant st ->
  exists st', month_step str_of_float read_html http_get now year st month_name = Ok st' /\
              loop_invariant st'.
Proof.
  intros [Hall Hlen]. unfold month_step.
  destruct (current_month_found st).
  - eexists; split; [reflexivity|]. split; assumption.
  - destruct (scrape_month_returns year month_name (requests st))
      as [v [log' [-> Hv]]]. cbn [bind].
    assert (Hfail : loop_invariant (record_failure now year st month_name log'))
      by (split; assumption).
    destruct v as [d|]; [|eexists; split; [reflexivity | exact Hfail]].
    destruct (empty d) eqn:Ee; cbn [negb];
      [eexists; split; [reflexivity | exact Hfail]|].
    eexists; split; [reflexivity|]. split; cbn [all_data successful_months].
    + apply Forall_app; split; [exact Hall|].
      constructor; [|constructor]. split; [now apply Hv | exact Ee].
    + rewrite !length_app, Hlen. reflexivity.
Qed.

Lemma run_months_returns (year : Z) (months : list string) :
  forall st, loop_invariant st ->
  exists st', run_months str_of_float read_html http_get now year months st = Ok st' /\
              loop_invariant st'.
Proof.
  induction months as [|m months IH]; intros st Hinv; cbn [run_months].
  - now exists st.
  - destruct (month_step_returns year st m Hinv) as [st1 [-> Hinv1]]. cbn [bind].
    exact (IH st1 Hinv1).
Qed.

Lemma initial_state_invariant (log : list string) : loop_invariant (initial_state log).
Proof. split; [constructor | reflexivity]. Qed.

(** Once the flag is set, every remaining month is recorded as failed and
    nothing is requested. *)
Lemma run_months_skips (year : Z) (months : list string) :
  forall st, current_month_found st = true ->
  run_months str_of_float read_html http_get now year months st
  = Ok (mkLoop (all_data st) (successful_months st) (failed_months st ++ months)
               true (requests st)).
Proof.
  induction months as [|m months IH]; intros st Hf; cbn [run_months].
  - rewrite app_nil_r, <- Hf. now destruct st.
  - unfold month_step. rewrite Hf. cbn [bind].
    rewrite IH by reflexivity. cbn [all_data successful_months failed_months requests].
    now rewrite <- app_assoc.
Qed.

Lemma fetch_tables_not_found (log : list string) (url text : string) :
  http_get log url = Response 404 text ->
  fetch_tables read_html http_get log url = Raise (HTTPError 404).
Proof. intros H. unfold fetch_tables. now rewrite H. Qed.

Lemma fetch_tables_http_error (log : list string) (url text : string) (status : Z) :
  http_get log url = Response status text ->
  (400 <= status < 600)%Z ->
  fetch_tables read_html http_get log url = Raise (HTTPError status).
Proof.
  intros H Hs. unfold fetch_tables, raise_for_status. rewrite H.
  destruct (Z.leb_spec 400 status); [|lia].
  destruct (Z.ltb_spec status 600); [reflexivity | lia].
Qed.

Lemma scrape_month_not_found (year : Z) (month_name : string) (log : list string)
      (text : string) :
  http_get log (month_url year month_name) = Response 404 text ->
  scrape_phivolcs_data_from_html str_of_float read_html http_get now year month_name log
  = scrape_current_month_from_main_page str_of_float read_html http_get now
      (log ++ [month_url year month_name]).
Proof.
  intros H. unfold scrape_phivolcs_data_from_html, month_page_body.
  now rewrite (fetch_tables_not_found log _ text H).
Qed.

Lemma month_step_total (year : Z) (st : loop_state) (month_name : string) :
  exists st', month_step str_of_float read_html http_get now year st month_name = Ok st'.
Proof.
  unfold month_step. destruct (current_month_found st); [eexists; reflexivity|].
  destruct (scrape_month_returns year month_name (requests st)) as [v [log' [-> _]]].
  cbn [bind]. destruct v as [d|]; [destruct (negb (empty d))|]; eexists; reflexivity.
Qed.

(** C7.  A 404 answer to the request for a monthly page makes
    [scrape_phivolcs_data_from_html] return what the front-page scrape
    returns, requested right after.  A transport failure, or a status from
    400 to 599 other than 404, makes it return None with no further request,
    and the loop records the month as failed.  An answer with any other
    status is read as a page: what is returned is what [normalize] gives for
    the parsed tables, labelled with the month and the year, after that one
    request.  Whatever the server answers, one turn of the loop returns a
    state: no exception leaves it. *)
Theorem month_fetch_failures_are_contained :
  forall (year : Z) (month_name : string) (st : loop_state),
    (forall text,
       http_get (requests st) (month_url year month_name) = Response 404 text ->
       scrape_phivolcs_data_from_html str_of_float read_html http_get now
         year month_name (requests st)
       = scrape_current_month_from_main_page str_of_float read_html http_get now
           (requests st ++ [month_url year month_name])) /\
    (current_month_found st = false ->
     (http_get (requests st) (month_url year month_name) = Failure \/
      exists status text,
        http_get (requests st) (month_url year month_name) = Response status text /\
        (400 <= status < 600)%Z /\ status <> 404%Z) ->
     scrape_phivolcs_data_from_html str_of_float read_html http_get now
       year month_name (requests st)
     = (Ok None, requests st ++ [month_url year month_name]) /\
     month_step str_of_float read_html http_get now year st month_name
     = Ok (record_failure now year st month_name
             (requests st ++ [month_url year month_name]))) /\
    (forall status text tables,
       http_get (requests st) (month_url year month_name) = Response status text ->
       (status < 400 \/ 600 <= status)%Z ->
       read_html text = Ok tables ->
       exists v,
         normalize str_of_float tables = Ok v /\
         scrape_phivolcs_data_from_html str_of_float read_html http_get now
           year month_name (requests st)
         = (Ok (option_map (fun d => add_metadata d month_name year) v),
            requests st ++ [month_url year month_name])) /\
    (exists st', month_step str_of_float read_html http_get now year st month_name = Ok st').
Proof.
  intros year month_name st. split; [|split; [|split]].
  - intros text H. exact (scrape_month_not_found year month_name (requests st) text H).
  - intros Hflag Hfail.
    assert (Hnone : scrape_phivolcs_data_from_html str_of_float read_html http_get now
                      year month_name (requests st)
                    = (Ok None, requests st ++ [month_url year month_name])).
    { unfold scrape_phivolcs_data_from_html, month_page_body.
      destruct Hfail as [Hf | [status [text [Hr [Hrange Hne]]]]].
      - unfold fetch_tables. now rewrite Hf.
      - rewrite (fetch_tables_http_error _ _ text status Hr Hrange). cbn [bind].
        destruct (Z.eqb_spec status 404); [contradiction | reflexivity]. }
    split; [exact Hnone|].
    unfold month_step. now rewrite Hflag, Hnone.
  - intros status text tables Hget Hstatus Hread.
    unfold scrape_phivolcs_data_from_html, month_page_body, fetch_tables, raise_for_status.
    rewrite Hget.
    replace ((400 <=? status)%Z && (status <? 600)%Z) with false
      by (symmetry; apply andb_false_iff;
          destruct Hstatus; [left; apply Z.leb_gt; lia | right; apply Z.ltb_ge; lia]).
    cbn [bind]. rewrite Hread. cbn [bind].
    destruct (normalize_shape tables) as [Hn|[df' [_ Hn]]]; rewrite Hn; cbn [bind].
    + exists None. split; reflexivity.
    + eexists. split; reflexivity.
  - apply month_step_total.
Qed.

(** C8.  A 404 answer in the ACTIVE state is followed by one request for
    the front page, and the month is settled by what the front page gave.
    When it gave a frame with rows, the frame is collected, the month is
    recorded as successful, and the flag that makes the loop skip is set
    exactly when the year and the month are those of the clock.  When it
    gave nothing, or a frame without rows, the month is recorded as failed
    and the flag is set exactly when the year is that of the clock.  The 404
    itself sets nothing.  With the flag set, every remaining month is
    recorded as failed and nothing is requested. *)
Theorem not_found_falls_back_and_skips_by_the_clock :
  forall (year : Z) (month_name text : string) (st : loop_state),
    current_month_found st = false ->
    http_get (requests st) (month_url year month_name) = Response 404 text ->
    (exists v st',
       scrape_current_month_from_main_page str_of_float read_html http_get now
         (requests st ++ [month_url year month_name])
       = (Ok v, requests st ++ [month_url year month_name; main_url]) /\
       month_step str_of_float read_html http_get now year st month_name = Ok st' /\
       requests st' = requests st ++ [month_url year month_name; main_url] /\
       (forall d, v = Some d -> empty d = false ->
          all_data st' = all_data st ++ [d] /\
          successful_months st' = successful_months st ++ [month_name] /\
          failed_months st' = failed_months st /\
          current_month_found st'
          = (year =? dt_year now)%Z && String.eqb month_name (strftime_B now)) /\
       (v = None \/ (exists d, v = Some d /\ empty d = true) ->
          all_data st' = all_data st /\
          successful_months st' = successful_months st /\
          failed_months st' = failed_months st ++ [month_name] /\
          current_month_found st' = (year =? dt_year now)%Z)) /\
    (forall (skipping : loop_state) (months : list string),
       current_month_found skipping = true ->
       run_months str_of_float read_html http_get now year months skipping
       = Ok (mkLoop (all_data skipping) (successful_months skipping)
                    (failed_months skipping ++ months) true (requests skipping))).
Proof.
  intros year month_name text st Hflag H404. split.
  - unfold month_step. rewrite Hflag.
    rewrite (scrape_month_not_found year month_name (requests st) text H404).
    destruct (scrape_current_month_returns (requests st ++ [month_url year month_name]))
      as [v [E _]].
    rewrite E. cbn [bind].
    assert (Hfailed :
              forall st',
                st' = record_failure now year st month_name
                        ((requests st ++ [month_url year month_name]) ++ [main_url]) ->
                requests st' = requests st ++ [month_url year month_name; main_url] /\
                all_data st' = all_data st /\
                successful_months st' = successful_months st /\
                failed_months st' = failed_months st ++ [month_name] /\
                current_month_found st' = (year =? dt_year now)%Z).
    { intros st' ->.
      cbn [record_failure requests all_data successful_months failed_months
           current_month_found].
      rewrite Hflag, <- app_assoc. cbn [app negb].
      rewrite andb_true_r. repeat split. now destruct (year =? dt_year now)%Z. }
    destruct v as [d|].
    + destruct (empty d) eqn:Ee; cbn [negb].
      * exists (Some d). eexists. split; [now rewrite <- app_assoc|]. split; [reflexivity|].
        destruct (Hfailed _ eq_refl) as [Hr Hrest].
        split; [exact Hr|]. split.
        -- intros d' [= <-] He. congruence.
        -- intros _. exact Hrest.
      * exists (Some d). eexists. split; [now rewrite <- app_assoc|]. split; [reflexivity|].
        cbn [requests all_data successful_months failed_months current_month_found].
        split; [now rewrite <- app_assoc|]. split.
        -- intros d' [= <-] _. repeat split.
           now destruct ((year =? dt_year now)%Z && String.eqb month_name (strftime_B now)).
        -- intros [Hv|[d' [[= <-] He]]]; [discriminate | congruence].
    + exists None. eexists. split; [now rewrite <- app_assoc|]. split; [reflexivity|].
      destruct (Hfailed _ eq_refl) as [Hr Hrest].
      split; [exact Hr|]. split.
      * intros d' Hd. discriminate.
      * intros _. exact Hrest.
  - intros skipping months Hs. exact (run_months_skips year months skipping Hs).
Qed.

(** C10.  The frame the front-page scrape returns has the columns Month and
    Year as its last two, and each of its rows ends with the month name and
    the year read from the clock.  This is the frame
    [scrape_phivolcs_data_from_html] returns for any year and month whose
    page answers 404: the year and month that were asked for appear in no
    row. *)
Theorem fallback_rows_are_labelled_by_the_clock :
  forall (year : Z) (month_name text : string) (log : list string) (df : DataFrame),
    (fst (scrape_current_month_from_main_page str_of_float read_html http_get now log)
     = Ok (Some df) ->
     columns df = raw_columns /\
     Forall (fun ir => exists cells,
                 snd ir = cells ++ [Str (strftime_B now); Int (dt_year now)])
            (rows df)) /\
    (http_get log (month_url year month_name) = Response 404 text ->
     fst (scrape_phivolcs_data_from_html str_of_float read_html http_get now
            year month_name log) = Ok (Some df) ->
     columns df = raw_columns /\
     Forall (fun ir => exists cells,
                 snd ir = cells ++ [Str (strftime_B now); Int (dt_year now)])
            (rows df)).
Proof.
  intros year month_name text log df.
  assert (Hmain : forall log',
            fst (scrape_current_month_from_main_page str_of_float read_html http_get now log')
            = Ok (Some df) ->
            columns df = raw_columns /\
            Forall (fun ir => exists cells,
                        snd ir = cells ++ [Str (strftime_B now); Int (dt_year now)])
                   (rows df)).
  { intros log' H.
    destruct (scrape_current_month_returns log') as [v [E Hv]].
    rewrite E in H. cbn [fst] in H. injection H as ->.
    specialize (Hv df eq_refl). split.
    - exact (labelled_with_columns _ _ df Hv).
    - exact (labelled_with_rows _ _ df Hv). }
  split; [apply Hmain|].
  intros H404 H. rewrite (scrape_month_not_found year month_name log text H404) in H.
  exact (Hmain _ H).
Qed.

End ScraperFacts.

Lemma month_fetch_failures_are_contained_witness :
  (scrape_phivolcs_data_from_html sample_str_of_float sample_read_html january_only_server
     sample_now 2024 "February" (requests (initial_state []))
   = (Ok None, requests (initial_state []) ++ [month_url 2024 "February"]) /\
   month_step sample_str_of_float sample_read_html january_only_server sample_now
     2024 (initial_state []) "February"
   = Ok (record_failure sample_now 2024 (initial_state []) "February"
           (requests (initial_state []) ++ [month_url 2024 "February"]))) /\
  (exists v,
     normalize sample_str_of_float [narrow_table; sample_table] = Ok v /\
     scrape_phivolcs_data_from_html sample_str_of_float sample_read_html january_only_server
       sample_now 2024 "January" (requests (initial_state []))
     = (Ok (option_map (fun d => add_metadata d "January" 2024) v),
        requests (initial_state []) ++ [month_url 2024 "January"])) /\
  (exists st', month_step sample_str_of_float sample_read_html january_only_server sample_now
                 2024 (initial_state []) "February" = Ok st').
Proof.
  destruct (month_fetch_failures_are_contained sample_str_of_float sample_read_html
              january_only_server sample_now 2024 "February" (initial_state []))
    as [_ [Hfail [_ Htotal]]].
  destruct (month_fetch_failures_are_contained sample_str_of_float sample_read_html
              january_only_server sample_now 2024 "January" (initial_state []))
    as [_ [_ [Hserved _]]].
  split; [|split; [|exact Htotal]].
  - apply Hfail; [reflexivity|].
    right. exists 500%Z, "Internal Server Error".
    split; [reflexivity|]. split; [lia | discriminate].
  - apply (Hserved 200%Z "<table>...</table>" [narrow_table; sample_table]);
      [reflexivity | left; lia | reflexivity].
Defined.

(** A status outside 2xx that [raise_for_status] lets through: the month
    is recorded as successful. *)
Lemma status_300_month_is_recorded_successful :
  exists st',
    month_step sample_str_of_float sample_read_html multiple_choices_server sample_now
      2024 (initial_state []) "January" = Ok st' /\
    successful_months st' = ["January"] /\
    failed_months st' = [] /\
    requests st' = [month_url 2024 "January"].
Proof. eexists. split; [vm_compute; reflexivity|]. repeat split. Qed.

Lemma not_found_falls_back_and_skips_by_the_clock_witness :
  (exists v st',
     scrape_current_month_from_main_page sample_str_of_float sample_read_html
       front_page_only_server sample_now
       (requests (initial_state []) ++ [month_url 2026 "November"])
     = (Ok v, requests (initial_state []) ++ [month_url 2026 "November"; main_url]) /\
     month_step sample_str_of_float sample_read_html front_page_only_server sample_now
       2026 (initial_state []) "November" = Ok st' /\
     requests st' = requests (initial_state []) ++ [month_url 2026 "November"; main_url] /\
     (forall d, v = Some d -> empty d = false ->
        all_data st' = all_data (initial_state []) ++ [d] /\
        successful_months st' = successful_months (initial_state []) ++ ["November"] /\
        failed_months st' = failed_months (initial_state []) /\
        current_month_found st'
        = (2026 =? dt_year sample_now)%Z && String.eqb "November" (strftime_B sample_now)) /\
     (v = None \/ (exists d, v = Some d /\ empty d = true) ->
        all_data st' = all_data (initial_state []) /\
        successful_months st' = successful_months (initial_state []) /\
        failed_months st' = failed_months (initial_state []) ++ ["November"] /\
        current_month_found st' = (2026 =? dt_year sample_now)%Z)) /\
  (forall (skipping : loop_state) (months : list string),
     current_month_found skipping = true ->
     run_months sample_str_of_float sample_read_html front_page_only_server sample_now
       2026 months skipping
     = Ok (mkLoop (all_data skipping) (successful_months skipping)
                  (failed_months skipping ++ months) true (requests skipping))).
Proof.
  apply (not_found_falls_back_and_skips_by_the_clock sample_str_of_float sample_read_html
           front_page_only_server sample_now 2026 "November" "Not Found" (initial_state []));
    reflexivity.
Defined.

(** A 404 in a past year: the front page is read, the loop stays active and
    goes on to request February. *)
Lemma not_found_in_a_past_year_does_not_skip :
  exists st,
    run_months sample_str_of_float sample_read_html front_page_only_server sample_now
      2024 ["January"; "February"] (initial_state []) = Ok st /\
    current_month_found st = false /\
    successful_months st = ["January"; "February"] /\
    failed_months st = [] /\
    requests st = [month_url 2024 "January"; main_url; month_url 2024 "February"; main_url].
Proof. eexists. split; [vm_compute; reflexivity|]. repeat split. Qed.

Lemma fallback_rows_are_labelled_by_the_clock_witness :
  exists df,
    fst (scrape_phivolcs_data_from_html sample_str_of_float sample_read_html
           front_page_only_server sample_now 2024 "February" []) = Ok (Some df) /\
    columns df = raw_columns /\
    Forall (fun ir => exists cells, snd ir = cells ++ [Str "November"; Int 2026]) (rows df).
Proof.
  eexists. split; [vm_compute; reflexivity|].
  apply (fallback_rows_are_labelled_by_the_clock sample_str_of_float sample_read_html
           front_page_only_server sample_now 2024 "February" "Not Found" []);
    [reflexivity | vm_compute; reflexivity].
Defined.

(* ================================================================= *)
(** * Cleaning *)

Section CleaningFacts.

Variable to_numeric : list cell -> result (list cell).

(** What is taken from pandas about [pd.to_numeric(s, errors='coerce')]:
    when it returns, the result has one entry per entry of [s] and no entry
    is text. *)
Hypothesis to_numeric_numbers :
  forall l out, to_numeric l = Ok out ->
                List.length out = List.length l /\ Forall (fun c => is_text c = false) out.

Lemma locate_position (name : string) (cols : list string) (j : nat) :
  locate name cols = Ok j -> position name cols = Some j.
Proof. unfold locate. destruct (position name cols); [intros [= ->]; reflexivity | discriminate]. Qed.

Lemma setitem_put_column (cols : list string) rs (col : string) (j : nat) (v : list cell) :
  position col cols = Some j ->
  setitem_series (mkDF cols rs) col (combine (map fst rs) v) = mkDF cols (put_column j v rs).
Proof.
  intros Hj. unfold setitem_series, put_columns, put_column. cbn [columns rows].
  rewrite Hj. f_equal. revert v.
  induction rs as [|r rs IH]; intros [|c v]; simpl; try reflexivity.
  now rewrite IH.
Qed.

Lemma convert_numeric_step (cols : list string) (col : string) (rest : list string)
      (j : nat) rs :
  locate col cols = Ok j ->
  convert_numeric to_numeric (col :: rest) (mkDF cols rs)
  = (rs' <- convert_column to_numeric j rs ;;
     convert_numeric to_numeric rest (mkDF cols rs')).
Proof.
  intros Hj. cbn [convert_numeric]. unfold getitem. cbn [columns]. rewrite Hj. cbn [bind].
  assert (Hv : values (column_at j (mkDF cols rs)) = column j rs)
    by (unfold values, column_at, column; cbn [rows]; now rewrite map_map).
  assert (Hl : labels (column_at j (mkDF cols rs)) = map fst rs)
    by (unfold labels, column_at; cbn [rows]; now rewrite map_map).
  rewrite Hv, Hl. unfold convert_column.
  destruct (to_numeric (column j rs)) as [v|e]; cbn [bind]; [|reflexivity].
  now rewrite (setitem_put_column cols rs col j v (locate_position _ _ _ Hj)).
Qed.

Lemma convert_numeric_exact rs :
  convert_numeric to_numeric numeric_cols (mkDF clean_columns rs)
  = (rs' <- convert_rows to_numeric rs ;; Ok (mkDF clean_columns rs')).
Proof.
  unfold numeric_cols, convert_rows.
  rewrite (convert_numeric_step clean_columns "latitude" _ 1) by reflexivity.
  destruct (convert_column to_numeric 1 rs) as [rs1|e]; cbn [bind]; [|reflexivity].
  rewrite (convert_numeric_step clean_columns "longitude" _ 2) by reflexivity.
  destruct (convert_column to_numeric 2 rs1) as [rs2|e]; cbn [bind]; [|reflexivity].
  rewrite (convert_numeric_step clean_columns "depth" _ 3) by reflexivity.
  destruct (convert_column to_numeric 3 rs2) as [rs3|e]; cbn [bind]; [|reflexivity].
  rewrite (convert_numeric_step clean_columns "magnitude" _ 4) by reflexivity.
  destruct (convert_column to_numeric 4 rs3) as [rs4|e]; reflexivity.
Qed.

Lemma labels_put_column (j : nat) rs :
  forall v, List.length v = List.length rs -> map fst (put_column j v rs) = map fst rs.
Proof.
  unfold put_column.
  induction rs as [|r rs IH]; intros [|c v] H; simpl in *; try discriminate; [reflexivity|].
  f_equal. apply IH. now injection H.
Qed.

Lemma nth_replace_nth_other (j k : nat) (v : cell) :
  j <> k -> forall r, nth k (replace_nth j v r) NaN = nth k r NaN.
Proof.
  revert k. induction j as [|j IH]; intros [|k] Hne [|x r]; simpl; try reflexivity;
    try contradiction.
  apply IH. congruence.
Qed.

Lemma column_put_column_other (j k : nat) rs :
  j <> k ->
  forall v, List.length v = List.length rs -> column k (put_column j v rs) = column k rs.
Proof.
  intros Hne. unfold put_column, column.
  induction rs as [|r rs IH]; intros [|c v] H; simpl in *; try discriminate; [reflexivity|].
  f_equal; [now apply nth_replace_nth_other | apply IH; now injection H].
Qed.

Lemma nth_replace_nth_same (j : nat) (v : cell) :
  forall r, j < List.length r -> nth j (replace_nth j v r) NaN = v.
Proof.
  induction j as [|j IH]; intros [|x r] H; simpl in *; try lia; [reflexivity|].
  apply IH. lia.
Qed.

Lemma nth_replace_nth_short (j : nat) (v : cell) :
  forall r, List.length r <= j -> nth j (replace_nth j v r) NaN = NaN.
Proof.
  induction j as [|j IH]; intros [|x r] H; simpl in *; try lia; try reflexivity.
  apply IH. lia.
Qed.

Lemma length_replace_nth {A : Type} (j : nat) (v : A) :
  forall l, List.length (replace_nth j v l) = List.length l.
Proof.
  induction j as [|j IH]; intros [|x l]; simpl; try reflexivity. now rewrite IH.
Qed.

Lemma replace_nth_same (j : nat) :
  forall r : list cell, replace_nth j (nth j r NaN) r = r.
Proof.
  induction j as [|j IH]; intros [|x r]; simpl; try reflexivity. now rewrite IH.
Qed.

(** After [put_column j v] the column [j] holds no text when [v] holds none. *)
Lemma column_put_column_same (j : nat) rs :
  forall v, Forall (fun c => is_text c = false) v ->
            Forall (fun c => is_text c = false) (column j (put_column j v rs)).
Proof.
  unfold put_column, column.
  induction rs as [|r rs IH]; intros [|c v] H; simpl; try constructor.
  - inversion H as [|? ? Hc Hv]; subst.
    destruct (Nat.lt_ge_cases j (List.length (snd r))) as [Hlt|Hge].
    + now rewrite nth_replace_nth_same.
    + now rewrite nth_replace_nth_short.
  - apply IH. now inversion H.
Qed.

Lemma widths_put_column (n j : nat) (v : list cell) rs :
  Forall (fun ir => List.length (snd ir) = n) rs ->
  Forall (fun ir => List.length (snd ir) = n) (put_column j v rs).
Proof.
  intros H. unfold put_column. revert v.
  induction H as [|r rs Hr _ IH]; intros [|c v]; simpl; constructor.
  - cbn [snd]. now rewrite length_replace_nth.
  - apply IH.
Qed.

Lemma convert_column_returns (j : nat) rs rs' :
  convert_column to_numeric j rs = Ok rs' ->
  exists v, to_numeric (column j rs) = Ok v /\
            List.length v = List.length rs /\
            Forall (fun c => is_text c = false) v /\
            rs' = put_column j v rs.
Proof.
  unfold convert_column.
  destruct (to_numeric (column j rs)) as [v|e] eqn:E; cbn [bind]; [|discriminate].
  intros [= <-]. exists v. destruct (to_numeric_numbers _ _ E) as [Hl Hn].
  unfold column in Hl. rewrite length_map in Hl. now repeat split.
Qed.

Lemma labels_convert_column (j : nat) rs rs' :
  convert_column to_numeric j rs = Ok rs' -> map fst rs' = map fst rs.
Proof.
  intros H. destruct (convert_column_returns j rs rs' H) as [v [_ [Hl [_ ->]]]].
  now apply labels_put_column.
Qed.

(** The four conversions, one after the other. *)
Lemma convert_rows_returns rs rs4 :
  convert_rows to_numeric rs = Ok rs4 ->
  exists rs1 rs2 rs3,
    convert_column to_numeric 1 rs = Ok rs1 /\
    convert_column to_numeric 2 rs1 = Ok rs2 /\
    convert_column to_numeric 3 rs2 = Ok rs3 /\
    convert_column to_numeric 4 rs3 = Ok rs4.
Proof.
  unfold convert_rows.
  destruct (convert_column to_numeric 1 rs) as [rs1|e] eqn:E1; cbn [bind]; [|discriminate].
  destruct (convert_column to_numeric 2 rs1) as [rs2|e] eqn:E2; cbn [bind]; [|discriminate].
  destruct (convert_column to_numeric 3 rs2) as [rs3|e] eqn:E3; cbn [bind]; [|discriminate].
  intros H. exists rs1, rs2, rs3.
  split; [reflexivity|]. split; [exact E2|]. split; [exact E3 | exact H].
Qed.

Lemma labels_convert_rows rs rs' :
  convert_rows to_numeric rs = Ok rs' -> map fst rs' = map fst rs.
Proof.
  intros H. destruct (convert_rows_returns rs rs' H) as [rs1 [rs2 [rs3 [H1 [H2 [H3 H4]]]]]].
  rewrite (labels_convert_column 4 rs3 rs' H4), (labels_convert_column 3 rs2 rs3 H3),
    (labels_convert_column 2 rs1 rs2 H2).
  exact (labels_convert_column 1 rs rs1 H1).
Qed.

Lemma no_text_convert_column_same (j : nat) rs rs' :
  convert_column to_numeric j rs = Ok rs' ->
  Forall (fun c => is_text c = false) (column j rs').
Proof.
  intros H. destruct (convert_column_returns j rs rs' H) as [v [_ [_ [Hn ->]]]].
  now apply column_put_column_same.
Qed.

Lemma column_convert_column_other (j k : nat) rs rs' :
  j <> k -> convert_column to_numeric j rs = Ok rs' -> column k rs' = column k rs.
Proof.
  intros Hne H. destruct (convert_column_returns j rs rs' H) as [v [_ [Hl [_ ->]]]].
  now apply column_put_column_other.
Qed.

(** After lines 244-245 none of the four numeric columns holds text. *)
Lemma convert_rows_no_text rs rs' :
  convert_rows to_numeric rs = Ok rs' ->
  Forall (fun j => Forall (fun c => is_text c = false) (column j rs')) [1; 2; 3; 4].
Proof.
  intros H. destruct (convert_rows_returns rs rs' H) as [rs1 [rs2 [rs3 [H1 [H2 [H3 H4]]]]]].
  apply Forall_cons;
    [|apply Forall_cons; [|apply Forall_cons; [|apply Forall_cons; [|apply Forall_nil]]]].
  - rewrite (column_convert_column_other 4 1 rs3 rs') by (discriminate || assumption).
    rewrite (column_convert_column_other 3 1 rs2 rs3) by (discriminate || assumption).
    rewrite (column_convert_column_other 2 1 rs1 rs2) by (discriminate || assumption).
    exact (no_text_convert_column_same 1 rs rs1 H1).
  - rewrite (column_convert_column_other 4 2 rs3 rs') by (discriminate || assumption).
    rewrite (column_convert_column_other 3 2 rs2 rs3) by (discriminate || assumption).
    exact (no_text_convert_column_same 2 rs1 rs2 H2).
  - rewrite (column_convert_column_other 4 3 rs3 rs') by (discriminate || assumption).
    exact (no_text_convert_column_same 3 rs2 rs3 H3).
  - exact (no_text_convert_column_same 4 rs3 rs' H4).
Qed.

Lemma convert_rows_widths (n : nat) rs rs' :
  convert_rows to_numeric rs = Ok rs' ->
  Forall (fun ir => List.length (snd ir) = n) rs ->
  Forall (fun ir => List.length (snd ir) = n) rs'.
Proof.
  intros H Hw. destruct (convert_rows_returns rs rs' H) as [rs1 [rs2 [rs3 [H1 [H2 [H3 H4]]]]]].
  destruct (convert_column_returns 1 rs rs1 H1) as [v1 [_ [_ [_ ->]]]].
  destruct (convert_column_returns 2 _ rs2 H2) as [v2 [_ [_ [_ ->]]]].
  destruct (convert_column_returns 3 _ rs3 H3) as [v3 [_ [_ [_ ->]]]].
  destruct (convert_column_returns 4 _ rs' H4) as [v4 [_ [_ [_ ->]]]].
  now do 4 apply widths_put_column.
Qed.

(** Lines 237-259 on a combined frame: the conversion of the four columns,
    then the split of the rows. *)
Lemma clean_rows_exact (df : DataFrame) :
  map lower (columns df) = clean_columns ->
  NoDup (index df) ->
  clean_rows to_numeric df
  = (rs <- convert_rows to_numeric (rows df) ;; Ok (partitioned rs)).
Proof.
  intros Hc Hnd. unfold clean_rows, set_columns. rewrite Hc.
  rewrite convert_numeric_exact.
  destruct (convert_rows to_numeric (rows df)) as [rs|e] eqn:E; cbn [bind]; [|reflexivity].
  assert (Hnd' : NoDup (map fst rs))
    by (rewrite (labels_convert_rows (rows df) rs E); exact Hnd).
  unfold isnull_any, dropna_subset. cbn [columns rows].
  change (positions numeric_cols clean_columns) with (@Ok (list nat) [1; 2; 3; 4]).
  cbn [bind].
  change (map (fun ir => (fst ir, any_null_at [1; 2; 3; 4] (snd ir))) rs)
    with (row_series missing_numeric rs).
  rewrite (getitem_mask_rows clean_columns rs missing_numeric).
  cbn [bind columns rows].
  change (fun ir : nat * list cell => negb (any_null_at [1; 2; 3; 4] (snd ir)))
    with (fun ir : nat * list cell => negb (missing_numeric (snd ir))).
  unfold getitem. cbn [columns].
  change (locate "latitude" clean_columns) with (@Ok nat 1).
  change (locate "longitude" clean_columns) with (@Ok nat 2).
  cbn [bind]. rewrite !column_at_row_series. cbn [rows].
  rewrite !smap_row_series.
  assert (Hni : forall l,
            series_and (row_series (fun r => eq_zero (nth 1 r NaN)) l)
                       (row_series (fun r => eq_zero (nth 2 r NaN)) l)
            = row_series null_island l)
    by (intros l; unfold series_and; apply logical_row_series).
  rewrite !Hni, !series_not_row_series.
  pose proof (getitem_mask_aligned clean_columns rs
                (fun r => negb (missing_numeric r))
                (fun r => negb (missing_numeric r)) null_island Hnd') as Hal.
  cbv zeta in Hal. rewrite Hal. cbn [bind].
  rewrite (getitem_mask_rows clean_columns _ (fun r => negb (null_island r))).
  reflexivity.
Qed.

Lemma filter_partition {A : Type} (p : A -> bool) (l : list A) :
  Permutation (filter p l ++ filter (fun x => negb (p x)) l) l.
Proof.
  induction l as [|x l IH]; simpl; [constructor|].
  destruct (p x); simpl.
  - now constructor.
  - apply Permutation_sym. etransitivity; [|apply Permutation_middle].
    constructor. now apply Permutation_sym.
Qed.

Lemma NoDup_app_disjoint {A : Type} (l1 l2 : list A) (x : A) :
  NoDup (l1 ++ l2) -> In x l1 -> ~ In x l2.
Proof.
  induction l1 as [|a l1 IH]; intros Hnd Hin; [contradiction|].
  simpl in Hnd. inversion Hnd as [|? ? Ha Hnd']; subst.
  destruct Hin as [->|Hin]; [|now apply IH].
  intros H2. apply Ha. apply in_or_app. now right.
Qed.

Lemma partitioned_rows rs :
  Permutation (rows (valid (partitioned rs))
               ++ rows (removed_nan_rows (partitioned rs))
               ++ rows (removed_null_island_rows (partitioned rs)))
              rs.
Proof.
  unfold partitioned. cbn [valid removed_nan_rows removed_null_island_rows rows].
  set (kept := filter (fun ir => negb (missing_numeric (snd ir))) rs).
  assert (Hni : filter (fun ir => negb (missing_numeric (snd ir)) && null_island (snd ir)) kept
                = filter (fun ir => null_island (snd ir)) kept).
  { apply filter_ext_in. intros ir Hin. apply filter_In in Hin as [_ ->]. reflexivity. }
  rewrite Hni.
  etransitivity; [apply Permutation_app_head, Permutation_app_comm|].
  rewrite app_assoc.
  etransitivity;
    [apply Permutation_app_tail, Permutation_app_comm|].
  etransitivity;
    [apply Permutation_app_tail;
     exact (filter_partition (fun ir => null_island (snd ir)) kept)|].
  etransitivity; [apply Permutation_app_comm|].
  exact (filter_partition (fun ir => missing_numeric (snd ir)) rs).
Qed.

(** C5.  On a combined frame (the columns the scraping functions produce,
    distinct index labels) the cleaning of lines 237-259 returns exactly
    when the conversion loop of lines 244-245 does; an exception of
    [pd.to_numeric] leaves the block as it is.  When the conversion returns,
    lines 247-259 split the rows in three: the rows with a missing numeric
    field, the rows without one that sit on null island, and the valid rows.
    No index label is in both removed frames, a row removed for null island
    has no missing field, and the three frames together hold every row of
    the frame once, both by index label and by row (as the conversion left
    the rows). *)
Theorem removal_partition_is_exhaustive_and_disjoint :
  forall df : DataFrame,
    map lower (columns df) = clean_columns ->
    NoDup (index df) ->
    match convert_numeric to_numeric numeric_cols
                          (set_columns df (map lower (columns df))) with
    | Raise e => clean_rows to_numeric df = Raise e
    | Ok converted =>
        index converted = index df /\
        exists c,
          clean_rows to_numeric df = Ok c /\
          (forall i, In i (index (removed_nan_rows c)) ->
                     ~ In i (index (removed_null_island_rows c))) /\
          Forall (fun ir => missing_numeric (snd ir) = true) (rows (removed_nan_rows c)) /\
          Forall (fun ir => missing_numeric (snd ir) = false /\ null_island (snd ir) = true)
                 (rows (removed_null_island_rows c)) /\
          Forall (fun ir => missing_numeric (snd ir) = false /\ null_island (snd ir) = false)
                 (rows (valid c)) /\
          Permutation (index (valid c) ++ index (removed_nan_rows c)
                       ++ index (removed_null_island_rows c))
                      (index df) /\
          Permutation (rows (valid c) ++ rows (removed_nan_rows c)
                       ++ rows (removed_null_island_rows c))
                      (rows converted)
    end.
Proof.
  intros df Hc Hnd. rewrite (clean_rows_exact df Hc Hnd).
  unfold set_columns. rewrite Hc, convert_numeric_exact.
  destruct (convert_rows to_numeric (rows df)) as [rs|e] eqn:E; cbn [bind]; [|reflexivity].
  pose proof (labels_convert_rows (rows df) rs E) as Hlab.
  split; [exact Hlab|].
  exists (partitioned rs). split; [reflexivity|]. cbn [rows].
  pose proof (partitioned_rows rs) as Hrows.
  assert (Hlabels : Permutation (index (valid (partitioned rs))
                                 ++ index (removed_nan_rows (partitioned rs))
                                 ++ index (removed_null_island_rows (partitioned rs)))
                                (index df)).
  { unfold index. rewrite <- !map_app, <- Hlab. now apply Permutation_map. }
  split; [|split; [|split; [|split; [|split]]]].
  - intros i Hi.
    apply (NoDup_app_disjoint (index (removed_nan_rows (partitioned rs)))
                              (index (removed_null_island_rows (partitioned rs))) i);
      [|exact Hi].
    apply (NoDup_app_remove_l (index (valid (partitioned rs)))).
    apply (Permutation_NoDup (Permutation_sym Hlabels)). exact Hnd.
  - apply Forall_forall. intros ir Hin. cbn [partitioned removed_nan_rows rows] in Hin.
    apply filter_In in Hin. tauto.
  - apply Forall_forall. intros ir Hin.
    cbn [partitioned removed_null_island_rows rows] in Hin.
    apply filter_In in Hin as [Hin Hb]. apply filter_In in Hin as [_ Hk].
    apply negb_true_iff in Hk. rewrite Hk in Hb. simpl in Hb. now split.
  - apply Forall_forall. intros ir Hin. cbn [partitioned valid rows] in Hin.
    apply filter_In in Hin as [Hin Hb]. apply filter_In in Hin as [_ Hk].
    apply negb_true_iff in Hk, Hb. now split.
  - exact Hlabels.
  - exact Hrows.
Qed.

End CleaningFacts.

(* ================================================================= *)
(** * The sample library functions meet what is taken from pandas *)

Section SampleFacts.

Lemma select_rows_Forall {A : Type} (P : A -> Prop) (l : list A) :
  Forall P l -> forall flags, Forall P (select_rows l flags).
Proof.
  induction 1 as [|x l Hx _ IH]; intros [|b flags]; simpl; try constructor.
  destruct b; [constructor; [exact Hx | apply IH] | apply IH].
Qed.

Lemma existsb_select_rows {A : Type} (p : A -> bool) (l : list A) :
  forall flags, existsb p (select_rows l flags) = true -> existsb p l = true.
Proof.
  induction l as [|x l IH]; intros [|b flags] H; simpl in *; try discriminate.
  destruct b; simpl in H.
  - apply orb_true_iff in H as [H|H]; [now rewrite H | rewrite (IH flags H)].
    now rewrite orb_true_r.
  - rewrite (IH flags H). now rewrite orb_true_r.
Qed.

Lemma existsb_none {A : Type} (p : A -> bool) (l : list A) :
  Forall (fun x => p x = false) l -> existsb p l = false.
Proof. induction 1 as [|x l Hx _ IH]; simpl; [reflexivity | now rewrite Hx, IH]. Qed.

Lemma none_existsb {A : Type} (p : A -> bool) (l : list A) :
  existsb p l = false -> Forall (fun x => p x = false) l.
Proof.
  induction l as [|x l IH]; simpl; intros H; constructor;
    apply orb_false_iff in H; [tauto | apply IH; tauto].
Qed.

Lemma map_fixed {A : Type} (f : A -> A) (l : list A) :
  Forall (fun x => f x = x) l -> map f l = l.
Proof. induction 1 as [|x l Hx _ IH]; simpl; [reflexivity | now rewrite Hx, IH]. Qed.

Lemma coerce_no_text (c : cell) : is_text (coerce c) = false.
Proof. destruct c as [s|z|f]; simpl; [|reflexivity | reflexivity]. now destruct (sample_parse_number s). Qed.

Lemma float_limit_beyond_64_bits : (- FLOAT_LIMIT < INT64_MIN)%Z /\ (UINT64_MAX < FLOAT_LIMIT)%Z.
Proof. split; vm_compute; reflexivity. Qed.

Lemma fits_64_bits_not_too_large (c : cell) : beyond_64_bits c = false -> too_large c = false.
Proof.
  destruct c as [s|z|f]; try reflexivity. cbn [beyond_64_bits too_large]. intros H.
  apply orb_false_iff in H as [Hlo Hhi].
  apply Z.ltb_ge in Hlo, Hhi. apply Z.leb_gt.
  destruct float_limit_beyond_64_bits as [Hmin Hmax].
  generalize dependent FLOAT_LIMIT. generalize dependent INT64_MIN.
  generalize dependent UINT64_MAX. intros. lia.
Qed.

(** A column of floats is returned as it is. *)
Lemma sample_to_numeric_floats (l : list cell) :
  Forall (fun c => is_float c = true) l -> sample_to_numeric l = Ok l.
Proof.
  intros H. unfold sample_to_numeric.
  rewrite (existsb_none too_large l)
    by (eapply Forall_impl; [|exact H]; intros [s|z|f] Hc; cbn [is_float is_int is_text too_large coerce upcast] in *; congruence).
  rewrite (map_fixed coerce l)
    by (eapply Forall_impl; [|exact H]; intros [s|z|f] Hc; cbn [is_float is_int is_text too_large coerce upcast] in *; congruence).
  rewrite (map_fixed upcast l)
    by (eapply Forall_impl; [|exact H]; intros [s|z|f] Hc; cbn [is_float is_int is_text too_large coerce upcast] in *; congruence).
  now destruct (seen_float l).
Qed.

(** A column of integers that fit one 64-bit type is returned as it is. *)
Lemma sample_to_numeric_integers (l : list cell) :
  Forall (fun c => is_int c = true) l ->
  existsb beyond_64_bits l = false ->
  existsb negative l && existsb above_int64 l = false ->
  sample_to_numeric l = Ok l.
Proof.
  intros Hint Hfit Hone. unfold sample_to_numeric.
  rewrite (existsb_none too_large l)
    by (eapply Forall_impl; [|exact (none_existsb _ _ Hfit)];
        intros c Hc; now apply fits_64_bits_not_too_large).
  rewrite (map_fixed coerce l)
    by (eapply Forall_impl; [|exact Hint]; intros [s|z|f] Hc; cbn [is_float is_int is_text too_large coerce upcast] in *; congruence).
  unfold seen_float. rewrite Hfit, Hone.
  rewrite (existsb_none is_float l)
    by (eapply Forall_impl; [|exact Hint]; intros [s|z|f] Hc; cbn [is_float is_int is_text too_large coerce upcast] in *; congruence).
  reflexivity.
Qed.

Lemma sample_to_numeric_numbers :
  forall l out, sample_to_numeric l = Ok out ->
                List.length out = List.length l /\ Forall (fun c => is_text c = false) out.
Proof.
  intros l out. unfold sample_to_numeric.
  destruct (existsb too_large l); [discriminate|]. intros [= <-].
  assert (Hp : Forall (fun c => is_text c = false) (map coerce l))
    by (rewrite Forall_map; apply Forall_forall; intros c _; apply coerce_no_text).
  destruct (seen_float (map coerce l)).
  - rewrite !length_map. split; [reflexivity|].
    rewrite Forall_map. eapply Forall_impl; [|exact Hp].
    intros [s|z|f] Hc; cbn [is_float is_int is_text too_large coerce upcast] in *; congruence.
  - rewrite length_map. now split.
Qed.

Lemma sample_to_numeric_fixed :
  forall l out, sample_to_numeric l = Ok out ->
  forall flags, sample_to_numeric (select_rows out flags) = Ok (select_rows out flags).
Proof.
  intros l out. unfold sample_to_numeric.
  destruct (existsb too_large l); [discriminate|]. intros [= <-] flags.
  fold (sample_to_numeric (select_rows (if seen_float (map coerce l)
                                        then map upcast (map coerce l)
                                        else map coerce l) flags)).
  assert (Hp : Forall (fun c => is_text c = false) (map coerce l))
    by (rewrite Forall_map; apply Forall_forall; intros c _; apply coerce_no_text).
  destruct (seen_float (map coerce l)) eqn:Es.
  - apply sample_to_numeric_floats, select_rows_Forall.
    rewrite Forall_map. eapply Forall_impl; [|exact Hp].
    intros [s|z|f] Hc; cbn [is_float is_int is_text too_large coerce upcast] in *; congruence.
  - unfold seen_float in Es.
    apply orb_false_iff in Es as [Es Hone]. apply orb_false_iff in Es as [Hflt Hfit].
    assert (Hint : Forall (fun c => is_int c = true) (map coerce l)).
    { pose proof (none_existsb _ _ Hflt) as Hnf.
      rewrite Forall_forall in *. intros c Hin.
      specialize (Hp c Hin). specialize (Hnf c Hin).
      destruct c; cbn [is_float is_int is_text] in *; congruence. }
    apply sample_to_numeric_integers.
    + now apply select_rows_Forall.
    + destruct (existsb beyond_64_bits (select_rows (map coerce l) flags)) eqn:E;
        [|reflexivity].
      apply existsb_select_rows in E. congruence.
    + destruct (existsb negative (select_rows (map coerce l) flags)) eqn:En;
        [|reflexivity].
      destruct (existsb above_int64 (select_rows (map coerce l) flags)) eqn:Ea;
        [|reflexivity].
      apply existsb_select_rows in En, Ea. rewrite En, Ea in Hone. discriminate.
Qed.

Lemma cast_of_refl (c : cell) : cast_of c c.
Proof. now left. Qed.

Lemma sample_common_type_casts : forall rs, casts rs (sample_common_type rs).
Proof.
  intros rs. unfold casts, sample_common_type.
  induction rs as [|r rs IH]; constructor; [|exact IH].
  induction r as [|c r IHr]; constructor; [apply cast_of_refl | exact IHr].
Qed.

End SampleFacts.

Lemma sample_conversion_returns :
  exists converted,
    convert_numeric sample_to_numeric numeric_cols
      (set_columns sample_month_frame (map lower (columns sample_month_frame)))
    = Ok converted.
Proof. eexists. vm_compute. reflexivity. Qed.

Lemma removal_partition_is_exhaustive_and_disjoint_witness :
  exists converted c,
    convert_numeric sample_to_numeric numeric_cols
      (set_columns sample_month_frame (map lower (columns sample_month_frame)))
    = Ok converted /\
    index converted = index sample_month_frame /\
    clean_rows sample_to_numeric sample_month_frame = Ok c /\
    (forall i, In i (index (removed_nan_rows c)) ->
               ~ In i (index (removed_null_island_rows c))) /\
    Forall (fun ir => missing_numeric (snd ir) = true) (rows (removed_nan_rows c)) /\
    Forall (fun ir => missing_numeric (snd ir) = false /\ null_island (snd ir) = true)
           (rows (removed_null_island_rows c)) /\
    Forall (fun ir => missing_numeric (snd ir) = false /\ null_island (snd ir) = false)
           (rows (valid c)) /\
    Permutation (index (valid c) ++ index (removed_nan_rows c)
                 ++ index (removed_null_island_rows c))
                (index sample_month_frame) /\
    Permutation (rows (valid c) ++ rows (removed_nan_rows c)
                 ++ rows (removed_null_island_rows c))
                (rows converted) /\
    shape0 (valid c) = 1 /\
    shape0 (removed_nan_rows c) = 1 /\
    shape0 (removed_null_island_rows c) = 1.
Proof.
  pose proof (removal_partition_is_exhaustive_and_disjoint sample_to_numeric
                sample_to_numeric_numbers sample_month_frame eq_refl) as H.
  assert (Hnd : NoDup (index sample_month_frame))
    by (change (index sample_month_frame) with (seq 0 3); apply seq_NoDup).
  specialize (H Hnd).
  destruct sample_conversion_returns as [converted E]. rewrite E in H.
  destruct H as [Hi [c [Hc [H1 [H2 [H3 [H4 [H5 H6]]]]]]]].
  exists converted, c.
  assert (Hcount : shape0 (valid c) = 1 /\ shape0 (removed_nan_rows c) = 1
                   /\ shape0 (removed_null_island_rows c) = 1).
  { pose proof Hc as Hc'. vm_compute in Hc'. injection Hc' as <-.
    repeat split. }
  repeat (split; [assumption|]). exact Hcount.
Defined.

(* ================================================================= *)
(** * Cleaning twice *)

Section Idempotence.

Variable to_numeric : list cell -> result (list cell).

Hypothesis to_numeric_numbers :
  forall l out, to_numeric l = Ok out ->
                List.length out = List.length l /\ Forall (fun c => is_text c = false) out.

(** What is taken from pandas about a column [pd.to_numeric] has produced:
    it has a numeric dtype, which a selection of its rows keeps, and
    [pd.to_numeric] returns a column of numeric dtype as it is. *)
Hypothesis to_numeric_fixed :
  forall l out, to_numeric l = Ok out ->
  forall flags, to_numeric (select_rows out flags) = Ok (select_rows out flags).

Lemma agrees_put_column (j : nat) rs :
  forall v, List.length v = List.length rs -> agrees j (put_column j v rs) v.
Proof.
  unfold agrees, put_column.
  induction rs as [|r rs IH]; intros [|c v] H; simpl in *; try discriminate; constructor.
  - cbn [snd]. destruct (Nat.lt_ge_cases j (List.length (snd r))) as [Hlt|Hge].
    + intros _. now apply nth_replace_nth_same.
    + rewrite (nth_replace_nth_short j c (snd r) Hge). discriminate.
  - apply IH. now injection H.
Qed.

Lemma agrees_put_column_other (j k : nat) rs (v : list cell) :
  k <> j -> agrees j rs v ->
  forall w, List.length w = List.length rs -> agrees j (put_column k w rs) v.
Proof.
  intros Hne H. unfold agrees, put_column in *.
  induction H as [|r c rs v Hr _ IH]; intros [|x w] Hw; simpl in *; try discriminate;
    constructor.
  - cbn [snd]. now rewrite (nth_replace_nth_other k j x Hne).
  - apply IH. now injection Hw.
Qed.

Lemma column_filter_agrees (j : nat) rs (v : list cell) (p : nat * list cell -> bool) :
  agrees j rs v ->
  (forall ir, In ir rs -> p ir = true -> isnull (nth j (snd ir) NaN) = false) ->
  column j (filter p rs) = select_rows v (map p rs).
Proof.
  unfold agrees, column. intros H.
  induction H as [|r c rs v Hr _ IH]; intros Hp; simpl; [reflexivity|].
  destruct (p r) eqn:Er; simpl.
  - rewrite (Hr (Hp r (or_introl eq_refl) Er)). f_equal.
    apply IH. intros ir Hin. apply Hp. now right.
  - apply IH. intros ir Hin. apply Hp. now right.
Qed.

(** Each numeric column of the converted rows reads as a column
    [pd.to_numeric] has returned. *)
Lemma convert_rows_agrees rs rs' :
  convert_rows to_numeric rs = Ok rs' ->
  Forall (fun j => exists l v, to_numeric l = Ok v /\ agrees j rs' v) [1; 2; 3; 4].
Proof.
  intros H.
  destruct (convert_rows_returns to_numeric rs rs' H) as [rs1 [rs2 [rs3 [H1 [H2 [H3 H4]]]]]].
  destruct (convert_column_returns to_numeric to_numeric_numbers 1 rs rs1 H1)
    as [v1 [E1 [L1 [_ ->]]]].
  destruct (convert_column_returns to_numeric to_numeric_numbers 2 _ rs2 H2)
    as [v2 [E2 [L2 [_ ->]]]].
  destruct (convert_column_returns to_numeric to_numeric_numbers 3 _ rs3 H3)
    as [v3 [E3 [L3 [_ ->]]]].
  destruct (convert_column_returns to_numeric to_numeric_numbers 4 _ rs' H4)
    as [v4 [E4 [L4 [_ ->]]]].
  apply Forall_cons;
    [|apply Forall_cons; [|apply Forall_cons; [|apply Forall_cons; [|apply Forall_nil]]]].
  - eexists. exists v1. split; [exact E1|].
    apply agrees_put_column_other; [discriminate | | exact L4].
    apply agrees_put_column_other; [discriminate | | exact L3].
    apply agrees_put_column_other; [discriminate | | exact L2].
    now apply agrees_put_column.
  - eexists. exists v2. split; [exact E2|].
    apply agrees_put_column_other; [discriminate | | exact L4].
    apply agrees_put_column_other; [discriminate | | exact L3].
    now apply agrees_put_column.
  - eexists. exists v3. split; [exact E3|].
    apply agrees_put_column_other; [discriminate | | exact L4].
    now apply agrees_put_column.
  - eexists. exists v4. split; [exact E4|].
    now apply agrees_put_column.
Qed.

Lemma put_column_same (j : nat) rs : put_column j (column j rs) rs = rs.
Proof.
  unfold put_column, column.
  induction rs as [|[i r] rs IH]; simpl; [reflexivity|].
  now rewrite replace_nth_same, IH.
Qed.

(** A column that is a selection of rows of a column [pd.to_numeric] has
    returned is converted to itself. *)
Lemma convert_column_fixed (j : nat) rs :
  (exists l v flags, to_numeric l = Ok v /\ column j rs = select_rows v flags) ->
  convert_column to_numeric j rs = Ok rs.
Proof.
  intros [l [v [flags [E Hsel]]]]. unfold convert_column.
  rewrite Hsel, (to_numeric_fixed l v E flags), <- Hsel. cbn [bind].
  now rewrite put_column_same.
Qed.

Lemma convert_rows_fixed rs :
  Forall (fun j => exists l v flags, to_numeric l = Ok v /\ column j rs = select_rows v flags)
         [1; 2; 3; 4] ->
  convert_rows to_numeric rs = Ok rs.
Proof.
  intros H. inversion H as [|? ? H1 H']; subst. inversion H' as [|? ? H2 H'']; subst.
  inversion H'' as [|? ? H3 H''']; subst. inversion H''' as [|? ? H4 _]; subst.
  unfold convert_rows.
  rewrite (convert_column_fixed 1 rs H1). cbn [bind].
  rewrite (convert_column_fixed 2 rs H2). cbn [bind].
  rewrite (convert_column_fixed 3 rs H3). cbn [bind].
  exact (convert_column_fixed 4 rs H4).
Qed.

Lemma filter_none {A : Type} (p : A -> bool) (l : list A) :
  Forall (fun x => p x = false) l -> filter p l = [].
Proof.
  induction 1 as [|x l Hx _ IH]; simpl; [reflexivity | now rewrite Hx].
Qed.

Lemma filter_all {A : Type} (p : A -> bool) (l : list A) :
  Forall (fun x => p x = true) l -> filter p l = l.
Proof.
  induction 1 as [|x l Hx _ IH]; simpl; [reflexivity | now rewrite Hx, IH].
Qed.

Lemma present_of_not_missing (j : nat) (r : list cell) :
  In j [1; 2; 3; 4] -> missing_numeric r = false -> isnull (nth j r NaN) = false.
Proof.
  unfold missing_numeric, any_null_at. cbn [existsb]. rewrite orb_false_r. intros Hj Hm.
  apply orb_false_iff in Hm as [H1 Hm]. apply orb_false_iff in Hm as [H2 Hm].
  apply orb_false_iff in Hm as [H3 H4].
  destruct Hj as [<-|[<-|[<-|[<-|[]]]]]; assumption.
Qed.

(** Each numeric column of the valid rows is a selection of rows of a
    column [pd.to_numeric] has returned. *)
Lemma valid_columns_selected rs rs' :
  convert_rows to_numeric rs = Ok rs' ->
  Forall (fun j => exists l v flags,
              to_numeric l = Ok v /\
              column j (rows (valid (partitioned rs'))) = select_rows v flags)
         [1; 2; 3; 4].
Proof.
  intros H. pose proof (convert_rows_agrees rs rs' H) as Ha.
  cbn [partitioned valid rows]. rewrite filter_filter.
  rewrite Forall_forall in *. intros j Hj.
  destruct (Ha j Hj) as [l [v [E Hag]]].
  exists l, v. eexists. split; [exact E|].
  apply (column_filter_agrees j rs' v _ Hag).
  intros ir _ Hp. apply andb_true_iff in Hp as [Hp _]. apply negb_true_iff in Hp.
  now apply present_of_not_missing.
Qed.

(** The valid rows of a cleaning are converted to themselves. *)
Lemma valid_rows_fixed rs rs' :
  convert_rows to_numeric rs = Ok rs' ->
  convert_rows to_numeric (rows (valid (partitioned rs'))) = Ok (rows (valid (partitioned rs'))).
Proof. intros H. apply convert_rows_fixed. exact (valid_columns_selected rs rs' H). Qed.

(** C6.  When the cleaning of lines 237-259 returns (on a frame with the
    columns the scraping functions produce and distinct index labels),
    cleaning its valid frame returns too: that frame comes back as the valid
    frame, and no row is removed for missing data or for null island. *)
Theorem cleaning_is_idempotent_on_valid_rows :
  forall (df : DataFrame) (c : cleaned),
    map lower (columns df) = clean_columns ->
    NoDup (index df) ->
    clean_rows to_numeric df = Ok c ->
    clean_rows to_numeric (valid c)
    = Ok (mkCleaned (mkDF clean_columns []) (mkDF clean_columns []) (valid c)).
Proof.
  intros df c Hc Hnd. rewrite (clean_rows_exact to_numeric to_numeric_numbers df Hc Hnd).
  destruct (convert_rows to_numeric (rows df)) as [rs|e] eqn:E; cbn [bind]; [|discriminate].
  intros [= <-].
  set (ok := rows (valid (partitioned rs))).
  change (valid (partitioned rs)) with (mkDF clean_columns ok).
  assert (Hok : Forall (fun ir => missing_numeric (snd ir) = false
                                  /\ null_island (snd ir) = false) ok).
  { apply Forall_forall. intros ir Hin. unfold ok in Hin. cbn [partitioned valid rows] in Hin.
    apply filter_In in Hin as [Hin Hb]. apply filter_In in Hin as [_ Hk].
    apply negb_true_iff in Hk, Hb. now split. }
  rewrite clean_rows_exact.
  - cbn [rows]. unfold ok at 1. rewrite (valid_rows_fixed (rows df) rs E). cbn [bind].
    fold ok. unfold partitioned.
    assert (Hkeep : filter (fun ir => negb (missing_numeric (snd ir))) ok = ok).
    { apply filter_all. eapply Forall_impl; [|exact Hok].
      intros ir [-> _]. reflexivity. }
    rewrite Hkeep. do 2 f_equal.
    + f_equal. apply filter_none. eapply Forall_impl; [|exact Hok]. now intros ir [-> _].
    + f_equal. apply filter_none. eapply Forall_impl; [|exact Hok].
      intros ir [-> ->]. reflexivity.
    + f_equal. apply filter_all. eapply Forall_impl; [|exact Hok].
      intros ir [_ ->]. reflexivity.
  - exact to_numeric_numbers.
  - reflexivity.
  - unfold index. cbn [rows]. unfold ok. cbn [partitioned valid rows].
    apply NoDup_labels_filter, NoDup_labels_filter.
    rewrite (labels_convert_rows to_numeric to_numeric_numbers (rows df) rs E). exact Hnd.
Qed.

End Idempotence.

Lemma cleaning_is_idempotent_on_valid_rows_witness :
  exists c,
    clean_rows sample_to_numeric sample_month_frame = Ok c /\
    shape0 (valid c) = 1 /\
    clean_rows sample_to_numeric (valid c)
    = Ok (mkCleaned (mkDF clean_columns []) (mkDF clean_columns []) (valid c)).
Proof.
  assert (Hrun : exists c, clean_rows sample_to_numeric sample_month_frame = Ok c
                           /\ shape0 (valid c) = 1)
    by (eexists; split; [vm_compute; reflexivity | reflexivity]).
  destruct Hrun as [c [Hc Hone]]. exists c.
  split; [exact Hc|]. split; [exact Hone|].
  apply (cleaning_is_idempotent_on_valid_rows sample_to_numeric sample_to_numeric_numbers
           sample_to_numeric_fixed sample_month_frame c).
  - reflexivity.
  - change (index sample_month_frame) with (seq 0 3). apply seq_NoDup.
  - exact Hc.
Defined.

(* ================================================================= *)
(** * A year from the first request to the file *)

Section YearFacts.

Variable str_of_float : float -> string.
Variable format_4f : cell -> string.
Variable to_numeric : list cell -> result (list cell).
Variable common_type : list (list cell) -> list (list cell).
Variable read_html : string -> result (list DataFrame).
Variable http_get : list string -> string -> http_result.
Variable now : datetime.

Hypothesis to_numeric_numbers :
  forall l out, to_numeric l = Ok out ->
                List.length out = List.length l /\ Forall (fun c => is_text c = false) out.

(** What is taken from pandas about the cast of [pd.concat]: cell by cell
    it leaves the rows as they are, or turns an integer into a float. *)
Hypothesis common_type_casts : forall rs, casts rs (common_type rs).

Lemma casts_length (rs : list (list cell)) :
  List.length (common_type rs) = List.length rs.
Proof. symmetry. exact (Forall2_length (common_type_casts rs)). Qed.

Lemma casts_widths (n : nat) (rs : list (list cell)) :
  Forall (fun r => List.length r = n) rs ->
  Forall (fun r => List.length r = n) (common_type rs).
Proof.
  intros H. pose proof (common_type_casts rs) as Hc. unfold casts in Hc.
  induction Hc as [|r r' rs rs' Hr _ IH]; [constructor|].
  inversion H as [|? ? Hn Hrest]; subst.
  constructor; [|now apply IH].
  symmetry. exact (Forall2_length Hr).
Qed.

Lemma union_columns_raw_acc (frames : list DataFrame) :
  Forall (fun d => columns d = raw_columns) frames ->
  union_columns frames raw_columns = raw_columns.
Proof.
  induction 1 as [|d frames Hd _ IH]; cbn [union_columns]; [reflexivity|].
  rewrite Hd. exact IH.
Qed.

Lemma union_columns_raw (frames : list DataFrame) :
  frames <> [] ->
  Forall (fun d => columns d = raw_columns) frames ->
  union_columns frames [] = raw_columns.
Proof.
  intros Hne H. destruct H as [|d frames Hd H]; [contradiction|].
  cbn [union_columns]. rewrite Hd. exact (union_columns_raw_acc frames H).
Qed.

Lemma concat_raw (frames : list DataFrame) :
  frames <> [] ->
  Forall (fun d => columns d = raw_columns) frames ->
  map lower (columns (concat common_type frames)) = clean_columns
  /\ NoDup (index (concat common_type frames)).
Proof.
  intros Hne H. unfold concat, index. cbn [columns rows].
  rewrite (union_columns_raw frames Hne H). split; [reflexivity|].
  rewrite map_fst_renumber. apply seq_NoDup.
Qed.

Lemma combine_row_series {A B : Type} (f : list cell -> A)
      (F : nat * list cell -> A -> B) rs :
  map (fun p => F (fst p) (snd (snd p))) (combine rs (row_series f rs))
  = map (fun ir => F ir (f (snd ir))) rs.
Proof. unfold row_series. induction rs as [|r rs IH]; simpl; [reflexivity | now rewrite IH]. Qed.

Lemma id_column_exact rs :
  id_column str_of_float format_4f (mkDF renamed_columns rs)
  = Ok (row_series (make_id str_of_float format_4f 0 1 2 4) rs).
Proof. destruct rs; reflexivity. Qed.

Lemma standardise_exact rs :
  standardise str_of_float format_4f (mkDF clean_columns rs)
  = Ok (mkDF final_columns (map (fun ir => (fst ir, final_row str_of_float format_4f (snd ir))) rs)).
Proof.
  unfold standardise.
  change (rename (mkDF clean_columns rs) [("date-time", "datetime"); ("depth", "depth_km")])
    with (mkDF renamed_columns rs).
  rewrite id_column_exact. cbn [bind].
  unfold setitem_series. cbn [columns rows].
  change (position "id" renamed_columns) with (@None nat).
  change (put_columns "id" renamed_columns) with (renamed_columns ++ ["id"]).
  rewrite (combine_row_series (make_id str_of_float format_4f 0 1 2 4)
                              (fun ir v => (fst ir, put None v (snd ir))) rs).
  change (filter (fun c => existsb (String.eqb c) (renamed_columns ++ ["id"])) final_columns)
    with final_columns.
  unfold select_columns. cbn [columns rows].
  change (positions final_columns (renamed_columns ++ ["id"]))
    with (@Ok (list nat) [8; 0; 1; 2; 3; 4; 5; 6; 7]).
  cbn [bind]. rewrite map_map. reflexivity.
Qed.

Lemma nth_app_present (j : nat) (r extra : list cell) :
  isnull (nth j r NaN) = false -> nth j (r ++ extra) NaN = nth j r NaN.
Proof.
  intros H. apply app_nth1.
  destruct (Nat.lt_ge_cases j (List.length r)) as [Hlt|Hge]; [exact Hlt|].
  rewrite (nth_overflow r NaN Hge) in H. discriminate.
Qed.

Lemma number_of_present (c : cell) :
  is_text c = false -> isnull c = false -> is_number c = true.
Proof.
  destruct c as [s|z|f]; cbn [is_text isnull is_number]; intros Ht Hn;
    [discriminate | reflexivity | now rewrite Hn].
Qed.

Lemma final_row_ok (r : list cell) :
  Forall (fun j => is_text (nth j r NaN) = false) [1; 2; 3; 4] ->
  missing_numeric r = false -> null_island r = false ->
  record_ok (mkDF final_columns []) (final_row str_of_float format_4f r).
Proof.
  intros Ht Hm Hz.
  assert (Hp : forall j, In j [1; 2; 3; 4] -> isnull (nth j r NaN) = false)
    by (intros j Hj; now apply present_of_not_missing).
  assert (Hn : forall j, In j [1; 2; 3; 4] -> is_number (nth j r NaN) = true).
  { intros j Hj. apply number_of_present; [|now apply Hp].
    rewrite Forall_forall in Ht. now apply Ht. }
  unfold record_ok, field. cbn [columns].
  change (position "latitude" final_columns) with (Some 2).
  change (position "longitude" final_columns) with (Some 3).
  change (position "depth_km" final_columns) with (Some 4).
  change (position "magnitude" final_columns) with (Some 5).
  unfold final_row. cbn [map nth].
  rewrite (nth_app_present 1 r _ (Hp 1 ltac:(simpl; tauto))),
    (nth_app_present 2 r _ (Hp 2 ltac:(simpl; tauto))),
    (nth_app_present 3 r _ (Hp 3 ltac:(simpl; tauto))),
    (nth_app_present 4 r _ (Hp 4 ltac:(simpl; tauto))).
  split; [apply Hn; simpl; tauto|]. split; [apply Hn; simpl; tauto|].
  split; [apply Hn; simpl; tauto|]. split; [apply Hn; simpl; tauto|].
  exact Hz.
Qed.

Lemma invariant_columns (st : loop_state) :
  loop_invariant st -> Forall (fun d => columns d = raw_columns) (all_data st).
Proof.
  intros [H _]. eapply Forall_impl; [|exact H]. now intros d [Hd _].
Qed.

(** [scrape_year_data], by the state the loop over the months ends in. *)
Lemma year_outcome_shape (year : Z) (output_dir : string) (log : list string) :
  exists st,
    run_months str_of_float read_html http_get now year MONTH_NAMES (initial_state log)
    = Ok st /\
    loop_invariant st /\
    scrape_year_data str_of_float format_4f to_numeric common_type read_html http_get now
      year output_dir log
    = match all_data st with
      | [] => Ok (mkOutcome None [] None st)
      | _ :: _ =>
          rs <- convert_rows to_numeric (rows (concat common_type (all_data st))) ;;
          _ <- makedirs output_dir ;;
          Ok (year_result str_of_float format_4f year output_dir st rs)
      end.
Proof.
  unfold scrape_year_data.
  destruct (run_months_returns str_of_float read_html http_get now year MONTH_NAMES
              (initial_state log) (initial_state_invariant log)) as [st [Hrun Hinv]].
  exists st. split; [exact Hrun|]. split; [exact Hinv|].
  rewrite Hrun. cbn [bind].
  destruct (all_data st) as [|d ds] eqn:Ed; [reflexivity|].
  pose proof (invariant_columns st Hinv) as Hcols. rewrite Ed in Hcols.
  destruct (concat_raw (d :: ds) ltac:(discriminate) Hcols) as [Hc Hnd].
  rewrite (clean_rows_exact to_numeric to_numeric_numbers _ Hc Hnd).
  destruct (convert_rows to_numeric (rows (concat common_type (d :: ds)))) as [rs|e];
    cbn [bind]; [|reflexivity].
  change (valid (partitioned rs)) with (mkDF clean_columns (rows (valid (partitioned rs)))).
  rewrite standardise_exact. cbn [bind].
  destruct (makedirs output_dir); reflexivity.
Qed.

(** A year that returns: no month gave rows, or the conversion returned
    and so did [os.makedirs]. *)
Lemma year_outcome_returns (year : Z) (output_dir : string) (log : list string)
      (out : year_outcome) :
  scrape_year_data str_of_float format_4f to_numeric common_type read_html http_get now
    year output_dir log = Ok out ->
  exists st,
    run_months str_of_float read_html http_get now year MONTH_NAMES (initial_state log)
    = Ok st /\
    loop_invariant st /\
    ((all_data st = [] /\ out = mkOutcome None [] None st) \/
     (exists rs,
         all_data st <> [] /\
         convert_rows to_numeric (rows (concat common_type (all_data st))) = Ok rs /\
         makedirs output_dir = Ok tt /\
         out = year_result str_of_float format_4f year output_dir st rs)).
Proof.
  destruct (year_outcome_shape year output_dir log) as [st [Hrun [Hinv ->]]].
  intros H. exists st. split; [exact Hrun|]. split; [exact Hinv|].
  destruct (all_data st) as [|d ds] eqn:Ed.
  - left. injection H as <-. now split.
  - right.
    destruct (convert_rows to_numeric (rows (concat common_type (d :: ds)))) as [rs|e];
      cbn [bind] in H; [|discriminate].
    destruct (makedirs output_dir) as [[]|e] eqn:Em; cbn [bind] in H; [|discriminate].
    injection H as <-. exists rs.
    split; [discriminate|]. split; [reflexivity|]. now split.
Qed.

Lemma column_Forall (P : cell -> Prop) (j : nat) rs :
  Forall P (column j rs) -> Forall (fun ir => P (nth j (snd ir) NaN)) rs.
Proof. unfold column. now rewrite Forall_map. Qed.

(** The records of [year_result] are complete and off null island. *)
Lemma year_result_records (year : Z) (output_dir : string) (st : loop_state) rs0 rs :
  convert_rows to_numeric rs0 = Ok rs ->
  forall df, returned (year_result str_of_float format_4f year output_dir st rs) = Some df ->
             columns df = final_columns /\
             Forall (fun ir => record_ok df (snd ir)) (rows df).
Proof.
  intros E df [= <-]. split; [reflexivity|]. cbn [rows].
  pose proof (convert_rows_no_text to_numeric to_numeric_numbers rs0 rs E) as Hnt.
  rewrite Forall_map. apply Forall_forall. intros ir Hin. cbn [snd].
  cbn [partitioned valid rows] in Hin.
  apply filter_In in Hin as [Hin Hz]. apply filter_In in Hin as [Hin Hm].
  apply negb_true_iff in Hz, Hm.
  apply final_row_ok; [|exact Hm | exact Hz].
  rewrite Forall_forall in *. intros j Hj.
  pose proof (column_Forall (fun c => is_text c = false) j rs (Hnt j Hj)) as Hc.
  rewrite Forall_forall in Hc. exact (Hc ir Hin).
Qed.

(** C1.  When [scrape_year_data] returns a frame, the frame has the final
    columns, and in each of its records latitude, longitude, depth_km and
    magnitude hold a number (no text, no NaN) and latitude and longitude are
    not both zero. *)
Theorem returned_records_are_complete_and_off_null_island :
  forall (year : Z) (output_dir : string) (log : list string) (out : year_outcome)
         (df : DataFrame),
    scrape_year_data str_of_float format_4f to_numeric common_type read_html http_get now
      year output_dir log = Ok out ->
    returned out = Some df ->
    columns df = final_columns /\
    Forall (fun ir => record_ok df (snd ir)) (rows df).
Proof.
  intros year output_dir log out df Hout Hdf.
  destruct (year_outcome_returns year output_dir log out Hout)
    as [st [_ [_ [[_ ->] | [rs [_ [E [_ ->]]]]]]]]; [discriminate|].
  exact (year_result_records year output_dir st _ rs E df Hdf).
Qed.

End YearFacts.

Lemma sample_year_returns :
  exists out df,
    scrape_year_data sample_str_of_float sample_format_4f sample_to_numeric
      sample_common_type sample_read_html january_only_server sample_now 2024 "data" []
    = Ok out /\
    returned out = Some df /\
    shape0 df = 1.
Proof. do 2 eexists. split; [vm_compute; reflexivity|]. split; reflexivity. Qed.

Lemma returned_records_are_complete_and_off_null_island_witness :
  exists out df,
    scrape_year_data sample_str_of_float sample_format_4f sample_to_numeric
      sample_common_type sample_read_html january_only_server sample_now 2024 "data" []
    = Ok out /\
    returned out = Some df /\
    shape0 df = 1 /\
    columns df = final_columns /\
    Forall (fun ir => record_ok df (snd ir)) (rows df).
Proof.
  destruct sample_year_returns as [out [df [Hout [Hdf Hone]]]].
  exists out, df. split; [exact Hout|]. split; [exact Hdf|]. split; [exact Hone|].
  exact (returned_records_are_complete_and_off_null_island
           sample_str_of_float sample_format_4f sample_to_numeric sample_common_type
           sample_read_html january_only_server sample_now
           sample_to_numeric_numbers 2024 "data" [] out df Hout Hdf).
Defined.

(** C9.  A year whose only month gives one row, with dashes for a latitude:
    the cleaned frame has no row, and the file of the year is written all
    the same, with its header only.  The run goes on to write the combined
    files, and the list of lines 371-373 leaves the file of the year out:
    it names a year file only for a positive count. *)
Theorem file_is_written_for_a_year_without_valid_rows :
  (exists out,
     scrape_year_data sample_str_of_float sample_format_4f sample_to_numeric
       sample_common_type dashes_read_html january_only_server sample_now 2024 "data" []
     = Ok out /\
     returned out = Some (mkDF final_columns []) /\
     files out = [("data/phivolcs_earthquake_2024.csv", mkDF final_columns [])]) /\
  (exists run,
     scrape_multiple_years sample_str_of_float sample_format_4f sample_to_numeric
       sample_common_type dashes_read_html january_only_server sample_now 3 "data" []
     = Ok run /\
     summary run = [(2024%Z, 0); (2025%Z, 0); (2026%Z, 0)] /\
     run_files run
     = [("data/phivolcs_earthquake_2024.csv", mkDF final_columns []);
        ("data/earthquakes.json", mkDF final_columns []);
        ("data/phivolcs_earthquake_all_years.csv", mkDF final_columns [])] /\
     files_created "data" (py_range 2024 2027) (summary run) = []).
Proof.
  split.
  - eexists. split; [vm_compute; reflexivity|]. split; reflexivity.
  - eexists. split; [vm_compute; reflexivity|]. repeat split.
Qed.

(** A year whose only archived month is January, with the sample table:
    one record is returned, two rows are reported as removed. *)
Example sample_year_returns_one_record :
  exists out df removed,
    scrape_year_data sample_str_of_float sample_format_4f sample_to_numeric
      sample_common_type sample_read_html january_only_server sample_now 2024 "data" []
    = Ok out /\
    returned out = Some df /\
    all_removed_rows out = Some removed /\
    map fst (rows df) = [0] /\
    map fst (rows removed) = [2; 1] /\
    successful_months (final_state out) = ["January"].
Proof. do 3 eexists. split; [vm_compute; reflexivity|]. repeat split. Qed.

(* ================================================================= *)
(** * The months of a year, one by one *)

Section LoopFacts.

Variable str_of_float : float -> string.
Variable read_html : string -> result (list DataFrame).
Variable http_get : list string -> string -> http_result.
Variable now : datetime.

Lemma scrape_month_requests (year : Z) (month_name : string) (log : list string) :
  exists v extra,
    scrape_phivolcs_data_from_html str_of_float read_html http_get now year month_name log
    = (Ok v, log ++ month_url year month_name :: extra) /\
    (extra = [] \/ extra = [main_url]).
Proof.
  unfold scrape_phivolcs_data_from_html.
  destruct (month_page_body str_of_float read_html http_get year month_name log) as [v|e].
  - exists v, []. split; [reflexivity | now left].
  - assert (Hnone : exists v extra,
               (Ok None, log ++ [month_url year month_name])
               = (@Ok (option DataFrame) v, log ++ month_url year month_name :: extra) /\
               (extra = [] \/ extra = [main_url]))
      by (exists None, []; split; [reflexivity | now left]).
    destruct e; try exact Hnone.
    destruct (status =? 404)%Z; [|exact Hnone].
    destruct (scrape_current_month_returns str_of_float read_html http_get now
                (log ++ [month_url year month_name])) as [v [-> _]].
    exists v, [main_url]. split; [|now right].
    now rewrite <- app_assoc.
Qed.

(** One turn of the loop while it is active: the month goes to one of the
    two lists, after one request or two. *)
Lemma month_step_active (year : Z) (st : loop_state) (month_name : string) :
  current_month_found st = false ->
  exists extra,
    (extra = [] \/ extra = [main_url]) /\
    ((exists d,
         month_step str_of_float read_html http_get now year st month_name
         = Ok (mkLoop (all_data st ++ [d]) (successful_months st ++ [month_name])
                      (failed_months st)
                      ((year =? dt_year now)%Z && String.eqb month_name (strftime_B now))
                      (requests st ++ month_url year month_name :: extra))) \/
     month_step str_of_float read_html http_get now year st month_name
     = Ok (mkLoop (all_data st) (successful_months st) (failed_months st ++ [month_name])
                  (year =? dt_year now)%Z
                  (requests st ++ month_url year month_name :: extra))).
Proof.
  intros Hflag. unfold month_step. rewrite Hflag.
  destruct (scrape_month_requests year month_name (requests st)) as [v [extra [-> Hextra]]].
  exists extra. split; [exact Hextra|]. cbn [bind].
  assert (Hfail : record_failure now year st month_name
                    (requests st ++ month_url year month_name :: extra)
                  = mkLoop (all_data st) (successful_months st)
                           (failed_months st ++ [month_name]) (year =? dt_year now)%Z
                           (requests st ++ month_url year month_name :: extra)).
  { unfold record_failure. rewrite Hflag. now destruct (year =? dt_year now)%Z. }
  destruct v as [d|]; [|right; now rewrite Hfail].
  destruct (negb (empty d)); [|right; now rewrite Hfail].
  left. exists d.
  now destruct ((year =? dt_year now)%Z && String.eqb month_name (strftime_B now)).
Qed.

Lemma month_step_skipping (year : Z) (st : loop_state) (month_name : string) :
  current_month_found st = true ->
  month_step str_of_float read_html http_get now year st month_name
  = Ok (mkLoop (all_data st) (successful_months st) (failed_months st ++ [month_name])
               true (requests st)).
Proof. intros Hflag. unfold month_step. now rewrite Hflag. Qed.

Lemma run_months_accounting (year : Z) (months : list string) :
  forall st,
  exists st' extra,
    run_months str_of_float read_html http_get now year months st = Ok st' /\
    requests st' = requests st ++ extra /\
    List.length extra <= 2 * List.length months /\
    Permutation (successful_months st' ++ failed_months st')
                (successful_months st ++ failed_months st ++ months).
Proof.
  induction months as [|m months IH]; intros st; cbn [run_months].
  - exists st, []. rewrite !app_nil_r. repeat split; [simpl; lia | apply Permutation_refl].
  - destruct (current_month_found st) eqn:Hflag.
    + rewrite (month_step_skipping year st m Hflag). cbn [bind].
      destruct (IH (mkLoop (all_data st) (successful_months st) (failed_months st ++ [m])
                           true (requests st))) as [st' [extra [-> [Hreq [Hlen Hperm]]]]].
      exists st', extra. cbn [requests successful_months failed_months] in *.
      repeat split; [exact Hreq | simpl; lia|].
      now rewrite <- app_assoc in Hperm.
    + destruct (month_step_active year st m Hflag) as [extra1 [Hextra [[d Hstep]|Hstep]]];
        rewrite Hstep; cbn [bind];
        match goal with
        | |- context [run_months _ _ _ _ _ _ ?s] =>
            destruct (IH s) as [st' [extra [-> [Hreq [Hlen Hperm]]]]]
        end;
        exists st', (month_url year m :: extra1 ++ extra);
        cbn [requests successful_months failed_months] in *.
      * repeat split.
        -- rewrite Hreq, <- app_assoc. reflexivity.
        -- destruct Hextra as [-> | ->]; simpl; lia.
        -- etransitivity; [exact Hperm|]. rewrite <- !app_assoc.
           apply Permutation_app_head. simpl.
           apply (Permutation_middle (failed_months st) months m).
      * repeat split.
        -- rewrite Hreq, <- app_assoc. reflexivity.
        -- destruct Hextra as [-> | ->]; simpl; lia.
        -- now rewrite <- app_assoc in Hperm.
Qed.

Lemma month_url_not_main (year : Z) (month_name : string) :
  String.eqb (month_url year month_name) main_url = false.
Proof. reflexivity. Qed.

Lemma monthly_requests_step (year : Z) (m : string) (extra1 extra : list string) :
  extra1 = [] \/ extra1 = [main_url] ->
  monthly_requests (month_url year m :: extra1 ++ extra)
  = month_url year m :: monthly_requests extra.
Proof.
  intros H. unfold monthly_requests. cbn [filter].
  rewrite month_url_not_main. cbn [negb]. f_equal.
  destruct H as [-> | ->]; [reflexivity|].
  cbn [app filter]. now rewrite String.eqb_refl.
Qed.

Lemma NoDup_MONTH_NAMES : NoDup MONTH_NAMES.
Proof.
  unfold MONTH_NAMES.
  repeat (apply NoDup_cons; [cbn [In]; intuition discriminate|]). apply NoDup_nil.
Qed.

(** X1.  Each of the twelve month names ends up in exactly one of
    [successful_months] and [failed_months]. *)
Theorem every_month_is_recorded_once :
  forall (year : Z) (log : list string),
  exists st,
    run_months str_of_float read_html http_get now year MONTH_NAMES (initial_state log)
    = Ok st /\
    Permutation (successful_months st ++ failed_months st) MONTH_NAMES /\
    (forall m, In m (successful_months st) -> ~ In m (failed_months st)).
Proof.
  intros year log.
  destruct (run_months_accounting year MONTH_NAMES (initial_state log))
    as [st [extra [Hrun [_ [_ Hperm]]]]].
  exists st. split; [exact Hrun|]. cbn [initial_state successful_months failed_months app] in Hperm.
  split; [exact Hperm|].
  intros m. apply NoDup_app_disjoint.
  apply (Permutation_NoDup (Permutation_sym Hperm)). exact NoDup_MONTH_NAMES.
Qed.

Lemma run_months_request_kinds (year : Z) (months : list string) :
  forall st,
  exists st' extra,
    run_months str_of_float read_html http_get now year months st = Ok st' /\
    requests st' = requests st ++ extra /\
    Forall (fun u => u = main_url \/ exists m, In m months /\ u = month_url year m) extra.
Proof.
  induction months as [|m months IH]; intros st; cbn [run_months].
  - exists st, []. rewrite app_nil_r. repeat split. constructor.
  - assert (Hweaken : forall extra,
              Forall (fun u => u = main_url \/ exists m0, In m0 months /\ u = month_url year m0)
                     extra ->
              Forall (fun u => u = main_url
                               \/ exists m0, In m0 (m :: months) /\ u = month_url year m0)
                     extra).
    { intros extra H. eapply Forall_impl; [|exact H].
      intros u [Hu|[m0 [Hin Hu]]]; [now left | right; exists m0; split; [now right | exact Hu]]. }
    destruct (current_month_found st) eqn:Hflag.
    + rewrite (month_step_skipping year st m Hflag). cbn [bind].
      destruct (IH (mkLoop (all_data st) (successful_months st) (failed_months st ++ [m])
                           true (requests st))) as [st' [extra [-> [Hreq Hkinds]]]].
      exists st', extra. cbn [requests] in Hreq. repeat split; [exact Hreq | now apply Hweaken].
    + destruct (month_step_active year st m Hflag) as [extra1 [Hextra [[d Hstep]|Hstep]]];
        rewrite Hstep; cbn [bind];
        match goal with
        | |- context [run_months _ _ _ _ _ _ ?s] =>
            destruct (IH s) as [st' [extra [-> [Hreq Hkinds]]]]
        end;
        exists st', (month_url year m :: extra1 ++ extra);
        cbn [requests] in Hreq;
        (split; [reflexivity|]);
        (split; [rewrite Hreq, <- app_assoc; reflexivity|]);
        (constructor; [right; exists m; split; [now left | reflexivity]|]);
        (apply Forall_app; split; [|now apply Hweaken]);
        (destruct Hextra as [-> | ->]; [constructor | constructor; [now left | constructor]]).
Qed.

(** X2.  A year costs at most twenty-four requests, issued after the ones
    already in the log; each is for the front page or for the monthly page
    of that year and one of the twelve months. *)
Theorem a_year_costs_at_most_24_requests :
  forall (year : Z) (log : list string),
  exists st extra,
    run_months str_of_float read_html http_get now year MONTH_NAMES (initial_state log)
    = Ok st /\
    requests st = log ++ extra /\
    List.length extra <= 24 /\
    Forall (fun u => u = main_url \/ exists m, In m MONTH_NAMES /\ u = month_url year m)
           extra.
Proof.
  intros year log.
  destruct (run_months_accounting year MONTH_NAMES (initial_state log))
    as [st [extra [Hrun [Hreq [Hlen _]]]]].
  destruct (run_months_request_kinds year MONTH_NAMES (initial_state log))
    as [st2 [extra2 [Hrun2 [Hreq2 Hkinds]]]].
  rewrite Hrun in Hrun2. injection Hrun2 as <-.
  rewrite Hreq in Hreq2. apply app_inv_head in Hreq2. subst extra2.
  exists st, extra. cbn [initial_state requests] in Hreq.
  repeat split; [exact Hrun | exact Hreq | exact Hlen | exact Hkinds].
Qed.

Lemma run_months_other_year (year : Z) (months : list string) :
  year <> dt_year now ->
  forall st, current_month_found st = false ->
  exists st' extra,
    run_months str_of_float read_html http_get now year months st = Ok st' /\
    current_month_found st' = false /\
    requests st' = requests st ++ extra /\
    monthly_requests extra = map (month_url year) months.
Proof.
  intros Hyear. assert (Hneq : (year =? dt_year now)%Z = false) by now apply Z.eqb_neq.
  induction months as [|m months IH]; intros st Hflag; cbn [run_months].
  - exists st, []. rewrite app_nil_r. repeat split. exact Hflag.
  - destruct (month_step_active year st m Hflag) as [extra1 [Hextra [[d Hstep]|Hstep]]];
      rewrite Hstep, Hneq; cbn [bind andb];
      match goal with
      | |- context [run_months _ _ _ _ _ _ ?s] =>
          destruct (IH s eq_refl) as [st' [extra [-> [Hflag' [Hreq Hmonthly]]]]]
      end;
      exists st', (month_url year m :: extra1 ++ extra);
      cbn [requests] in Hreq;
      (split; [reflexivity|]);
      (split; [exact Hflag'|]);
      (split; [rewrite Hreq, <- app_assoc; reflexivity|]);
      rewrite (monthly_requests_step year m extra1 extra Hextra), Hmonthly; reflexivity.
Qed.

(** X3.  For a year other than the clock's year the loop never skips: the
    twelve monthly pages are requested in calendar order, whatever the
    server answers. *)
Theorem another_year_requests_all_twelve_months :
  forall (year : Z) (log : list string),
    year <> dt_year now ->
    exists st extra,
      run_months str_of_float read_html http_get now year MONTH_NAMES (initial_state log)
      = Ok st /\
      current_month_found st = false /\
      requests st = log ++ extra /\
      monthly_requests extra = map (month_url year) MONTH_NAMES.
Proof.
  intros year log Hyear.
  exact (run_months_other_year year MONTH_NAMES Hyear (initial_state log) eq_refl).
Qed.

(** The loop in the clock's year, from an active state: either every month
    gave rows and none is the clock's month, or the loop stopped requesting
    at some month [m], the first to fail or the clock's month. *)
Lemma run_months_clock_year (year : Z) (months : list string) :
  year = dt_year now ->
  forall st, current_month_found st = false ->
  exists st' extra,
    run_months str_of_float read_html http_get now year months st = Ok st' /\
    requests st' = requests st ++ extra /\
    ((current_month_found st' = false /\
      ~ In (strftime_B now) months /\
      successful_months st' = successful_months st ++ months /\
      failed_months st' = failed_months st /\
      monthly_requests extra = map (month_url year) months) \/
     (exists pre m post,
         months = pre ++ m :: post /\
         ~ In (strftime_B now) pre /\
         current_month_found st' = true /\
         monthly_requests extra = map (month_url year) (pre ++ [m]) /\
         ((successful_months st' = successful_months st ++ pre /\
           failed_months st' = failed_months st ++ m :: post) \/
          (m = strftime_B now /\
           successful_months st' = successful_months st ++ pre ++ [m] /\
           failed_months st' = failed_months st ++ post)))).
Proof.
  intros Hyear. assert (Heq : (year =? dt_year now)%Z = true) by now apply Z.eqb_eq.
  induction months as [|m months IH]; intros st Hflag; cbn [run_months].
  - exists st, []. rewrite !app_nil_r. repeat split. left. repeat split; [exact Hflag | tauto].
  - destruct (month_step_active year st m Hflag) as [extra1 [Hextra [[d Hstep]|Hstep]]];
      rewrite Hstep, Heq; cbn [bind andb].
    + destruct (String.eqb_spec m (strftime_B now)) as [Hm|Hm].
      * (* rows, in the clock's month *)
        rewrite run_months_skips by reflexivity.
        eexists. exists (month_url year m :: extra1 ++ []).
        split; [reflexivity|]. cbn [requests successful_months failed_months].
        split; [now rewrite app_nil_r|].
        right. exists [], m, months. repeat split.
        -- tauto.
        -- now rewrite (monthly_requests_step year m extra1 [] Hextra).
        -- right. split; [exact Hm|]. split; reflexivity.
      * (* rows, in an earlier month *)
        match goal with
        | |- context [run_months _ _ _ _ _ _ ?s] =>
            destruct (IH s eq_refl) as [st' [extra [-> [Hreq Hshape]]]]
        end.
        exists st', (month_url year m :: extra1 ++ extra).
        cbn [requests successful_months failed_months] in *.
        split; [reflexivity|]. split; [rewrite Hreq, <- app_assoc; reflexivity|].
        destruct Hshape as [[Hf [Hnot [Hs [Hfl Hmon]]]] |
                            [pre [m' [post [Hsplit [Hnot [Hf [Hmon Halt]]]]]]]].
        -- left. repeat split.
           ++ exact Hf.
           ++ intros [Hin|Hin]; [now apply Hm | now apply Hnot].
           ++ now rewrite Hs, <- app_assoc.
           ++ exact Hfl.
           ++ now rewrite (monthly_requests_step year m extra1 extra Hextra), Hmon.
        -- right. exists (m :: pre), m', post. repeat split.
           ++ now rewrite Hsplit.
           ++ intros [Hin|Hin]; [now apply Hm | now apply Hnot].
           ++ exact Hf.
           ++ now rewrite (monthly_requests_step year m extra1 extra Hextra), Hmon.
           ++ destruct Halt as [[Hs Hfl] | [Hcm [Hs Hfl]]].
              ** left. split; [now rewrite Hs, <- app_assoc | exact Hfl].
              ** right. repeat split; [exact Hcm | now rewrite Hs, <- app_assoc | exact Hfl].
    + (* no rows: the first month to fail *)
      rewrite run_months_skips by reflexivity.
      eexists. exists (month_url year m :: extra1 ++ []).
      split; [reflexivity|]. cbn [requests successful_months failed_months].
      split; [now rewrite app_nil_r|].
      right. exists [], m, months. repeat split.
      * tauto.
      * now rewrite (monthly_requests_step year m extra1 [] Hextra).
      * left. split; [now rewrite app_nil_r | now rewrite <- app_assoc].
Qed.

Lemma firstn_length_app {A : Type} (a b : list A) : firstn (List.length a) (a ++ b) = a.
Proof. induction a as [|x a IH]; simpl; [now destruct b | now rewrite IH]. Qed.

Lemma skipn_length_app {A : Type} (a b : list A) : skipn (List.length a) (a ++ b) = b.
Proof. induction a as [|x a IH]; simpl; [reflexivity | exact IH]. Qed.

(** X4.  In the clock's year the loop requests the monthly pages in
    calendar order and stops at the first month that gives no rows, or after
    the clock's month at the latest: the successful months are the first
    [k] months, the failed ones are all the others, the monthly pages
    requested are those of the first [j] months, and no page of a month
    after the clock's month is requested. *)
Theorem clock_year_stops_at_first_failure_or_clock_month :
  forall (year : Z) (log : list string),
    year = dt_year now ->
    1 <= dt_month now <= 12 ->
    exists st extra k j,
      run_months str_of_float read_html http_get now year MONTH_NAMES (initial_state log)
      = Ok st /\
      successful_months st = firstn k MONTH_NAMES /\
      failed_months st = skipn k MONTH_NAMES /\
      requests st = log ++ extra /\
      monthly_requests extra = map (month_url year) (firstn j MONTH_NAMES) /\
      k <= j <= dt_month now.
Proof.
  intros year log Hyear Hmonth.
  assert (Hcm : exists i, dt_month now = S i /\ i < List.length MONTH_NAMES /\
                          strftime_B now = nth i MONTH_NAMES "").
  { unfold strftime_B. destruct (dt_month now) as [|i]; [lia|].
    exists i. repeat split. simpl. lia. }
  destruct Hcm as [i [Hi [Hlt Hname]]].
  destruct (run_months_clock_year year MONTH_NAMES Hyear (initial_state log) eq_refl)
    as [st [extra [Hrun [Hreq [[_ [Hnot _]] |
                              [pre [m [post [Hsplit [Hnot [_ [Hmon Halt]]]]]]]]]]]].
  - exfalso. apply Hnot. rewrite Hname. now apply nth_In.
  - assert (Hpre : List.length pre <= i).
    { destruct (Nat.le_gt_cases (List.length pre) i) as [H|H]; [exact H|].
      exfalso. apply Hnot. rewrite Hname, Hsplit, app_nth1 by exact H.
      now apply nth_In. }
    cbn [initial_state requests successful_months failed_months app] in Hreq, Halt.
    assert (Hfirst : firstn (S (List.length pre)) MONTH_NAMES = pre ++ [m]).
    { rewrite Hsplit. replace (S (List.length pre)) with (List.length (pre ++ [m]))
        by (rewrite length_app; simpl; lia).
      replace (pre ++ m :: post) with ((pre ++ [m]) ++ post) by now rewrite <- app_assoc.
      apply firstn_length_app. }
    destruct Halt as [[Hs Hf] | [_ [Hs Hf]]].
    + exists st, extra, (List.length pre), (S (List.length pre)).
      split; [exact Hrun|]. rewrite Hfirst.
      split; [rewrite Hs, Hsplit; symmetry; apply firstn_length_app|].
      split; [rewrite Hf, Hsplit; symmetry; apply skipn_length_app|].
      split; [exact Hreq|]. split; [exact Hmon | lia].
    + exists st, extra, (S (List.length pre)), (S (List.length pre)).
      split; [exact Hrun|]. rewrite Hfirst.
      split; [exact Hs|].
      split.
      { rewrite Hf, Hsplit.
        replace (S (List.length pre)) with (List.length (pre ++ [m]))
          by (rewrite length_app; simpl; lia).
        replace (pre ++ m :: post) with ((pre ++ [m]) ++ post) by now rewrite <- app_assoc.
        symmetry. apply skipn_length_app. }
      split; [exact Hreq|]. split; [exact Hmon | lia].
Qed.

End LoopFacts.

Lemma another_year_requests_all_twelve_months_witness :
  exists st extra,
    run_months sample_str_of_float sample_read_html front_page_only_server sample_now
      2024 MONTH_NAMES (initial_state []) = Ok st /\
    current_month_found st = false /\
    requests st = [] ++ extra /\
    monthly_requests extra = map (month_url 2024) MONTH_NAMES.
Proof.
  apply (another_year_requests_all_twelve_months sample_str_of_float sample_read_html
           front_page_only_server sample_now 2024 []).
  vm_compute. discriminate.
Defined.

Lemma clock_year_stops_at_first_failure_or_clock_month_witness :
  exists st extra k j,
    run_months sample_str_of_float sample_read_html front_page_only_server sample_now
      2026 MONTH_NAMES (initial_state []) = Ok st /\
    successful_months st = firstn k MONTH_NAMES /\
    failed_months st = skipn k MONTH_NAMES /\
    requests st = [] ++ extra /\
    monthly_requests extra = map (month_url 2026) (firstn j MONTH_NAMES) /\
    k <= j <= dt_month sample_now.
Proof.
  apply (clock_year_stops_at_first_failure_or_clock_month sample_str_of_float
           sample_read_html front_page_only_server sample_now 2026 []).
  - reflexivity.
  - vm_compute. lia.
Defined.

(* ================================================================= *)
(** * What a year returns *)

Section YearShape.

Variable str_of_float : float -> string.
Variable format_4f : cell -> string.
Variable to_numeric : list cell -> result (list cell).
Variable common_type : list (list cell) -> list (list cell).
Variable read_html : string -> result (list DataFrame).
Variable http_get : list string -> string -> http_result.
Variable now : datetime.

Hypothesis to_numeric_numbers :
  forall l out, to_numeric l = Ok out ->
                List.length out = List.length l /\ Forall (fun c => is_text c = false) out.

Hypothesis to_numeric_fixed :
  forall l out, to_numeric l = Ok out ->
  forall flags, to_numeric (select_rows out flags) = Ok (select_rows out flags).

Hypothesis common_type_casts : forall rs, casts rs (common_type rs).

Lemma rows_renumber_forall {A : Type} (P : A -> Prop) (l : list A) :
  Forall P l -> Forall (fun ir => P (snd ir)) (renumber l).
Proof.
  intros H. apply Forall_forall. intros ir Hin.
  rewrite Forall_forall in H. apply H.
  rewrite <- (map_snd_renumber l). now apply in_map.
Qed.

(** Every row of a concatenation is as wide as its header. *)
Lemma concat_widths (frames : list DataFrame) :
  Forall (fun ir => List.length (snd ir) = List.length (columns (concat common_type frames)))
         (rows (concat common_type frames)).
Proof.
  unfold concat. cbn [columns rows].
  apply (rows_renumber_forall
           (fun r => List.length r = List.length (union_columns frames []))).
  apply (casts_widths common_type common_type_casts).
  apply Forall_forall. intros r Hin. apply in_flat_map in Hin as [df [_ Hin]].
  apply in_map_iff in Hin as [ir [<- _]]. unfold conform. now rewrite length_map.
Qed.

Lemma length_conformed_rows (cols : list string) (frames : list DataFrame) :
  List.length (flat_map (fun df => map (fun ir => conform cols df (snd ir)) (rows df)) frames)
  = list_sum (map shape0 frames).
Proof.
  induction frames as [|df frames IH]; simpl; [reflexivity|].
  now rewrite length_app, length_map, IH.
Qed.

Lemma length_concat_rows (frames : list DataFrame) :
  shape0 (concat common_type frames) = list_sum (map shape0 frames).
Proof.
  unfold shape0 at 1. unfold concat. cbn [rows]. unfold renumber.
  rewrite length_combine, length_seq, Nat.min_id.
  rewrite (casts_length common_type common_type_casts).
  apply length_conformed_rows.
Qed.

Lemma valid_rows_widths (frames : list DataFrame) rs :
  frames <> [] ->
  Forall (fun d => columns d = raw_columns) frames ->
  convert_rows to_numeric (rows (concat common_type frames)) = Ok rs ->
  Forall (fun ir => List.length (snd ir) = 8) (rows (valid (partitioned rs))).
Proof.
  intros Hne Hcols E.
  assert (Hw : Forall (fun ir => List.length (snd ir) = 8) rs).
  { apply (convert_rows_widths to_numeric to_numeric_numbers 8 _ rs E).
    pose proof (concat_widths frames) as H.
    assert (Hc : columns (concat common_type frames) = raw_columns)
      by (unfold concat; cbn [columns]; now apply union_columns_raw).
    rewrite Hc in H. exact H. }
  cbn [partitioned valid rows]. rewrite Forall_forall in *.
  intros ir Hin. apply Hw. apply filter_In in Hin as [Hin _].
  apply filter_In in Hin. tauto.
Qed.

(** X5.  When a year returns, every row it collected is either in the frame
    that is returned and written, or among the rows reported as removed: the
    two counts add up to the number of rows the months gave. *)
Theorem collected_rows_are_kept_or_reported :
  forall (year : Z) (output_dir : string) (log : list string) (out : year_outcome),
    scrape_year_data str_of_float format_4f to_numeric common_type read_html http_get now
      year output_dir log = Ok out ->
    match returned out, all_removed_rows out with
    | Some df, Some removed =>
        shape0 df + shape0 removed = list_sum (map shape0 (all_data (final_state out)))
    | None, None => all_data (final_state out) = []
    | _, _ => False
    end.
Proof.
  intros year output_dir log out Hout.
  destruct (year_outcome_returns str_of_float format_4f to_numeric common_type read_html
              http_get now to_numeric_numbers year output_dir log out Hout)
    as [st [_ [_ [[Hnone ->] | [rs [_ [E [_ ->]]]]]]]].
  - exact Hnone.
  - cbn [year_result returned all_removed_rows final_state].
    rewrite <- length_concat_rows.
    pose proof (Permutation_length (partitioned_rows rs)) as Hlen.
    rewrite !length_app in Hlen.
    assert (Hrs : List.length rs = shape0 (concat common_type (all_data st))).
    { unfold shape0.
      rewrite <- (length_map fst rs),
        (labels_convert_rows to_numeric to_numeric_numbers _ rs E).
      apply length_map. }
    unfold shape0 at 1 2. cbn [rows concat_keep flat_map].
    repeat rewrite ?length_app, ?length_map. cbn [List.length]. lia.
Qed.

Lemma final_row_cells (r : list cell) :
  List.length r = 8 ->
  final_row str_of_float format_4f r
  = make_id str_of_float format_4f 0 1 2 4 r :: r.
Proof.
  intros H.
  do 8 (destruct r as [|? r]; [discriminate|]). destruct r; [|discriminate].
  reflexivity.
Qed.

(** X6.  The frame a year returns is rectangular, nine cells per record
    under the nine final columns, and the id of a record is built from the
    record's own datetime, latitude, longitude and magnitude. *)
Theorem returned_records_carry_their_id :
  forall (year : Z) (output_dir : string) (log : list string) (out : year_outcome)
         (df : DataFrame),
    scrape_year_data str_of_float format_4f to_numeric common_type read_html http_get now
      year output_dir log = Ok out ->
    returned out = Some df ->
    columns df = final_columns /\
    Forall (fun ir =>
              List.length (snd ir) = 9 /\
              field df "id" (snd ir)
              = Str (astype_str str_of_float (field df "datetime" (snd ir)) ++ "-"
                       ++ format_4f (field df "latitude" (snd ir)) ++ "-"
                       ++ format_4f (field df "longitude" (snd ir)) ++ "-"
                       ++ astype_str str_of_float (field df "magnitude" (snd ir)))%string)
           (rows df).
Proof.
  intros year output_dir log out df Hout Hdf.
  destruct (year_outcome_returns str_of_float format_4f to_numeric common_type read_html
              http_get now to_numeric_numbers year output_dir log out Hout)
    as [st [_ [Hinv [[_ ->] | [rs [Hne [E [_ ->]]]]]]]]; [discriminate|].
  cbn [year_result returned] in Hdf. injection Hdf as <-.
  split; [reflexivity|].
  pose proof (valid_rows_widths (all_data st) rs Hne
                (invariant_columns st Hinv) E) as Hw.
  cbn [rows]. rewrite Forall_map. eapply Forall_impl; [|exact Hw].
  intros [i r] Hr. cbn [snd] in *.
  rewrite (final_row_cells r Hr).
  do 8 (destruct r as [|? r]; [discriminate|]). destruct r; [|discriminate].
  split; reflexivity.
Qed.

Lemma column_final_rows (j : nat) rs :
  Forall (fun ir => List.length (snd ir) = 8) rs ->
  column (S j) (map (fun ir => (fst ir, final_row str_of_float format_4f (snd ir))) rs)
  = column j rs.
Proof.
  intros H. unfold column. rewrite map_map.
  apply map_ext_in. intros ir Hin. cbn [snd].
  rewrite Forall_forall in H. now rewrite (final_row_cells (snd ir) (H ir Hin)).
Qed.

(** The cleaning block on a frame with the final columns: latitude and
    longitude are converted, and the conversion stops at 'depth'. *)
Lemma clean_final_columns_value (df : DataFrame) :
  columns df = final_columns ->
  clean_rows to_numeric df
  = (v1 <- to_numeric (column 2 (rows df)) ;;
     v2 <- to_numeric (column 3 (rows df)) ;;
     Raise (KeyError "depth")).
Proof.
  intros Hc. unfold clean_rows, set_columns. rewrite Hc.
  change (map lower final_columns) with final_columns. unfold numeric_cols.
  rewrite (convert_numeric_step to_numeric final_columns "latitude" _ 2) by reflexivity.
  unfold convert_column.
  destruct (to_numeric (column 2 (rows df))) as [v1|e1] eqn:E1; cbn [bind]; [|reflexivity].
  rewrite (convert_numeric_step to_numeric final_columns "longitude" _ 3) by reflexivity.
  unfold convert_column.
  assert (L1 : List.length v1 = List.length (rows df)).
  { destruct (to_numeric_numbers _ _ E1) as [L _]. unfold column in L.
    now rewrite length_map in L. }
  rewrite (column_put_column_other 2 3 (rows df) ltac:(discriminate) v1 L1).
  destruct (to_numeric (column 3 (rows df))) as [v2|e2]; reflexivity.
Qed.

Lemma clean_final_columns (df : DataFrame) :
  columns df = final_columns ->
  (forall c, clean_rows to_numeric df <> Ok c) /\
  ((exists v, to_numeric (column 2 (rows df)) = Ok v) ->
   (exists v, to_numeric (column 3 (rows df)) = Ok v) ->
   clean_rows to_numeric df = Raise (KeyError "depth")).
Proof.
  intros Hc. rewrite (clean_final_columns_value df Hc).
  destruct (to_numeric (column 2 (rows df))) as [v1|e1]; cbn [bind].
  - destruct (to_numeric (column 3 (rows df))) as [v2|e2]; cbn [bind].
    + split; [intros c; discriminate | intros _ _; reflexivity].
    + split; [intros c; discriminate | intros _ [v Hv]; discriminate].
  - split; [intros c; discriminate | intros [v Hv]; discriminate].
Qed.

(** X7.  The cleaning block reads the column 'depth', which the renaming of
    line 280 turns into 'depth_km'.  Applied to a frame with the final
    columns it never returns, and it raises KeyError('depth') once latitude
    and longitude are converted.  On the frame a year has returned they are,
    being numeric already: cleaning that frame raises KeyError('depth'). *)
Theorem cleaning_a_final_frame_raises_key_error :
  (forall df : DataFrame,
     columns df = final_columns ->
     (forall c, clean_rows to_numeric df <> Ok c) /\
     ((exists v, to_numeric (column 2 (rows df)) = Ok v) ->
      (exists v, to_numeric (column 3 (rows df)) = Ok v) ->
      clean_rows to_numeric df = Raise (KeyError "depth"))) /\
  (forall (year : Z) (output_dir : string) (log : list string) (out : year_outcome)
          (df : DataFrame),
     scrape_year_data str_of_float format_4f to_numeric common_type read_html http_get now
       year output_dir log = Ok out ->
     returned out = Some df ->
     clean_rows to_numeric df = Raise (KeyError "depth")).
Proof.
  split; [exact clean_final_columns|].
  intros year output_dir log out df Hout Hdf.
  destruct (year_outcome_returns str_of_float format_4f to_numeric common_type read_html
              http_get now to_numeric_numbers year output_dir log out Hout)
    as [st [_ [Hinv [[_ ->] | [rs [Hne [E [_ ->]]]]]]]]; [discriminate|].
  cbn [year_result returned] in Hdf. injection Hdf as <-.
  pose proof (valid_rows_widths (all_data st) rs Hne (invariant_columns st Hinv) E) as Hw.
  pose proof (valid_columns_selected to_numeric to_numeric_numbers _ rs E) as Hsel.
  rewrite Forall_forall in Hsel.
  assert (Hconv : forall j, In j [1; 2; 3; 4] ->
            exists v, to_numeric (column j (rows (valid (partitioned rs)))) = Ok v).
  { intros j Hj. destruct (Hsel j Hj) as [l [v [flags [Ev ->]]]].
    eexists. exact (to_numeric_fixed l v Ev flags). }
  apply clean_final_columns; [reflexivity | |]; cbn [rows];
    rewrite (column_final_rows _ _ Hw); apply Hconv; simpl; tauto.
Qed.

Lemma conversion_of_concat (frames : list DataFrame) :
  frames <> [] ->
  Forall (fun d => columns d = raw_columns) frames ->
  convert_numeric to_numeric numeric_cols
    (set_columns (concat common_type frames)
                 (map lower (columns (concat common_type frames))))
  = (rs <- convert_rows to_numeric (rows (concat common_type frames)) ;;
     Ok (mkDF clean_columns rs)).
Proof.
  intros Hne Hcols. destruct (concat_raw common_type frames Hne Hcols) as [Hc _].
  unfold set_columns. rewrite Hc. apply convert_numeric_exact.
Qed.

(** X16.  Nothing after the loop over the months sits in a [try].  When a
    month gave rows, an exception of the conversion loop of lines 244-245
    leaves [scrape_year_data] as it is; and when the conversion returns but
    the directory name is empty, [os.makedirs] makes the year fail with
    FileNotFoundError.  In both cases nothing is returned for the year. *)
Theorem a_year_fails_in_the_conversion_or_the_directory :
  forall (year : Z) (output_dir : string) (log : list string) (st : loop_state),
    run_months str_of_float read_html http_get now year MONTH_NAMES (initial_state log)
    = Ok st ->
    all_data st <> [] ->
    match convert_numeric to_numeric numeric_cols
            (set_columns (concat common_type (all_data st))
                         (map lower (columns (concat common_type (all_data st))))) with
    | Raise e =>
        scrape_year_data str_of_float format_4f to_numeric common_type read_html http_get now
          year output_dir log = Raise e
    | Ok converted =>
        output_dir = "" ->
        scrape_year_data str_of_float format_4f to_numeric common_type read_html http_get now
          year output_dir log = Raise FileNotFoundError
    end.
Proof.
  intros year output_dir log st Hst Hne.
  destruct (year_outcome_shape str_of_float format_4f to_numeric common_type read_html
              http_get now to_numeric_numbers year output_dir log) as [st' [Hrun [Hinv ->]]].
  rewrite Hst in Hrun. injection Hrun as <-.
  rewrite (conversion_of_concat _ Hne (invariant_columns st Hinv)).
  destruct (all_data st) as [|d ds]; [congruence|].
  destruct (convert_rows to_numeric (rows (concat common_type (d :: ds)))) as [rs|e];
    cbn [bind]; [|reflexivity].
  intros ->. reflexivity.
Qed.

(** X17.  With an empty directory name a year returns only when no month
    gave rows: it then returns None and writes nothing. *)
Theorem empty_directory_name_writes_no_file :
  forall (year : Z) (log : list string) (out : year_outcome),
    scrape_year_data str_of_float format_4f to_numeric common_type read_html http_get now
      year "" log = Ok out ->
    returned out = None /\ files out = [] /\ all_data (final_state out) = [].
Proof.
  intros year log out Hout.
  destruct (year_outcome_returns str_of_float format_4f to_numeric common_type read_html
              http_get now to_numeric_numbers year "" log out Hout)
    as [st [_ [_ [[Hnone ->] | [rs [_ [_ [Hdir _]]]]]]]].
  - split; [reflexivity|]. split; [reflexivity | exact Hnone].
  - discriminate Hdir.
Qed.

End YearShape.

Lemma collected_rows_are_kept_or_reported_witness :
  exists out df removed,
    scrape_year_data sample_str_of_float sample_format_4f sample_to_numeric
      sample_common_type sample_read_html january_only_server sample_now 2024 "data" []
    = Ok out /\
    returned out = Some df /\
    all_removed_rows out = Some removed /\
    shape0 df = 1 /\ shape0 removed = 2 /\
    shape0 df + shape0 removed = list_sum (map shape0 (all_data (final_state out))).
Proof.
  assert (Hrun : exists out df removed,
             scrape_year_data sample_str_of_float sample_format_4f sample_to_numeric
               sample_common_type sample_read_html january_only_server sample_now
               2024 "data" [] = Ok out /\
             returned out = Some df /\ all_removed_rows out = Some removed /\
             shape0 df = 1 /\ shape0 removed = 2)
    by (do 3 eexists; split; [vm_compute; reflexivity | repeat split]).
  destruct Hrun as [out [df [removed [Hout [Hdf [Hrem [H1 H2]]]]]]].
  exists out, df, removed. repeat (split; [assumption|]).
  pose proof (collected_rows_are_kept_or_reported
                sample_str_of_float sample_format_4f sample_to_numeric sample_common_type
                sample_read_html january_only_server sample_now
                sample_to_numeric_numbers sample_common_type_casts
                2024 "data" [] out Hout) as H.
  rewrite Hdf, Hrem in H. exact H.
Defined.

Lemma returned_records_carry_their_id_witness :
  exists out df,
    scrape_year_data sample_str_of_float sample_format_4f sample_to_numeric
      sample_common_type sample_read_html january_only_server sample_now 2024 "data" []
    = Ok out /\
    returned out = Some df /\
    shape0 df = 1 /\
    columns df = final_columns /\
    Forall (fun ir =>
              List.length (snd ir) = 9 /\
              field df "id" (snd ir)
              = Str (astype_str sample_str_of_float (field df "datetime" (snd ir)) ++ "-"
                       ++ sample_format_4f (field df "latitude" (snd ir)) ++ "-"
                       ++ sample_format_4f (field df "longitude" (snd ir)) ++ "-"
                       ++ astype_str sample_str_of_float (field df "magnitude" (snd ir)))%string)
           (rows df).
Proof.
  destruct sample_year_returns as [out [df [Hout [Hdf Hone]]]].
  exists out, df. split; [exact Hout|]. split; [exact Hdf|]. split; [exact Hone|].
  exact (returned_records_carry_their_id
           sample_str_of_float sample_format_4f sample_to_numeric sample_common_type
           sample_read_html january_only_server sample_now
           sample_to_numeric_numbers sample_common_type_casts
           2024 "data" [] out df Hout Hdf).
Defined.

Lemma cleaning_a_final_frame_raises_key_error_witness :
  exists out df,
    scrape_year_data sample_str_of_float sample_format_4f sample_to_numeric
      sample_common_type sample_read_html january_only_server sample_now 2024 "data" []
    = Ok out /\
    returned out = Some df /\
    shape0 df = 1 /\
    clean_rows sample_to_numeric df = Raise (KeyError "depth").
Proof.
  destruct sample_year_returns as [out [df [Hout [Hdf Hone]]]].
  exists out, df. split; [exact Hout|]. split; [exact Hdf|]. split; [exact Hone|].
  exact (proj2 (cleaning_a_final_frame_raises_key_error
                  sample_str_of_float sample_format_4f sample_to_numeric sample_common_type
                  sample_read_html january_only_server sample_now
                  sample_to_numeric_numbers sample_to_numeric_fixed sample_common_type_casts)
               2024%Z "data" [] out df Hout Hdf).
Defined.

Lemma sample_year_conversion_returns :
  exists st converted,
    run_months sample_str_of_float sample_read_html january_only_server sample_now
      2024 MONTH_NAMES (initial_state []) = Ok st /\
    all_data st <> [] /\
    convert_numeric sample_to_numeric numeric_cols
      (set_columns (concat sample_common_type (all_data st))
                   (map lower (columns (concat sample_common_type (all_data st)))))
    = Ok converted.
Proof.
  do 2 eexists. split; [vm_compute; reflexivity|].
  split; [discriminate | vm_compute; reflexivity].
Qed.

Lemma a_year_fails_in_the_conversion_or_the_directory_witness :
  exists st,
    run_months sample_str_of_float sample_read_html january_only_server sample_now
      2024 MONTH_NAMES (initial_state []) = Ok st /\
    all_data st <> [] /\
    scrape_year_data sample_str_of_float sample_format_4f sample_to_numeric
      sample_common_type sample_read_html january_only_server sample_now 2024 "" []
    = Raise FileNotFoundError.
Proof.
  destruct sample_year_conversion_returns as [st [converted [Hrun [Hne Hconv]]]].
  exists st. split; [exact Hrun|]. split; [exact Hne|].
  pose proof (a_year_fails_in_the_conversion_or_the_directory
                sample_str_of_float sample_format_4f sample_to_numeric sample_common_type
                sample_read_html january_only_server sample_now
                sample_to_numeric_numbers 2024%Z "" [] st Hrun Hne) as H.
  rewrite Hconv in H. exact (H eq_refl).
Defined.

Lemma empty_directory_name_writes_no_file_witness :
  exists out,
    scrape_year_data sample_str_of_float sample_format_4f sample_to_numeric
      sample_common_type sample_read_html january_only_server sample_now 2025 "" []
    = Ok out /\
    returned out = None /\ files out = [] /\ all_data (final_state out) = [].
Proof.
  assert (Hrun : exists out,
             scrape_year_data sample_str_of_float sample_format_4f sample_to_numeric
               sample_common_type sample_read_html january_only_server sample_now
               2025 "" [] = Ok out)
    by (eexists; vm_compute; reflexivity).
  destruct Hrun as [out Hout]. exists out. split; [exact Hout|].
  exact (empty_directory_name_writes_no_file
           sample_str_of_float sample_format_4f sample_to_numeric sample_common_type
           sample_read_html january_only_server sample_now
           sample_to_numeric_numbers 2025 [] out Hout).
Defined.

(* ================================================================= *)
(** * More on the normaliser *)

Section NormaliserExtras.

Variable str_of_float : float -> string.
Variable read_html : string -> result (list DataFrame).
Variable http_get : list string -> string -> http_result.
Variable now : datetime.

Lemma keep_rows_twice (keep : list cell -> bool) (df : DataFrame) :
  keep_rows keep (keep_rows keep df) = keep_rows keep df.
Proof.
  unfold keep_rows. cbn [columns rows]. rewrite map_snd_renumber, filter_filter.
  do 2 f_equal. apply filter_ext. intros r. now destruct (keep r).
Qed.

(** X8.  On a frame with the expected columns the row filters return a
    frame that they leave unchanged when applied again; its index is
    0, 1, 2, ... and none of its rows answers to a drop test. *)
Theorem row_filters_are_idempotent :
  forall df : DataFrame,
    columns df = expected_columns ->
    exists out,
      filter_rows str_of_float df = Ok out /\
      filter_rows str_of_float out = Ok out /\
      index out = seq 0 (shape0 out) /\
      Forall (fun ir => dropped str_of_float (snd ir) = false) (rows out).
Proof.
  intros df Hc. exists (keep_rows (fun r => negb (dropped str_of_float r)) df).
  split; [exact (filter_rows_exact str_of_float df Hc)|].
  split.
  { rewrite filter_rows_exact by exact Hc. now rewrite keep_rows_twice. }
  unfold keep_rows, index, shape0. cbn [rows].
  split.
  - rewrite map_fst_renumber. f_equal. unfold renumber.
    now rewrite length_combine, length_seq, Nat.min_id.
  - apply (rows_renumber_forall (fun r => dropped str_of_float r = false)).
    apply Forall_forall. intros r Hin. apply filter_In in Hin as [_ Hk].
    now apply negb_true_iff.
Qed.

(** X9.  The first table with five columns or more decides alone: when it
    has no rows, or exactly five columns, the page gives None whatever
    tables follow it. *)
Theorem first_wide_table_decides_alone :
  forall (before after : list DataFrame) (t : DataFrame),
    Forall (fun u => shape1 u < 5) before ->
    5 <= shape1 t ->
    empty t = true \/ shape1 t = 5 ->
    normalize str_of_float (before ++ t :: after) = Ok None.
Proof.
  intros before after t Hb Ht Hbad. unfold normalize.
  rewrite (select_table_first before after t Hb Ht).
  destruct (empty t); [reflexivity|].
  destruct Hbad as [Hbad|Hbad]; [discriminate|].
  unfold assign_schema. now rewrite Hbad.
Qed.

(** X10.  When the monthly page is served (a status outside 400-599) and
    parses, [scrape_phivolcs_data_from_html] issues that one request, and
    each row of the frame it returns ends with the month name and the year
    it was called with. *)
Theorem served_page_rows_are_labelled_as_requested :
  forall (year : Z) (month_name text : string) (log : list string) (status : Z)
         (tables : list DataFrame) (df : DataFrame),
    http_get log (month_url year month_name) = Response status text ->
    (status < 400 \/ 600 <= status)%Z ->
    read_html text = Ok tables ->
    fst (scrape_phivolcs_data_from_html str_of_float read_html http_get now
           year month_name log) = Ok (Some df) ->
    snd (scrape_phivolcs_data_from_html str_of_float read_html http_get now
           year month_name log) = log ++ [month_url year month_name] /\
    columns df = raw_columns /\
    Forall (fun ir => exists cells, snd ir = cells ++ [Str month_name; Int year]) (rows df).
Proof.
  intros year month_name text log status tables df Hget Hstatus Hread.
  unfold scrape_phivolcs_data_from_html.
  destruct (month_page_body str_of_float read_html http_get year month_name log)
    as [v|e] eqn:E.
  - cbn [fst snd]. intros [= ->]. split; [reflexivity|].
    pose proof (page_body_shape str_of_float _ _ _ df E) as Hl. split.
    + exact (labelled_with_columns _ _ df Hl).
    + exact (labelled_with_rows _ _ df Hl).
  - exfalso. unfold month_page_body, fetch_tables, raise_for_status in E.
    rewrite Hget in E.
    replace ((400 <=? status)%Z && (status <? 600)%Z) with false in E
      by (symmetry; apply andb_false_iff;
          destruct Hstatus; [left; apply Z.leb_gt; lia | right; apply Z.ltb_ge; lia]).
    cbn [bind] in E. rewrite Hread in E. cbn [bind] in E.
    destruct (normalize_shape str_of_float tables) as [Hn|[df' [_ Hn]]];
      rewrite Hn in E; discriminate.
Qed.

End NormaliserExtras.

Lemma row_filters_are_idempotent_witness :
  exists out,
    filter_rows sample_str_of_float (mkDF expected_columns (rows sample_table)) = Ok out /\
    filter_rows sample_str_of_float out = Ok out /\
    index out = seq 0 (shape0 out) /\
    Forall (fun ir => dropped sample_str_of_float (snd ir) = false) (rows out).
Proof.
  apply (row_filters_are_idempotent sample_str_of_float
           (mkDF expected_columns (rows sample_table))).
  reflexivity.
Defined.

Lemma first_wide_table_decides_alone_witness :
  normalize sample_str_of_float ([narrow_table] ++ five_column_table :: [sample_table])
  = Ok None.
Proof.
  apply (first_wide_table_decides_alone sample_str_of_float
           [narrow_table] [sample_table] five_column_table).
  - apply Forall_cons; [cbv; lia | apply Forall_nil].
  - cbv; lia.
  - right. reflexivity.
Defined.

Lemma served_page_rows_are_labelled_as_requested_witness :
  exists df,
    fst (scrape_phivolcs_data_from_html sample_str_of_float sample_read_html
           january_only_server sample_now 2024 "January" []) = Ok (Some df) /\
    snd (scrape_phivolcs_data_from_html sample_str_of_float sample_read_html
           january_only_server sample_now 2024 "January" [])
    = [] ++ [month_url 2024 "January"] /\
    columns df = raw_columns /\
    Forall (fun ir => exists cells, snd ir = cells ++ [Str "January"; Int 2024]) (rows df).
Proof.
  eexists. split; [vm_compute; reflexivity|].
  apply (served_page_rows_are_labelled_as_requested sample_str_of_float sample_read_html
           january_only_server sample_now 2024 "January" "<table>...</table>" [] 200
           [narrow_table; sample_table]);
    [reflexivity | left; lia | reflexivity | vm_compute; reflexivity].
Defined.

(* ================================================================= *)
(** * The run over several years *)

Section YearsFacts.

Variable str_of_float : float -> string.
Variable format_4f : cell -> string.
Variable to_numeric : list cell -> result (list cell).
Variable common_type : list (list cell) -> list (list cell).
Variable read_html : string -> result (list DataFrame).
Variable http_get : list string -> string -> http_result.
Variable now : datetime.

Hypothesis to_numeric_numbers :
  forall l out, to_numeric l = Ok out ->
                List.length out = List.length l /\ Forall (fun c => is_text c = false) out.

Hypothesis common_type_casts : forall rs, casts rs (common_type rs).

Lemma year_frame_facts (year : Z) (output_dir : string) (log : list string)
      (out : year_outcome) :
  scrape_year_data str_of_float format_4f to_numeric common_type read_html http_get now
    year output_dir log = Ok out ->
  match returned out with
  | None => files out = []
  | Some df =>
      files out
      = [(path_join output_dir ("phivolcs_earthquake_" ++ str_of_int year ++ ".csv")%string,
          df)] /\
      year_frame df
  end.
Proof.
  intros Hout.
  destruct (year_outcome_returns str_of_float format_4f to_numeric common_type read_html
              http_get now to_numeric_numbers year output_dir log out Hout)
    as [st [_ [Hinv [[_ ->] | [rs [Hne [E [_ Hres]]]]]]]]; [reflexivity|].
  destruct (year_result_records str_of_float format_4f to_numeric to_numeric_numbers
              year output_dir st _ rs E _ eq_refl) as [_ Hok].
  pose proof (valid_rows_widths to_numeric common_type to_numeric_numbers common_type_casts
                (all_data st) rs Hne (invariant_columns st Hinv) E) as Hw.
  rewrite Hres. cbn [year_result returned files] in *.
  split; [reflexivity|]. split; [reflexivity|].
  cbn [rows] in *. rewrite Forall_map in *. rewrite Forall_forall in *.
  intros ir Hin. cbn [snd]. split; [|exact (Hok ir Hin)].
  rewrite (final_row_cells str_of_float format_4f (snd ir) (Hw ir Hin)).
  simpl. now rewrite (Hw ir Hin).
Qed.

Lemma dict_set_fresh (k : Z) (v : nat) (d : list (Z * nat)) :
  ~ In k (map fst d) -> dict_set k v d = d ++ [(k, v)].
Proof.
  induction d as [|[k' v'] d IH]; intros Hk; simpl in *; [reflexivity|].
  destruct (Z.eqb_spec k' k) as [e|_]; [exfalso; apply Hk; now left|].
  rewrite IH; [reflexivity | tauto].
Qed.

Lemma year_step_invariant (output_dir : string) (st st' : years_state) (processed : list Z)
      (year : Z) :
  years_invariant st processed ->
  ~ In year processed ->
  year_step str_of_float format_4f to_numeric common_type read_html http_get now
    output_dir st year = Ok st' ->
  years_invariant st' (processed ++ [year]).
Proof.
  intros [Hframes [Hkeys [Hsum Hfiles]]] Hfresh. unfold year_step.
  destruct (scrape_year_data str_of_float format_4f to_numeric common_type read_html
              http_get now year output_dir (issued st)) as [out|e] eqn:E;
    cbn [bind]; [|discriminate].
  pose proof (year_frame_facts year output_dir (issued st) out E) as Hout.
  destruct (returned out) as [df|];
    rewrite dict_set_fresh by (rewrite Hkeys; exact Hfresh); intros [= <-].
  - destruct Hout as [Hf Hdf].
    unfold years_invariant. cbn [all_years_data scrape_summary written].
    split; [|split; [|split]].
    + apply Forall_app. split; [exact Hframes | now constructor].
    + rewrite map_app, Hkeys. reflexivity.
    + rewrite !map_app, !list_sum_app, Hsum. reflexivity.
    + rewrite Hf, map_app, Hfiles. reflexivity.
  - unfold years_invariant. cbn [all_years_data scrape_summary written].
    split; [|split; [|split]].
    + exact Hframes.
    + rewrite map_app, Hkeys. reflexivity.
    + rewrite !map_app, !list_sum_app, Hsum. simpl. lia.
    + rewrite Hout, app_nil_r. exact Hfiles.
Qed.

Lemma run_years_invariant (output_dir : string) (years : list Z) :
  forall (st st' : years_state) (processed : list Z),
    NoDup (processed ++ years) ->
    years_invariant st processed ->
    run_years str_of_float format_4f to_numeric common_type read_html http_get now
      output_dir years st = Ok st' ->
    years_invariant st' (processed ++ years).
Proof.
  induction years as [|y years IH]; intros st st' processed Hnd Hinv; cbn [run_years].
  - intros [= <-]. now rewrite app_nil_r.
  - assert (Hfresh : ~ In y processed).
    { intros Hin. apply NoDup_remove_2 in Hnd. apply Hnd. apply in_or_app. now left. }
    destruct (year_step str_of_float format_4f to_numeric common_type read_html http_get now
                output_dir st y) as [st1|e] eqn:E; cbn [bind]; [|discriminate].
    pose proof (year_step_invariant output_dir st st1 processed y Hinv Hfresh E) as Hinv1.
    replace (processed ++ y :: years) with ((processed ++ [y]) ++ years) in *
      by (now rewrite <- app_assoc).
    exact (IH st1 st' (processed ++ [y]) Hnd Hinv1).
Qed.

Lemma NoDup_py_range (start stop : Z) : NoDup (py_range start stop).
Proof.
  unfold py_range. generalize (Z.to_nat (stop - start)) as n. intros n.
  assert (H : forall l, NoDup l -> NoDup (map (fun k => (start + Z.of_nat k)%Z) l)).
  { induction 1 as [|k l Hk _ IH]; simpl; constructor; [|exact IH].
    intros Hin. apply in_map_iff in Hin as [k' [Heq Hin]].
    assert (k' = k) by lia. now subst. }
  apply H, seq_NoDup.
Qed.

Lemma union_columns_final_acc (frames : list DataFrame) :
  Forall year_frame frames -> union_columns frames final_columns = final_columns.
Proof.
  induction 1 as [|d frames [Hd _] _ IH]; cbn [union_columns]; [reflexivity|].
  rewrite Hd. exact IH.
Qed.

Lemma conform_final (df : DataFrame) (r : list cell) :
  columns df = final_columns -> List.length r = 9 -> conform final_columns df r = r.
Proof.
  intros Hc Hr. unfold conform. rewrite Hc.
  do 9 (destruct r as [|? r]; [discriminate|]). destruct r; [|discriminate].
  reflexivity.
Qed.

Lemma conformed_rows_final (frames : list DataFrame) :
  Forall year_frame frames ->
  flat_map (fun df => map (fun ir => conform final_columns df (snd ir)) (rows df)) frames
  = flat_map (fun df => map snd (rows df)) frames.
Proof.
  induction 1 as [|df frames [Hc Hrows] _ IH]; [reflexivity|].
  cbn [flat_map]. rewrite IH. f_equal.
  apply map_ext_in. intros ir Hin. rewrite Forall_forall in Hrows.
  apply conform_final; [exact Hc | exact (proj1 (Hrows ir Hin))].
Qed.

(** Concatenating frames of years stacks their records and casts them. *)
Lemma concat_year_frames (d : DataFrame) (ds : list DataFrame) :
  Forall year_frame (d :: ds) ->
  concat common_type (d :: ds)
  = mkDF final_columns
         (renumber (common_type (flat_map (fun df => map snd (rows df)) (d :: ds)))).
Proof.
  intros H. unfold concat.
  assert (Hu : union_columns (d :: ds) [] = final_columns).
  { inversion H as [|? ? [Hd _] Hds]; subst. cbn [union_columns]. rewrite Hd.
    exact (union_columns_final_acc ds Hds). }
  rewrite Hu. now rewrite (conformed_rows_final (d :: ds) H).
Qed.

Lemma cast_of_nth (r r' : list cell) :
  Forall2 cast_of r r' -> forall j, cast_of (nth j r NaN) (nth j r' NaN).
Proof.
  induction 1 as [|c c' r r' Hc _ IH]; intros [|j]; simpl;
    [now left | now left | exact Hc | apply IH].
Qed.

Lemma cast_of_number (c c' : cell) :
  cast_of c c' -> is_number c = true -> is_number c' = true.
Proof.
  intros [->|[_ [Hf [Hn _]]]] H; [exact H|].
  destruct c' as [s|z|f]; cbn [is_float isnull is_number] in *;
    [discriminate | reflexivity | now rewrite Hn].
Qed.

Lemma cast_of_zero (c c' : cell) : cast_of c c' -> eq_zero c' = eq_zero c.
Proof. intros [->|[_ [_ [_ H]]]]; [reflexivity | exact H]. Qed.

(** A cast leaves a complete record complete, and off null island. *)
Lemma cast_record_ok (r r' : list cell) :
  Forall2 cast_of r r' ->
  List.length r = 9 /\ record_ok (mkDF final_columns []) r ->
  List.length r' = 9 /\ record_ok (mkDF final_columns []) r'.
Proof.
  intros Hc [Hlen Hok]. split; [now rewrite <- (Forall2_length Hc)|].
  unfold record_ok, field in *. cbn [columns] in *.
  change (position "latitude" final_columns) with (Some 2) in *.
  change (position "longitude" final_columns) with (Some 3) in *.
  change (position "depth_km" final_columns) with (Some 4) in *.
  change (position "magnitude" final_columns) with (Some 5) in *.
  destruct Hok as [H2 [H3 [H4 [H5 Hz]]]].
  split; [exact (cast_of_number _ _ (cast_of_nth r r' Hc 2) H2)|].
  split; [exact (cast_of_number _ _ (cast_of_nth r r' Hc 3) H3)|].
  split; [exact (cast_of_number _ _ (cast_of_nth r r' Hc 4) H4)|].
  split; [exact (cast_of_number _ _ (cast_of_nth r r' Hc 5) H5)|].
  now rewrite (cast_of_zero _ _ (cast_of_nth r r' Hc 2)),
    (cast_of_zero _ _ (cast_of_nth r r' Hc 3)).
Qed.

Lemma casts_records (rs : list (list cell)) :
  Forall (fun r => List.length r = 9 /\ record_ok (mkDF final_columns []) r) rs ->
  Forall (fun r => List.length r = 9 /\ record_ok (mkDF final_columns []) r)
         (common_type rs).
Proof.
  intros H. pose proof (common_type_casts rs) as Hc. unfold casts in Hc.
  induction Hc as [|r r' rs rs' Hr _ IH]; [constructor|].
  inversion H as [|? ? Hr0 Hrest]; subst.
  constructor; [exact (cast_record_ok r r' Hr Hr0) | now apply IH].
Qed.

Lemma concat_year_frames_ok (d : DataFrame) (ds : list DataFrame) :
  Forall year_frame (d :: ds) -> year_frame (concat common_type (d :: ds)).
Proof.
  intros H. rewrite (concat_year_frames d ds H). split; [reflexivity|].
  cbn [rows].
  apply (rows_renumber_forall
           (fun r => List.length r = 9 /\ record_ok (mkDF final_columns []) r)).
  apply casts_records.
  apply Forall_forall. intros r Hin. apply in_flat_map in Hin as [df [Hdf Hin]].
  apply in_map_iff in Hin as [ir [<- Hin]].
  rewrite Forall_forall in H. destruct (H df Hdf) as [Hc Hrows].
  rewrite Forall_forall in Hrows. destruct (Hrows ir Hin) as [Hlen Hok].
  split; [exact Hlen|].
  unfold record_ok, field in *. cbn [columns]. rewrite Hc in Hok. exact Hok.
Qed.

(** A run that returns, by the state the loop over the years ends in. *)
Lemma run_shape (years_back : Z) (output_dir : string) (log : list string)
      (out : run_outcome) :
  scrape_multiple_years str_of_float format_4f to_numeric common_type read_html http_get now
    years_back output_dir log = Ok out ->
  exists st,
    years_invariant st (py_range (dt_year now - years_back + 1) (dt_year now + 1)) /\
    out = match all_years_data st with
          | [] => mkRun None [] (written st) (issued st)
          | _ :: _ =>
              mkRun (Some (concat common_type (all_years_data st))) (scrape_summary st)
                    (written st
                     ++ [(path_join output_dir "earthquakes.json",
                          concat common_type (all_years_data st));
                         (path_join output_dir "phivolcs_earthquake_all_years.csv",
                          concat common_type (all_years_data st))])
                    (issued st)
          end.
Proof.
  unfold scrape_multiple_years.
  destruct (run_years str_of_float format_4f to_numeric common_type read_html http_get now
              output_dir (py_range (dt_year now - years_back + 1) (dt_year now + 1))
              (mkYears [] [] [] log)) as [st|e] eqn:E; cbn [bind]; [|discriminate].
  intros H. exists st. split.
  - apply (run_years_invariant output_dir _ (mkYears [] [] [] log) st [] (NoDup_py_range _ _));
      [|exact E].
    split; [constructor|]. now repeat split.
  - destruct (all_years_data st); now injection H.
Qed.

(** X11.  The combined frame a run returns, which is the frame written to
    earthquakes.json, has the nine final columns and nine cells per record;
    in each record latitude, longitude, depth_km and magnitude hold a number
    and latitude and longitude are not both zero. *)
Theorem combined_records_are_complete :
  forall (years_back : Z) (output_dir : string) (log : list string) (out : run_outcome)
         (df : DataFrame),
    scrape_multiple_years str_of_float format_4f to_numeric common_type read_html http_get
      now years_back output_dir log = Ok out ->
    combined_all out = Some df ->
    columns df = final_columns /\
    Forall (fun ir => List.length (snd ir) = 9 /\ record_ok df (snd ir)) (rows df).
Proof.
  intros years_back output_dir log out df Hout Hdf.
  destruct (run_shape years_back output_dir log out Hout) as [st [[Hframes _] ->]].
  destruct (all_years_data st) as [|d ds]; cbn [combined_all] in Hdf; [discriminate|].
  injection Hdf as <-.
  exact (concat_year_frames_ok d ds Hframes).
Qed.

(** X12.  When a run returns a combined frame, the summary returned with it
    has one entry per year from [now.year - years_back + 1] to [now.year],
    in that order, and its counts add up to the number of records of the
    combined frame.  When it returns no frame, the summary returned is the
    empty dict. *)
Theorem summary_counts_add_up :
  forall (years_back : Z) (output_dir : string) (log : list string) (out : run_outcome),
    scrape_multiple_years str_of_float format_4f to_numeric common_type read_html http_get
      now years_back output_dir log = Ok out ->
    match combined_all out with
    | None => summary out = []
    | Some df =>
        map fst (summary out) = py_range (dt_year now - years_back + 1) (dt_year now + 1) /\
        list_sum (map snd (summary out)) = shape0 df
    end.
Proof.
  intros years_back output_dir log out Hout.
  destruct (run_shape years_back output_dir log out Hout) as [st [[_ [Hkeys [Hsum _]]] ->]].
  destruct (all_years_data st) as [|d ds] eqn:Ed; cbn [combined_all summary]; [reflexivity|].
  split; [exact Hkeys|]. rewrite Hsum.
  symmetry. exact (length_concat_rows common_type common_type_casts (d :: ds)).
Qed.

(** X13.  When a run returns, the two combined files were written exactly
    when a year file was, and after the year files; both hold the frame that
    is returned, which has as many records as the year files together.  A
    run that returns no frame has written no file at all. *)
Theorem combined_files_follow_the_year_files :
  forall (years_back : Z) (output_dir : string) (log : list string) (out : run_outcome),
    scrape_multiple_years str_of_float format_4f to_numeric common_type read_html http_get
      now years_back output_dir log = Ok out ->
    match combined_all out with
    | None => run_files out = []
    | Some df =>
        exists year_files,
          year_files <> [] /\
          run_files out
          = year_files
            ++ [(path_join output_dir "earthquakes.json", df);
                (path_join output_dir "phivolcs_earthquake_all_years.csv", df)] /\
          list_sum (map (fun f => shape0 (snd f)) year_files) = shape0 df
    end.
Proof.
  intros years_back output_dir log out Hout.
  destruct (run_shape years_back output_dir log out Hout) as [st [[_ [_ [_ Hfiles]]] ->]].
  destruct (all_years_data st) as [|d ds] eqn:Ed; cbn [combined_all run_files].
  - destruct (written st); [reflexivity | discriminate].
  - exists (written st). split; [|split].
    + intros Hw. rewrite Hw in Hfiles. discriminate.
    + reflexivity.
    + rewrite (length_concat_rows common_type common_type_casts), <- Hfiles, map_map.
      reflexivity.
Qed.

(** X14.  With [years_back] zero or negative the range of years is empty:
    nothing is requested, nothing is written, and (None, {}) is returned. *)
Theorem no_years_back_no_request :
  forall (years_back : Z) (output_dir : string) (log : list string),
    (years_back <= 0)%Z ->
    scrape_multiple_years str_of_float format_4f to_numeric common_type read_html http_get
      now years_back output_dir log
    = Ok (mkRun None [] [] log).
Proof.
  intros years_back output_dir log H. unfold scrape_multiple_years, py_range.
  replace (Z.to_nat (dt_year now + 1 - (dt_year now - years_back + 1))) with 0 by lia.
  reflexivity.
Qed.

End YearsFacts.

Lemma sample_run_returns :
  exists out df,
    scrape_multiple_years sample_str_of_float sample_format_4f sample_to_numeric
      sample_common_type sample_read_html january_only_server sample_now 3 "data" []
    = Ok out /\
    combined_all out = Some df /\
    shape0 df = 1.
Proof. do 2 eexists. split; [vm_compute; reflexivity|]. split; reflexivity. Qed.

Lemma combined_records_are_complete_witness :
  exists out df,
    scrape_multiple_years sample_str_of_float sample_format_4f sample_to_numeric
      sample_common_type sample_read_html january_only_server sample_now 3 "data" []
    = Ok out /\
    combined_all out = Some df /\
    shape0 df = 1 /\
    columns df = final_columns /\
    Forall (fun ir => List.length (snd ir) = 9 /\ record_ok df (snd ir)) (rows df).
Proof.
  destruct sample_run_returns as [out [df [Hout [Hdf Hone]]]].
  exists out, df. split; [exact Hout|]. split; [exact Hdf|]. split; [exact Hone|].
  exact (combined_records_are_complete
           sample_str_of_float sample_format_4f sample_to_numeric sample_common_type
           sample_read_html january_only_server sample_now
           sample_to_numeric_numbers sample_common_type_casts
           3%Z "data" [] out df Hout Hdf).
Defined.

Lemma summary_counts_add_up_witness :
  exists out df,
    scrape_multiple_years sample_str_of_float sample_format_4f sample_to_numeric
      sample_common_type sample_read_html january_only_server sample_now 3 "data" []
    = Ok out /\
    combined_all out = Some df /\
    shape0 df = 1 /\
    map fst (summary out) = py_range (dt_year sample_now - 3 + 1) (dt_year sample_now + 1) /\
    list_sum (map snd (summary out)) = shape0 df.
Proof.
  destruct sample_run_returns as [out [df [Hout [Hdf Hone]]]].
  exists out, df. split; [exact Hout|]. split; [exact Hdf|]. split; [exact Hone|].
  pose proof (summary_counts_add_up
                sample_str_of_float sample_format_4f sample_to_numeric sample_common_type
                sample_read_html january_only_server sample_now
                sample_to_numeric_numbers sample_common_type_casts
                3%Z "data" [] out Hout) as H.
  rewrite Hdf in H. exact H.
Defined.

Lemma combined_files_follow_the_year_files_witness :
  exists out df year_files,
    scrape_multiple_years sample_str_of_float sample_format_4f sample_to_numeric
      sample_common_type sample_read_html january_only_server sample_now 3 "data" []
    = Ok out /\
    combined_all out = Some df /\
    shape0 df = 1 /\
    year_files <> [] /\
    run_files out
    = year_files
      ++ [(path_join "data" "earthquakes.json", df);
          (path_join "data" "phivolcs_earthquake_all_years.csv", df)] /\
    list_sum (map (fun f => shape0 (snd f)) year_files) = shape0 df.
Proof.
  destruct sample_run_returns as [out [df [Hout [Hdf Hone]]]].
  pose proof (combined_files_follow_the_year_files
                sample_str_of_float sample_format_4f sample_to_numeric sample_common_type
                sample_read_html january_only_server sample_now
                sample_to_numeric_numbers sample_common_type_casts
                3%Z "data" [] out Hout) as H.
  rewrite Hdf in H. destruct H as [year_files H].
  exists out, df, year_files.
  split; [exact Hout|]. split; [exact Hdf|]. split; [exact Hone | exact H].
Defined.

Lemma no_years_back_no_request_witness :
  scrape_multiple_years sample_str_of_float sample_format_4f sample_to_numeric
    sample_common_type sample_read_html january_only_server sample_now 0 "data" []
  = Ok (mkRun None [] [] []).
Proof.
  apply (no_years_back_no_request sample_str_of_float sample_format_4f sample_to_numeric
           sample_common_type sample_read_html january_only_server sample_now 0 "data" []).
  lia.
Defined.

(** Three years back from 2026 with a server that has January 2024 only:
    one year file and the two combined files are written; the summary
    counts one record for 2024 and none for 2025 and 2026. *)
Example sample_run_writes_three_files :
  exists out df,
    scrape_multiple_years sample_str_of_float sample_format_4f sample_to_numeric
      sample_common_type sample_read_html january_only_server sample_now 3 "data" [] = Ok out /\
    combined_all out = Some df /\
    summary out = [(2024%Z, 1); (2025%Z, 0); (2026%Z, 0)] /\
    map fst (run_files out)
    = ["data/phivolcs_earthquake_2024.csv"; "data/earthquakes.json";
       "data/phivolcs_earthquake_all_years.csv"] /\
    shape0 df = 1.
Proof. do 2 eexists. split; [vm_compute; reflexivity|]. repeat split. Qed.
